(** * Copiloto-ID: identity-and-behaviour inference engine

    A shallow embedding of the Python sources [nod_detector.py],
    [fatigue_processor.py], [face_processor.py], [pose_estimator.py] and of
    the session state machine of [gui.py], followed by the properties
    stated about them.

    Numbers.  Python [float]s and numpy [float64]s are idealised as exact
    rationals ([Q]).  The facial metrics, whose quotients may have a zero
    divisor, are numpy values that can also be [inf] or [nan] ([NpFloat]).
    Frame counters are integers ([Z]).

    Time.  Every [time.time()] is an explicit argument of the function
    that performs the read, one argument per read site.

    Exceptions.  A call that can raise returns a [Py.result]; the state
    machine threads the window and the exception through a small
    state-and-exception monad ([Gui.M]).

    Collaborators.  What the detectors, the pose estimator, the embedding
    model, the database and the widgets answer on a frame is part of the
    input of that frame ([Gui.Env], [FatigueProcessor.Frame]). *)

From Stdlib Require Import ZArith QArith Qabs Qround String List Bool Lia Lqa.
Import ListNotations.
Open Scope Q_scope.

(** ** Python numerics *)

Module Py.

(** [x < y] on floats, as a boolean. *)
Definition ltb (x y : Q) : bool := negb (Qle_bool y x).
Definition gtb (x y : Q) : bool := ltb y x.
Definition leb (x y : Q) : bool := Qle_bool x y.
Definition geb (x y : Q) : bool := Qle_bool y x.

(** Python's [max(a, b)] keeps [a] unless [b > a]; [min(a, b)] keeps [a]
    unless [b < a]. *)
Definition max (a b : Q) : Q := if gtb b a then b else a.
Definition min (a b : Q) : Q := if ltb b a then b else a.

(** [int(x)]: truncation towards zero. *)
Definition int (x : Q) : Z :=
  if ltb x 0 then (- Qfloor (- x))%Z else Qfloor x.

(** Exceptions of the Python runtime that the embedded code can raise. *)
Inductive exn :=
  | AttributeError | NameError | UnboundLocalError | TypeError
  | IndexError | KeyError | ValueError | RuntimeError.

(** The result of a call: a value, or a raised exception. *)
Inductive result (A : Type) :=
  | Ok (a : A)
  | Raise (e : exn).
Arguments Ok {A} a.
Arguments Raise {A} e.

Definition is_ok {A} (r : result A) : bool :=
  match r with Ok _ => true | Raise _ => false end.

(** [list(set(l))]: duplicates removed.  The iteration order of a Python
    set of strings is unspecified; only membership is meaningful. *)
Definition list_set (l : list string) : list string := nodup string_dec l.

End Py.

(** ** numpy helpers *)

Module Np.

(** [np.diff]: differences of adjacent entries. *)
Fixpoint diff (l : list Q) : list Q :=
  match l with
  | a :: (b :: _) as tl => (b - a) :: diff tl
  | _ => []
  end.

(** [np.clip(l, lo, None)]. *)
Definition clip_min (lo : Q) (l : list Q) : list Q :=
  map (fun x => if Py.ltb x lo then lo else x) l.

(** [np.clip(x, lo, hi)] on a scalar. *)
Definition clip (x lo hi : Q) : Q :=
  if Py.ltb x lo then lo else if Py.gtb x hi then hi else x.

End Np.

(** ** nod_detector.py *)

Module NodDetector.

Record Config := {
  window_size : nat;
  min_frames_for_analysis : nat;
  y_angle_threshold : Q;
  y_recovery_threshold : Q;
  min_velocity_dps : Q;
  max_velocity_dps : Q;
  recovery_pattern_weight : Q;
  cooldown_period_secs : Q;
  consecutive_frames_threshold : Z
}.

Definition default_config : Config := {|
  window_size := 20;
  min_frames_for_analysis := 10;
  y_angle_threshold := 12;
  y_recovery_threshold := 6;
  min_velocity_dps := 100;
  max_velocity_dps := 800;
  recovery_pattern_weight := 1.5;
  cooldown_period_secs := 5;
  consecutive_frames_threshold := 2
|}.

Record t := {
  config : Config;
  angle_y_history : list Q;
  timestamp_history : list Q;
  last_detection_time : Q;
  risk_score : Q
}.

(** [__init__] *)
Definition init (cfg : Config) : t := {|
  config := cfg;
  angle_y_history := [];
  timestamp_history := [];
  last_detection_time := 0;
  risk_score := 0
|}.

Definition reset (d : t) : t := init (config d).

(** Criterion 1 of [_detect_nodding]: some delta above the angle threshold
    whose velocity lies strictly between the two velocity bounds. *)
Definition large_dip (cfg : Config) (delta_angles velocities_dps : list Q) : bool :=
  existsb (fun dv =>
             Py.gtb (fst dv) (y_angle_threshold cfg)
             && Py.gtb (snd dv) (min_velocity_dps cfg)
             && Py.ltb (snd dv) (max_velocity_dps cfg))
          (combine delta_angles velocities_dps).

(** Criterion 2: two consecutive deltas of opposite sign, both above the
    recovery threshold in absolute value. *)
Definition recovery_pattern (cfg : Config) (delta_angles : list Q) : bool :=
  existsb (fun dd =>
             Py.ltb (fst dd * snd dd) 0
             && Py.gtb (Qabs (fst dd)) (y_recovery_threshold cfg)
             && Py.gtb (Qabs (snd dd)) (y_recovery_threshold cfg))
          (combine delta_angles (tl delta_angles)).

(** [_detect_nodding]; [now] is the clock read taken when both criteria hold. *)
Definition _detect_nodding (d : t) (now : Q) : (bool * Q) * t :=
  let cfg := config d in
  let delta_angles := Np.diff (angle_y_history d) in
  let delta_times := Np.clip_min 0.000001 (Np.diff (timestamp_history d)) in
  let velocities_dps :=
    map (fun p => Qabs (fst p / snd p)) (combine delta_angles delta_times) in
  let fire :=
    large_dip cfg delta_angles velocities_dps
    && recovery_pattern cfg delta_angles
    && Py.gtb (now - last_detection_time d) (cooldown_period_secs cfg) in
  let last' := if fire then now else last_detection_time d in
  let risk1 := if fire then risk_score d + recovery_pattern_weight cfg
               else risk_score d in
  let risk2 := Py.min 10 risk1 in
  ((fire, risk2),
   {| config := cfg;
      angle_y_history := angle_y_history d;
      timestamp_history := timestamp_history d;
      last_detection_time := last';
      risk_score := risk2 |}).

(** Appending a sample and trimming the window ([append] then [pop(0)]). *)
Definition push (cfg : Config) (h : list Q) (x : Q) : list Q :=
  let h' := h ++ [x] in
  if (window_size cfg <? length h')%nat then tl h' else h'.

(** [update]; [t_sample] is the clock read of [update] itself, [t_detect]
    the one of [_detect_nodding].  A rational angle is always finite, so
    only [None] takes the early return. *)
Definition update (d : t) (angle_y : option Q) (t_sample t_detect : Q)
  : (bool * Q) * t :=
  match angle_y with
  | None => ((false, risk_score d), d)
  | Some a =>
      let cfg := config d in
      let d1 := {| config := cfg;
                   angle_y_history := push cfg (angle_y_history d) a;
                   timestamp_history := push cfg (timestamp_history d) t_sample;
                   last_detection_time := last_detection_time d;
                   risk_score := Py.max 0 (risk_score d - 0.01) |} in
      if (length (angle_y_history d1) <? min_frames_for_analysis cfg)%nat
      then ((false, risk_score d1), d1)
      else _detect_nodding d1 t_detect
  end.

(** [get_risk_level] *)
Definition get_risk_level (d : t) : string * Q :=
  let risk_value := risk_score d in
  if Py.geb risk_value 7 then ("ALTO"%string, risk_value)
  else if Py.geb risk_value 3.5 then ("MEDIO"%string, risk_value)
  else ("BAJO"%string, risk_value).

(** Feeding a list of angles, one per [update]; update number [k] reads the
    clock values [clk k]. *)
Fixpoint feed (d : t) (angles : list Q) (clk : nat -> Q * Q) (k : nat)
  : list bool * t :=
  match angles with
  | [] => ([], d)
  | a :: rest =>
      let '((nod, _), d') := update d (Some a) (fst (clk k)) (snd (clk k)) in
      let '(outs, d'') := feed d' rest clk (S k) in
      (nod :: outs, d'')
  end.

(** The synthetic window of the nod test. *)
Definition test_window : list Q :=
  [0;0;0;0;0;0;0;0;0;0;14;14;-8;-8;0;0;0;0;0;0].

(** One sample every 30 ms, starting at [t0]. *)
Definition clock_30ms (t0 : Q) (k : nat) : Q * Q :=
  let t := t0 + inject_Z (Z.of_nat k) * 0.03 in (t, t).

Definition count_true (l : list bool) : nat := length (filter (fun b => b) l).

(** The angle history alone, along a feed. *)
Fixpoint quiet (cfg : Config) (h : list Q) (angles : list Q) : bool :=
  match angles with
  | [] => true
  | a :: rest =>
      let h' := push cfg h a in
      ((length h' <? min_frames_for_analysis cfg)%nat
       || negb (recovery_pattern cfg (Np.diff h')))
      && quiet cfg h' rest
  end.

End NodDetector.

(** ** fatigue_processor.py: [PausaActivaHandler] *)

Module PausaActivaHandler.

Record t := {
  work_duration : Q;
  reset_threshold : Q;
  elapsed_work_time : Q;
  is_paused : bool;
  pause_start_time : option Q;
  last_update_time : Q;
  last_pausa_activa_time : option Q
}.

(** [__init__]; [now] is the clock read stored in [last_update_time]. *)
Definition init (work_duration_secs break_reset_threshold_secs now : Q) : t := {|
  work_duration := work_duration_secs;
  reset_threshold := break_reset_threshold_secs;
  elapsed_work_time := 0;
  is_paused := true;
  pause_start_time := None;
  last_update_time := now;
  last_pausa_activa_time := None
|}.

(** [reset]; [t1] and [t2] are its two consecutive clock reads. *)
Definition reset (h : t) (t1 t2 : Q) : t := {|
  work_duration := work_duration h;
  reset_threshold := reset_threshold h;
  elapsed_work_time := 0;
  is_paused := true;
  pause_start_time := None;
  last_update_time := t1;
  last_pausa_activa_time := Some t2
|}.

(** The clock reads of one [update]: its own, and the two of the [reset]
    it may call. *)
Record Clock := { now : Q; reset1 : Q; reset2 : Q }.

(** Truth value of [self.pause_start_time]: [None] and [0.0] are false. *)
Definition truthy (o : option Q) : bool :=
  match o with
  | Some x => negb (Qeq_bool x 0)
  | None => false
  end.

Definition set_times (h : t) (paused : bool) (start : option Q) (upd : Q) (elapsed : Q) : t := {|
  work_duration := work_duration h;
  reset_threshold := reset_threshold h;
  elapsed_work_time := elapsed;
  is_paused := paused;
  pause_start_time := start;
  last_update_time := upd;
  last_pausa_activa_time := last_pausa_activa_time h
|}.

Definition update (h : t) (face_detected pose_detected : bool) (c : Clock)
  : (bool * Z) * t :=
  let current_time := now c in
  let delta_time := current_time - last_update_time h in
  let is_user_present := face_detected || pose_detected in
  let '(should_alert, h') :=
    if is_user_present then
      let paused := false in
      let start := if is_paused h then None else pause_start_time h in
      let h1 := set_times h paused start current_time
                          (elapsed_work_time h + delta_time) in
      if Py.geb (elapsed_work_time h1) (work_duration h1) then
        if match last_pausa_activa_time h1 with
           | None => true
           | Some p => Py.gtb (current_time - p) (work_duration h1 * 0.95)
           end
        then (true, reset h1 (reset1 c) (reset2 c))
        else (false, h1)
      else (false, h1)
    else
      let h1 := if negb (is_paused h)
                then set_times h true (Some current_time) current_time
                               (elapsed_work_time h)
                else set_times h (is_paused h) (pause_start_time h) current_time
                               (elapsed_work_time h) in
      if truthy (pause_start_time h1)
         && match pause_start_time h1 with
            | Some s => Py.gtb (current_time - s) (reset_threshold h1)
            | None => false
            end
      then (false, reset h1 (reset1 c) (reset2 c))
      else (false, h1) in
  let time_remaining := work_duration h' - elapsed_work_time h' in
  ((should_alert, Py.int (Py.max 0 time_remaining)), h').

(** A run of updates; each entry gives the two presence flags and the
    clock reads of that call. *)
Fixpoint run (h : t) (steps : list (bool * bool * Clock)) : list (bool * Z) * t :=
  match steps with
  | [] => ([], h)
  | (f, p, c) :: rest =>
      let '(out, h') := update h f p c in
      let '(outs, h'') := run h' rest in
      (out :: outs, h'')
  end.

(** The clock at second [k]: every read of the call returns the same
    instant [t0 + k]. *)
Definition tick (t0 : Q) (k : Z) : Clock :=
  {| now := t0 + inject_Z k; reset1 := t0 + inject_Z k; reset2 := t0 + inject_Z k |}.

(** User present on every update, one update per second for seconds
    [1 .. n] after [t0]. *)
Definition present_every_second (t0 : Q) (n : nat) : list (bool * bool * Clock) :=
  map (fun k => (true, false, tick t0 (Z.of_nat k))) (seq 1 n).

End PausaActivaHandler.

(** ** numpy [float64] values

    A finite value is an exact rational; division by zero yields numpy's
    [inf] / [nan] (with a RuntimeWarning, not an exception).  Zero carries
    no sign. *)

Module NpFloat.

Inductive npfloat :=
  | Fin (q : Q)
  | PInf
  | NInf
  | NaN.

Definition is_finite (x : npfloat) : bool :=
  match x with Fin _ => true | _ => false end.

Definition add (x y : npfloat) : npfloat :=
  match x, y with
  | NaN, _ | _, NaN => NaN
  | Fin a, Fin b => Fin (a + b)
  | PInf, NInf | NInf, PInf => NaN
  | PInf, _ | _, PInf => PInf
  | NInf, _ | _, NInf => NInf
  end.

Definition sign_inf (neg : bool) : npfloat := if neg then NInf else PInf.

(** [x / y] on float64. *)
Definition div (x y : npfloat) : npfloat :=
  match x, y with
  | NaN, _ | _, NaN => NaN
  | Fin a, Fin b =>
      if Qeq_bool b 0 then
        if Qeq_bool a 0 then NaN else sign_inf (Py.ltb a 0)
      else Fin (a / b)
  | Fin _, (PInf | NInf) => Fin 0
  | PInf, Fin b => sign_inf (Py.ltb b 0)
  | NInf, Fin b => sign_inf (negb (Py.ltb b 0))
  | (PInf | NInf), (PInf | NInf) => NaN
  end.

(** [x < y] and [x > y]; any comparison with [nan] is false. *)
Definition ltb (x y : npfloat) : bool :=
  match x, y with
  | NaN, _ | _, NaN => false
  | Fin a, Fin b => Py.ltb a b
  | NInf, (Fin _ | PInf) => true
  | Fin _, PInf => true
  | _, _ => false
  end.

Definition gtb (x y : npfloat) : bool := ltb y x.

(** Python's [max(a, b)]: [b] if [b > a], else [a]. *)
Definition max (a b : npfloat) : npfloat := if gtb b a then b else a.

(** [np.clip(x, lo, hi)] = [minimum(maximum(x, lo), hi)]; [nan] stays. *)
Definition clip (x : npfloat) (lo hi : Q) : npfloat :=
  match x with
  | NaN => NaN
  | PInf => Fin hi
  | NInf => Fin lo
  | Fin q => Fin (Np.clip q lo hi)
  end.

End NpFloat.

(** ** fatigue_processor.py: [FatigueProcessor] *)

Module FatigueProcessor.

Import NpFloat.

(** The two pieces of the [math] / numpy libraries that have no rational
    counterpart: the square root behind [np.linalg.norm] and [math.sqrt],
    and [math.pi]. *)
Record MathLib := { sqrt : Q -> Q; pi : Q }.

(** [fatigue_detection_thresholds]: every key is read with
    [.get(key, default)], so every key may be absent. *)
Record Thresholds := {
  DISTRACTION_FRAMES_THRESHOLD : option Z;
  YAWN_MAR_FACTOR : option Q;
  YAWN_FRAMES_THRESHOLD : option Z;
  DROWSINESS_EAR_FACTOR : option Q;
  MAX_ALERT_EYES_CLOSED_FRAMES : option Z;
  DROWSINESS_EYES_CLOSED_FRAMES : option Z;
  EYE_RUBBING_FRAMES : option Z
}.

Definition get {A} (o : option A) (default : A) : A :=
  match o with Some v => v | None => default end.

(** A calibration profile, with the two keys this module reads.  The
    profiles the application builds hold both (gui.py, lines 893-898); a
    dict without one of them, which [set_calibration] would store and lines
    270 and 280 would answer with [KeyError], is not represented. *)
Record Calibration := { cal_ear_mean : Q; cal_mar_mean : Q }.

(** [self.state] *)
Record State := {
  yawn_frames : Z;
  closed_eyes_frames : Z;
  stretching_frames : Z;
  eye_rubbing_frames : Z;
  distraction_frames : Z;
  last_yawn_time : Q;
  last_stretching_time : Q;
  last_eye_rub_time : Q;
  last_distraction_alert_time : Q;
  last_despierta_alert_time : Q;
  last_lstm_alert_time : option Q
}.

Definition initial_state : State := {|
  yawn_frames := 0; closed_eyes_frames := 0; stretching_frames := 0;
  eye_rubbing_frames := 0; distraction_frames := 0;
  last_yawn_time := 0; last_stretching_time := 0; last_eye_rub_time := 0;
  last_distraction_alert_time := 0; last_despierta_alert_time := 0;
  last_lstm_alert_time := None
|}.

Record t := {
  config : Thresholds;
  nod_detector : NodDetector.t;
  lstm_classifier : bool;
  pausa_handler : PausaActivaHandler.t;
  calibration_data : option Calibration;
  state : State
}.

(** [reset_state]; [t1], [t2] are the clock reads of the pause handler's
    [reset]. *)
Definition reset_state (fp : t) (t1 t2 : Q) : t := {|
  config := config fp;
  nod_detector := NodDetector.reset (nod_detector fp);
  lstm_classifier := lstm_classifier fp;
  pausa_handler := PausaActivaHandler.reset (pausa_handler fp) t1 t2;
  calibration_data := calibration_data fp;
  state := initial_state
|}.

(** [__init__]: the detector and the pause handler are built ([t0] is the
    handler's clock read), then [reset_state] runs. *)
Definition init (cfg : Thresholds) (nod_cfg : NodDetector.Config) (lstm : bool)
    (work_duration_seconds reset_threshold_seconds : Q) (t0 t1 t2 : Q) : t :=
  reset_state {| config := cfg;
                 nod_detector := NodDetector.init nod_cfg;
                 lstm_classifier := lstm;
                 pausa_handler := PausaActivaHandler.init work_duration_seconds
                                    reset_threshold_seconds t0;
                 calibration_data := None;
                 state := initial_state |} t1 t2.

Definition set_calibration (fp : t) (cal : Calibration) (t1 t2 : Q) : t :=
  reset_state {| config := config fp;
                 nod_detector := nod_detector fp;
                 lstm_classifier := lstm_classifier fp;
                 pausa_handler := pausa_handler fp;
                 calibration_data := Some cal;
                 state := state fp |} t1 t2.

(** *** Facial metrics *)

Definition point : Type := Q * Q.

Record Metrics := {
  ear : npfloat;
  mar : npfloat;
  puc : npfloat;
  moe : npfloat;
  landmarks_np : list point
}.

(** [lm_np[[i0, i1, ...]]]: an index past the end raises [IndexError]. *)
Fixpoint take (lm : list point) (idx : list nat) : Py.result (list point) :=
  match idx with
  | [] => Py.Ok []
  | i :: rest =>
      match nth_error lm i, take lm rest with
      | Some p, Py.Ok ps => Py.Ok (p :: ps)
      | _, _ => Py.Raise Py.IndexError
      end
  end.

(** [pts[i]] on an array obtained from [take]. *)
Definition at_ (pts : list point) (i : nat) : point := nth i pts (0, 0).

Section Metrics.

Variable M : MathLib.

Definition _distance (p1 p2 : point) : Q :=
  let dx := fst p1 - fst p2 in
  let dy := snd p1 - snd p2 in
  sqrt M (dx * dx + dy * dy).

Definition _eye_aspect_ratio (eye_points : list point) : npfloat :=
  let A := _distance (at_ eye_points 1) (at_ eye_points 5) in
  let B := _distance (at_ eye_points 2) (at_ eye_points 4) in
  let C := _distance (at_ eye_points 0) (at_ eye_points 3) in
  if Py.gtb C 0.000001 then div (Fin (A + B)) (Fin (2 * C)) else Fin 0.

Definition _calculate_circularity (iris : list point) : npfloat :=
  let horizontal_radius := _distance (at_ iris 2) (at_ iris 4) / 2 in
  let vertical_radius := _distance (at_ iris 1) (at_ iris 3) / 2 in
  if Py.ltb horizontal_radius 0.000001 || Py.ltb vertical_radius 0.000001 then Fin 0
  else
    let area := pi M * horizontal_radius * vertical_radius in
    let a := horizontal_radius in
    let b := vertical_radius in
    let perimeter := pi M * (3 * (a + b) - sqrt M ((3 * a + b) * (a + 3 * b))) in
    if Py.ltb perimeter 0.000001 then Fin 0
    else
      let circularity := div (Fin (4 * pi M * area)) (Fin (perimeter * perimeter)) in
      clip circularity 0 1.

(** The iris block, inside [try ... except IndexError]. *)
Definition puc_of (lm_np : list point) : npfloat :=
  match take lm_np [473; 474; 475; 476; 477]%nat,
        take lm_np [468; 469; 470; 471; 472]%nat with
  | Py.Ok right_iris_pts, Py.Ok left_iris_pts =>
      let puc_right := _calculate_circularity right_iris_pts in
      let puc_left := _calculate_circularity left_iris_pts in
      if gtb puc_right (Fin 0) && gtb puc_left (Fin 0)
      then div (add puc_right puc_left) (Fin 2)
      else max puc_right puc_left
  | _, _ => Fin 0
  end.

Definition moe_of (ear mar : npfloat) (calibration_data : option Calibration) : npfloat :=
  match calibration_data with
  | Some cal =>
      let cal_ear := cal_ear_mean cal in
      let cal_mar := cal_mar_mean cal in
      let ear_norm := if Py.gtb cal_ear 0.000001 then div ear (Fin cal_ear) else Fin 1 in
      let mar_norm := if Py.gtb cal_mar 0.000001 then div mar (Fin cal_mar) else Fin 1 in
      if gtb ear_norm (Fin 0.000001) then div mar_norm ear_norm else mar_norm
  | None =>
      if gtb ear (Fin 0.000001) then div mar ear else mar
  end.

(** [_calculate_facial_metrics]; [landmark] holds the normalised [(x, y)]
    of [face_landmarks.landmark], [frame_shape] is [(h, w)]. *)
Definition _calculate_facial_metrics (landmark : list point) (frame_shape : Q * Q)
    (calibration_data : option Calibration) : Py.result Metrics :=
  let '(h, w) := frame_shape in
  let lm_np := map (fun lm => (fst lm * w, snd lm * h)) landmark in
  match take lm_np [362; 385; 387; 263; 373; 380]%nat,
        take lm_np [33; 160; 158; 133; 153; 144]%nat,
        take lm_np [61; 291; 0; 17]%nat with
  | Py.Ok left_eye_pts, Py.Ok right_eye_pts, Py.Ok mouth_pts =>
      let ear := div (add (_eye_aspect_ratio left_eye_pts)
                          (_eye_aspect_ratio right_eye_pts)) (Fin 2) in
      let mar := div (Fin (_distance (at_ mouth_pts 0) (at_ mouth_pts 1)))
                     (Fin (_distance (at_ mouth_pts 2) (at_ mouth_pts 3))) in
      let puc := puc_of lm_np in
      let moe := moe_of ear mar calibration_data in
      Py.Ok {| ear := ear; mar := mar; puc := puc; moe := moe;
               landmarks_np := lm_np |}
  | _, _, _ => Py.Raise Py.IndexError
  end.

End Metrics.

(** *** Per-frame inference *)

(** What one call of [process_frame_for_inference] receives.  The head
    angle, the eye-rubbing code and the classifier's answer are the results
    of [calculate_head_angle], [detect_eye_rubbing] and
    [lstm_classifier.update] on this frame. *)
Record Frame := {
  frame_shape : Q * Q;
  face_landmarks : option (list point);
  pose_detected : bool;
  head_angle : option Q * option Q;
  rub_type : Z;
  lstm_prediction : option Z
}.

(** The clock reads of one call, in source order. *)
Record Clock := {
  t_pausa : PausaActivaHandler.Clock;
  t_distraction : Q;
  t_distraction_set : Q;
  t_current : Q;
  t_nod : Q;
  t_nod_detect : Q
}.

Record Overlay := {
  ov_metrics : option Metrics;
  alert_text : option string;
  is_max_alert : bool;
  pausa_seconds : option Z;
  ov_lstm_prediction : option Z;
  angles : option (Q * Q)
}.

Definition with_state (fp : t) (s : State) : t := {|
  config := config fp; nod_detector := nod_detector fp;
  lstm_classifier := lstm_classifier fp; pausa_handler := pausa_handler fp;
  calibration_data := calibration_data fp; state := s |}.

Definition with_pausa (fp : t) (h : PausaActivaHandler.t) : t := {|
  config := config fp; nod_detector := nod_detector fp;
  lstm_classifier := lstm_classifier fp; pausa_handler := h;
  calibration_data := calibration_data fp; state := state fp |}.

Definition with_nod (fp : t) (d : NodDetector.t) : t := {|
  config := config fp; nod_detector := d;
  lstm_classifier := lstm_classifier fp; pausa_handler := pausa_handler fp;
  calibration_data := calibration_data fp; state := state fp |}.

Definition set_distraction (s : State) (frames : Z) (last : Q) : State := {|
  yawn_frames := yawn_frames s; closed_eyes_frames := closed_eyes_frames s;
  stretching_frames := stretching_frames s;
  eye_rubbing_frames := eye_rubbing_frames s; distraction_frames := frames;
  last_yawn_time := last_yawn_time s;
  last_stretching_time := last_stretching_time s;
  last_eye_rub_time := last_eye_rub_time s;
  last_distraction_alert_time := last;
  last_despierta_alert_time := last_despierta_alert_time s;
  last_lstm_alert_time := last_lstm_alert_time s |}.

Definition set_yawn (s : State) (frames : Z) (last : Q) : State := {|
  yawn_frames := frames; closed_eyes_frames := closed_eyes_frames s;
  stretching_frames := stretching_frames s;
  eye_rubbing_frames := eye_rubbing_frames s;
  distraction_frames := distraction_frames s;
  last_yawn_time := last;
  last_stretching_time := last_stretching_time s;
  last_eye_rub_time := last_eye_rub_time s;
  last_distraction_alert_time := last_distraction_alert_time s;
  last_despierta_alert_time := last_despierta_alert_time s;
  last_lstm_alert_time := last_lstm_alert_time s |}.

Definition set_closed_eyes (s : State) (frames : Z) (last : Q) : State := {|
  yawn_frames := yawn_frames s; closed_eyes_frames := frames;
  stretching_frames := stretching_frames s;
  eye_rubbing_frames := eye_rubbing_frames s;
  distraction_frames := distraction_frames s;
  last_yawn_time := last_yawn_time s;
  last_stretching_time := last_stretching_time s;
  last_eye_rub_time := last_eye_rub_time s;
  last_distraction_alert_time := last_distraction_alert_time s;
  last_despierta_alert_time := last;
  last_lstm_alert_time := last_lstm_alert_time s |}.

Definition set_eye_rub (s : State) (frames : Z) (last : Q) : State := {|
  yawn_frames := yawn_frames s; closed_eyes_frames := closed_eyes_frames s;
  stretching_frames := stretching_frames s;
  eye_rubbing_frames := frames;
  distraction_frames := distraction_frames s;
  last_yawn_time := last_yawn_time s;
  last_stretching_time := last_stretching_time s;
  last_eye_rub_time := last;
  last_distraction_alert_time := last_distraction_alert_time s;
  last_despierta_alert_time := last_despierta_alert_time s;
  last_lstm_alert_time := last_lstm_alert_time s |}.

Definition set_lstm (s : State) (last : Q) : State := {|
  yawn_frames := yawn_frames s; closed_eyes_frames := closed_eyes_frames s;
  stretching_frames := stretching_frames s;
  eye_rubbing_frames := eye_rubbing_frames s;
  distraction_frames := distraction_frames s;
  last_yawn_time := last_yawn_time s;
  last_stretching_time := last_stretching_time s;
  last_eye_rub_time := last_eye_rub_time s;
  last_distraction_alert_time := last_distraction_alert_time s;
  last_despierta_alert_time := last_despierta_alert_time s;
  last_lstm_alert_time := Some last |}.

(** The branch taken when no face is detected (lines 229-237). *)
Definition distraction_block (th : Thresholds) (s : State) (events : list string)
    (c : Clock) : list string * State :=
  let frames := (distraction_frames s + 1)%Z in
  let threshold := get (DISTRACTION_FRAMES_THRESHOLD th) 30%Z in
  if (frames >? threshold)%Z
     && Py.gtb (t_distraction c - last_distraction_alert_time s) 5
  then (events ++ ["Distraccion"%string], set_distraction s frames (t_distraction_set c))
  else (events, set_distraction s frames (last_distraction_alert_time s)).

(** The classifier block (lines 246-258).  [current_time] is the local
    variable of that name as it stands when the block runs. *)
Definition lstm_block (fp : t) (f : Frame) (current_time : option Q)
    (s : State) (events : list string) : Py.result (list string * State) :=
  if lstm_classifier fp then
    match lstm_prediction f with
    | Some p =>
        if (p =? 1)%Z then
          match current_time with
          | None => Py.Raise Py.UnboundLocalError
          | Some ct =>
              if Py.gtb (ct - get (last_lstm_alert_time s) 0) 30
              then Py.Ok (events ++ ["Somnolencia"%string], set_lstm s ct)
              else Py.Ok (events, s)
          end
        else Py.Ok (events, s)
    | None => Py.Ok (events, s)
    end
  else Py.Ok (events, s).

(** The yawn block (lines 270-278). *)
Definition yawn_block (th : Thresholds) (cal : Calibration) (m : Metrics)
    (current_time : Q) (s : State) (events : list string) : list string * State :=
  if gtb (mar m) (Fin (cal_mar_mean cal * get (YAWN_MAR_FACTOR th) 1.8)) then
    let frames := (yawn_frames s + 1)%Z in
    if (frames >? get (YAWN_FRAMES_THRESHOLD th) 8%Z)%Z
       && Py.gtb (current_time - last_yawn_time s) 10
    then (events ++ ["Bostezar"%string], set_yawn s 0 current_time)
    else (events, set_yawn s frames (last_yawn_time s))
  else (events, set_yawn s 0 (last_yawn_time s)).

(** The eyes-closed block (lines 280-290). *)
Definition eyes_block (th : Thresholds) (cal : Calibration) (m : Metrics)
    (current_time : Q) (s : State) (events : list string) : list string * State :=
  let ear_threshold := cal_ear_mean cal * get (DROWSINESS_EAR_FACTOR th) 0.75 in
  if ltb (ear m) (Fin ear_threshold) then
    let frames := (closed_eyes_frames s + 1)%Z in
    if (frames >? get (MAX_ALERT_EYES_CLOSED_FRAMES th) 60%Z)%Z then
      if Py.gtb (current_time - last_despierta_alert_time s) 5
      then (events ++ ["Despierta"%string], set_closed_eyes s frames current_time)
      else (events, set_closed_eyes s frames (last_despierta_alert_time s))
    else if (frames >? get (DROWSINESS_EYES_CLOSED_FRAMES th) 20%Z)%Z
    then (events ++ ["Somnolencia"%string],
          set_closed_eyes s frames (last_despierta_alert_time s))
    else (events, set_closed_eyes s frames (last_despierta_alert_time s))
  else (events, set_closed_eyes s 0 (last_despierta_alert_time s)).

(** The eye-rubbing block (lines 296-304). *)
Definition rub_block (th : Thresholds) (f : Frame) (current_time : Q)
    (s : State) (events : list string) : list string * State :=
  if (rub_type f >? 0)%Z then
    let frames := (eye_rubbing_frames s + 1)%Z in
    if (frames >? get (EYE_RUBBING_FRAMES th) 15%Z)%Z
       && Py.gtb (current_time - last_eye_rub_time s) 10
    then (events ++ ["Frotar Ojos"%string], set_eye_rub s frames current_time)
    else (events, set_eye_rub s frames (last_eye_rub_time s))
  else (events, set_eye_rub s 0 (last_eye_rub_time s)).

Definition mem (e : string) (l : list string) : bool :=
  existsb (String.eqb e) l.

(** The banner priority (lines 306-318). *)
Definition banner (events : list string) : option string * bool :=
  if mem "Despierta" events || mem "Cabeceo" events then
    (Some (if mem "Despierta" events then "¡DESPIERTA!" else "NO TE DUERMAS")%string, true)
  else if mem "Somnolencia" events then (Some "SOMNOLENCIA DETECTADA"%string, false)
  else if mem "Bostezar" events then (Some "BOSTEZO DETECTADO"%string, false)
  else if mem "Frotar Ojos" events then (Some "DESCANSA LA VISTA"%string, false)
  else if mem "Distraccion" events then (Some "ATENCION AL FRENTE"%string, false)
  else if mem "Pausa Activa" events then (Some "PAUSA ACTIVA RECOMENDADA"%string, false)
  else (None, false).

Section Inference.

Variable M : MathLib.

(** [process_frame_for_inference]: the returned pair, or the exception,
    together with the processor as the call leaves it. *)
Definition process_frame_for_inference (fp : t) (f : Frame) (c : Clock)
  : Py.result (list string * Overlay) * t :=
  let face_detected := match face_landmarks f with Some _ => true | None => false end in
  let '((alert_pausa, time_remaining), pausa') :=
    PausaActivaHandler.update (pausa_handler fp) face_detected (pose_detected f)
                              (t_pausa c) in
  let fp1 := with_pausa fp pausa' in
  let events0 := if alert_pausa then ["Pausa Activa"%string] else [] in
  match face_landmarks f with
  | None =>
      let '(events1, s1) := distraction_block (config fp1) (state fp1) events0 c in
      (Py.Ok (Py.list_set events1,
              {| ov_metrics := None; alert_text := Some "ROSTRO NO DETECTADO"%string;
                 is_max_alert := false; pausa_seconds := Some time_remaining;
                 ov_lstm_prediction := None; angles := None |}),
       with_state fp1 s1)
  | Some landmark =>
      let s1 := set_distraction (state fp1) 0
                  (last_distraction_alert_time (state fp1)) in
      let fp2 := with_state fp1 s1 in
      match _calculate_facial_metrics M landmark (frame_shape f)
                                      (calibration_data fp2) with
      | Py.Raise e => (Py.Raise e, fp2)
      | Py.Ok metrics =>
          (* [current_time] is assigned further down (line 268) *)
          match lstm_block fp2 f None s1 events0 with
          | Py.Raise e => (Py.Raise e, fp2)
          | Py.Ok (events1, s2) =>
              let fp3 := with_state fp2 s2 in
              let pred := if lstm_classifier fp3 then lstm_prediction f else None in
              match calibration_data fp3 with
              | None =>
                  (Py.Ok (["AWAITING_CALIBRATION"%string],
                          {| ov_metrics := Some metrics; alert_text := None;
                             is_max_alert := false;
                             pausa_seconds := Some time_remaining;
                             ov_lstm_prediction := pred; angles := None |}),
                   fp3)
              | Some cal_data =>
                  let '(angle_x, angle_y) := head_angle f in
                  let thresholds := config fp3 in
                  let current_time := t_current c in
                  let '(events2, s3) :=
                    yawn_block thresholds cal_data metrics current_time s2 events1 in
                  let '(events3, s4) :=
                    eyes_block thresholds cal_data metrics current_time s3 events2 in
                  let '((is_nodding, _), nod') :=
                    NodDetector.update (nod_detector fp3) (Some (get angle_y 0))
                                       (t_nod c) (t_nod_detect c) in
                  let events4 := if is_nodding then events3 ++ ["Cabeceo"%string]
                                 else events3 in
                  let '(events5, s5) := rub_block thresholds f current_time s4 events4 in
                  let '(text, max_alert) := banner events5 in
                  (Py.Ok (Py.list_set events5,
                          {| ov_metrics := Some metrics; alert_text := text;
                             is_max_alert := max_alert;
                             pausa_seconds := Some time_remaining;
                             ov_lstm_prediction := pred;
                             angles := Some (get angle_x 0, get angle_y 0) |}),
                   with_nod (with_state fp3 s5) nod')
              end
          end
      end
  end.

(** Consecutive calls; an exception ends the call that raised it, the
    processor keeps the changes made so far. *)
Fixpoint run (fp : t) (frames : list (Frame * Clock))
  : list (Py.result (list string * Overlay)) * t :=
  match frames with
  | [] => ([], fp)
  | (f, c) :: rest =>
      let '(r, fp') := process_frame_for_inference fp f c in
      let '(rs, fp'') := run fp' rest in
      (r :: rs, fp'')
  end.

End Inference.

(** Whether a call emitted the event [e]. *)
Definition emitted (e : string) (r : Py.result (list string * Overlay)) : bool :=
  match r with
  | Py.Ok (events, _) => mem e events
  | Py.Raise _ => false
  end.

Definition count_emitted (e : string) (rs : list (Py.result (list string * Overlay))) : nat :=
  List.length (filter (emitted e) rs).

End FatigueProcessor.

(** ** face_processor.py: the identity matcher *)

Module FaceProcessor.

Definition Embedding : Type := list Q.

(** An entry of [known_embs_data]. *)
Record UserData := {
  user_id : Z;
  codigo_usuario : string;
  embedding : option Embedding
}.

(** [np.dot] of two 1-D arrays; shapes that differ raise [ValueError]. *)
Fixpoint np_dot (a b : list Q) : Py.result Q :=
  match a, b with
  | [], [] => Py.Ok 0
  | x :: a', y :: b' =>
      match np_dot a' b' with
      | Py.Ok s => Py.Ok (x * y + s)
      | Py.Raise e => Py.Raise e
      end
  | _, _ => Py.Raise Py.ValueError
  end.

Definition compare_embeddings (emb1 emb2 : option Embedding) : Py.result Q :=
  match emb1, emb2 with
  | Some a, Some b => np_dot a b
  | _, _ => Py.Ok 0
  end.

(** The body of the [for] loop of [find_match], from the state
    [(best_match_user_data, highest_similarity)]. *)
Fixpoint scan (query_emb : option Embedding) (known : list UserData) (threshold : Q)
    (best : option UserData) (highest : Q) : Py.result (option UserData * Q) :=
  match known with
  | [] => Py.Ok (best, highest)
  | user_data :: rest =>
      match compare_embeddings query_emb (embedding user_data) with
      | Py.Raise e => Py.Raise e
      | Py.Ok similarity =>
          if Py.gtb similarity highest then
            scan query_emb rest threshold
                 (if Py.geb similarity threshold then Some user_data else best)
                 similarity
          else scan query_emb rest threshold best highest
      end
  end.

Definition find_match (query_emb : option Embedding) (known_embs_data : list UserData)
    (threshold : Q) : Py.result (option UserData * Q) :=
  match query_emb, known_embs_data with
  | None, _ | _, [] => Py.Ok (None, 0)
  | Some _, _ :: _ => scan query_emb known_embs_data threshold None (-1)
  end.

(** The similarities of a query against every known entry, in order. *)
Fixpoint similarities (query_emb : option Embedding) (known : list UserData)
  : Py.result (list Q) :=
  match known with
  | [] => Py.Ok []
  | u :: rest =>
      match compare_embeddings query_emb (embedding u), similarities query_emb rest with
      | Py.Ok s, Py.Ok l => Py.Ok (s :: l)
      | Py.Raise e, _ | _, Py.Raise e => Py.Raise e
      end
  end.

(** The first entry whose similarity equals [s]. *)
Fixpoint first_with (query_emb : option Embedding) (known : list UserData) (s : Q)
  : option UserData :=
  match known with
  | [] => None
  | u :: rest =>
      match compare_embeddings query_emb (embedding u) with
      | Py.Ok s' => if Qeq_bool s' s then Some u else first_with query_emb rest s
      | Py.Raise _ => first_with query_emb rest s
      end
  end.

End FaceProcessor.

(** ** pose_estimator.py *)

Module PoseEstimator.

Record PoseLimits := {
  MAX_ABS_PITCH : option Q;
  MAX_ABS_YAW : option Q;
  MAX_ABS_ROLL : option Q
}.

Definition Pose : Type := Q * Q * Q.

Definition is_pose_acceptable (pose : Pose) (pose_limits : PoseLimits) : bool :=
  let '(pitch, yaw, roll) := pose in
  let max_pitch := FatigueProcessor.get (MAX_ABS_PITCH pose_limits) 20 in
  let max_yaw := FatigueProcessor.get (MAX_ABS_YAW pose_limits) 25 in
  let max_roll := FatigueProcessor.get (MAX_ABS_ROLL pose_limits) 20 in
  Py.leb (Qabs pitch) max_pitch && Py.leb (Qabs yaw) max_yaw
  && Py.leb (Qabs roll) max_roll.

End PoseEstimator.

(** ** gui.py: the session state machine of [MainWindow] *)

Module Gui.

Import FaceProcessor PoseEstimator.

Inductive AppState :=
  | LISTENING | IDENTIFYING | AUTO_REGISTERING | MONITORING | REPOSO.

(** [self.state_timers] *)
Record StateTimers := {
  stable_face_counter : Z;
  face_lost_counter : Z;
  auto_register_start_time : option Q;
  enrichment_start_time : option Q;
  session_embeddings_captured : Z;
  session_captured_poses : list Pose
}.

(** The configuration keys the state machine reads. *)
Record Config := {
  pose_limits : PoseLimits;
  threshold : Q;
  stable_face_frames_to_identify : Z;
  face_lost_frames_to_logout : Z;
  auto_register_seconds : Q;
  SAVE_LOG_ON_SESSION_END : bool
}.

(** The attributes of [MainWindow] the state machine uses.
    [last_known_face_results] is [None] while the attribute has never been
    assigned; its value, once assigned, says whether it holds landmarks. *)
Record MainWindow := {
  config : Config;
  app_state : AppState;
  current_user_id : option Z;
  current_user_code : string;
  state_timers : StateTimers;
  fatigue_processor : FatigueProcessor.t;
  is_calibrating : bool;
  calibration_frames_data : nat;
  last_known_face_results : option bool
}.

(** What the collaborators answer during one frame: the detectors, the
    pose estimator, the face aligner, the embedding model, the database,
    the widgets and the clock.  A call that can fail carries either its
    value or the exception it raises. *)
Record Env := {
  face_results : option (list FatigueProcessor.point);
  pose_results : bool;
  head_pose : option Pose;
  last_face_pose : option Pose;
  align_face : Py.result (option unit);
  get_embedding : Py.result (option Embedding);
  get_all_user_embeddings : Py.result (list UserData);
  log_access_log : Py.result unit;
  register_user : Py.result (option (Z * string));
  store_new_user : Py.result unit;
  populate_event_tree : Py.result unit;
  save_event_log_to_file : Py.result unit;
  t_identify : Q;
  t_auto_start : Q;
  t_auto_now : Q;
  t_enrichment : Q;
  t_reset1 : Q;
  t_reset2 : Q
}.

(** *** State and exceptions *)

Definition M (A : Type) : Type := MainWindow -> Py.result A * MainWindow.

Definition ret {A} (a : A) : M A := fun w => (Py.Ok a, w).

Definition bind {A B} (c : M A) (k : A -> M B) : M B :=
  fun w =>
    match c w with
    | (Py.Ok a, w') => k a w'
    | (Py.Raise e, w') => (Py.Raise e, w')
    end.

Definition raise {A} (e : Py.exn) : M A := fun w => (Py.Raise e, w).

(** [try: body  except Exception: handler] *)
Definition try_except {A} (body : M A) (handler : Py.exn -> M A) : M A :=
  fun w =>
    match body w with
    | (Py.Ok a, w') => (Py.Ok a, w')
    | (Py.Raise e, w') => handler e w'
    end.

Definition read : M MainWindow := fun w => (Py.Ok w, w).

Definition modify (f : MainWindow -> MainWindow) : M unit :=
  fun w => (Py.Ok tt, f w).

(** The answer of a collaborator. *)
Definition call {A} (r : Py.result A) : M A := fun w => (r, w).

Notation "x <- c ;; k" := (bind c (fun x => k))
  (at level 61, c at next level, right associativity).
Notation "c ;;; k" := (bind c (fun _ => k))
  (at level 61, right associativity).

(** *** Attribute updates *)

Definition with_app_state (s : AppState) (w : MainWindow) : MainWindow := {|
  config := config w; app_state := s;
  current_user_id := current_user_id w; current_user_code := current_user_code w;
  state_timers := state_timers w; fatigue_processor := fatigue_processor w;
  is_calibrating := is_calibrating w;
  calibration_frames_data := calibration_frames_data w;
  last_known_face_results := last_known_face_results w |}.

Definition with_user (uid : option Z) (code : string) (w : MainWindow) : MainWindow := {|
  config := config w; app_state := app_state w;
  current_user_id := uid; current_user_code := code;
  state_timers := state_timers w; fatigue_processor := fatigue_processor w;
  is_calibrating := is_calibrating w;
  calibration_frames_data := calibration_frames_data w;
  last_known_face_results := last_known_face_results w |}.

Definition with_timers (tm : StateTimers) (w : MainWindow) : MainWindow := {|
  config := config w; app_state := app_state w;
  current_user_id := current_user_id w; current_user_code := current_user_code w;
  state_timers := tm; fatigue_processor := fatigue_processor w;
  is_calibrating := is_calibrating w;
  calibration_frames_data := calibration_frames_data w;
  last_known_face_results := last_known_face_results w |}.

Definition with_fatigue (fp : FatigueProcessor.t) (calibrating : bool) (frames : nat)
    (w : MainWindow) : MainWindow := {|
  config := config w; app_state := app_state w;
  current_user_id := current_user_id w; current_user_code := current_user_code w;
  state_timers := state_timers w; fatigue_processor := fp;
  is_calibrating := calibrating;
  calibration_frames_data := frames;
  last_known_face_results := last_known_face_results w |}.

Definition set_stable (n : Z) (tm : StateTimers) : StateTimers := {|
  stable_face_counter := n; face_lost_counter := face_lost_counter tm;
  auto_register_start_time := auto_register_start_time tm;
  enrichment_start_time := enrichment_start_time tm;
  session_embeddings_captured := session_embeddings_captured tm;
  session_captured_poses := session_captured_poses tm |}.

Definition set_face_lost (n : Z) (tm : StateTimers) : StateTimers := {|
  stable_face_counter := stable_face_counter tm; face_lost_counter := n;
  auto_register_start_time := auto_register_start_time tm;
  enrichment_start_time := enrichment_start_time tm;
  session_embeddings_captured := session_embeddings_captured tm;
  session_captured_poses := session_captured_poses tm |}.

Definition set_auto_start (o : option Q) (tm : StateTimers) : StateTimers := {|
  stable_face_counter := stable_face_counter tm;
  face_lost_counter := face_lost_counter tm;
  auto_register_start_time := o;
  enrichment_start_time := enrichment_start_time tm;
  session_embeddings_captured := session_embeddings_captured tm;
  session_captured_poses := session_captured_poses tm |}.

Definition set_enrichment (o : option Q) (tm : StateTimers) : StateTimers := {|
  stable_face_counter := stable_face_counter tm;
  face_lost_counter := face_lost_counter tm;
  auto_register_start_time := auto_register_start_time tm;
  enrichment_start_time := o;
  session_embeddings_captured := 0;
  session_captured_poses := [] |}.

(** [__init__] (the attributes above, lines 132-147). *)
Definition init (cfg : Config) (fp : FatigueProcessor.t) : MainWindow := {|
  config := cfg;
  app_state := LISTENING;
  current_user_id := None;
  current_user_code := "N/A";
  state_timers := {| stable_face_counter := 0; face_lost_counter := 0;
                     auto_register_start_time := None;
                     enrichment_start_time := None;
                     session_embeddings_captured := 0;
                     session_captured_poses := [] |};
  fatigue_processor := fp;
  is_calibrating := false;
  calibration_frames_data := 0;
  last_known_face_results := None
|}.

(** The methods class [FatigueProcessor] defines; calling any other name
    on an instance raises [AttributeError]. *)
Definition fatigue_processor_methods : list string :=
  ["__init__"; "set_calibration"; "reset_state"; "_calculate_facial_metrics";
   "process_frame_for_calibration"; "process_frame_for_inference"]%string.

Definition fatigue_processor_method (name : string) : M unit :=
  if FatigueProcessor.mem name fatigue_processor_methods
  then ret tt else raise Py.AttributeError.

Definition acceptable (pose_data : option Pose) (cfg : Config) : bool :=
  match pose_data with
  | Some p => is_pose_acceptable p (pose_limits cfg)
  | None => false
  end.

(** [pose_data] as [process_frame] computes it. *)
Definition pose_data (env : Env) : option Pose :=
  match face_results env with
  | Some _ => head_pose env
  | None => None
  end.

(** A frame with a detected face whose pose is within the limits. *)
Definition frame_ok (cfg : Config) (env : Env) : bool :=
  match face_results env with
  | Some _ => acceptable (pose_data env) cfg
  | None => false
  end.

(** *** The handlers *)

Definition _handle_listening_state (env : Env) : M unit :=
  w <- read ;;
  match face_results env with
  | Some _ =>
      if acceptable (pose_data env) (config w) then
        let counter := (stable_face_counter (state_timers w) + 1)%Z in
        let stable_frames_threshold := stable_face_frames_to_identify (config w) in
        if (counter >=? stable_frames_threshold)%Z then
          modify (fun w => with_timers (set_stable 0 (state_timers w))
                             (with_app_state IDENTIFYING w))
        else modify (fun w => with_timers (set_stable counter (state_timers w)) w)
      else modify (fun w => with_timers (set_stable 0 (state_timers w)) w)
  | None => modify (fun w => with_timers (set_stable 0 (state_timers w)) w)
  end.

Definition _prepare_for_monitoring_session (env : Env) : M unit :=
  modify (fun w => with_fatigue
                     (FatigueProcessor.reset_state (fatigue_processor w)
                                                   (t_reset1 env) (t_reset2 env))
                     (is_calibrating w) (calibration_frames_data w) w) ;;;
  call (populate_event_tree env) ;;;
  modify (fun w => with_timers (set_enrichment (Some (t_enrichment env)) (state_timers w)) w) ;;;
  modify (fun w =>
            let fp := fatigue_processor w in
            with_fatigue
              {| FatigueProcessor.config := FatigueProcessor.config fp;
                 FatigueProcessor.nod_detector := FatigueProcessor.nod_detector fp;
                 FatigueProcessor.lstm_classifier := FatigueProcessor.lstm_classifier fp;
                 FatigueProcessor.pausa_handler := FatigueProcessor.pausa_handler fp;
                 FatigueProcessor.calibration_data := None;
                 FatigueProcessor.state := FatigueProcessor.state fp |}
              false 0%nat w).

Definition _login_user (env : Env) (uid : Z) (code : string) (similarity : Q) : M unit :=
  modify (with_user (Some uid) code) ;;;
  call (log_access_log env) ;;;
  modify (with_app_state MONITORING) ;;;
  _prepare_for_monitoring_session env.

(** The statements of the [try] of [_handle_identifying_state]. *)
Definition identify_body (env : Env) : M unit :=
  w <- read ;;
  if negb (acceptable (last_face_pose env) (config w)) then
    modify (with_app_state LISTENING)
  else
    result <- call (align_face env) ;;
    match result with
    | None => modify (with_app_state LISTENING)
    | Some _ =>
        query_emb <- call (get_embedding env) ;;
        match query_emb with
        | None => modify (with_app_state LISTENING)
        | Some _ =>
            known_embs <- call (get_all_user_embeddings env) ;;
            found <- call (find_match query_emb known_embs (threshold (config w))) ;;
            match fst found with
            | Some user => _login_user env (user_id user) (codigo_usuario user) (snd found)
            | None =>
                call (log_access_log env) ;;;
                modify (fun w => with_timers
                                   (set_auto_start (Some (t_identify env)) (state_timers w))
                                   (with_app_state AUTO_REGISTERING w))
            end
        end
    end.

Definition _handle_identifying_state (env : Env) : M unit :=
  w <- read ;;
  match last_known_face_results w with
  | None => raise Py.AttributeError
  | Some false => modify (with_app_state LISTENING)
  | Some true =>
      try_except (identify_body env) (fun _ => modify (with_app_state LISTENING))
  end.

(** The statements of the [try] of [_execute_auto_registration].  Unpacking
    the [None] that [register_user] returns on failure raises [TypeError]. *)
Definition registration_body (env : Env) : M unit :=
  result <- call (align_face env) ;;
  match result with
  | None => modify (with_app_state LISTENING)
  | Some _ =>
      emb <- call (get_embedding env) ;;
      match emb with
      | None => modify (with_app_state LISTENING)
      | Some _ =>
          registered <- call (register_user env) ;;
          match registered with
          | None => raise Py.TypeError
          | Some (new_user_id, new_user_code) =>
              if negb (new_user_id =? 0)%Z && negb (String.eqb new_user_code "") then
                call (store_new_user env) ;;;
                _login_user env new_user_id new_user_code 1
              else modify (with_app_state LISTENING)
          end
      end
  end.

Definition _execute_auto_registration (env : Env) : M unit :=
  try_except (registration_body env) (fun _ => modify (with_app_state LISTENING)).

Definition _handle_auto_registering_state (env : Env) : M unit :=
  w <- read ;;
  let start := match auto_register_start_time (state_timers w) with
               | None => t_auto_start env
               | Some s => s
               end in
  modify (fun w => with_timers (set_auto_start (Some start) (state_timers w)) w) ;;;
  let wait_time := auto_register_seconds (config w) in
  let time_elapsed := t_auto_now env - start in
  let time_left := wait_time - time_elapsed in
  let is_acceptable := acceptable (pose_data env) (config w) in
  if negb is_acceptable then
    modify (fun w => with_timers (set_auto_start None (state_timers w))
                       (with_app_state LISTENING w))
  else if Py.leb time_left 0 then _execute_auto_registration env
  else ret tt.

(** [_handle_monitoring_state].  [self.fatigue_processor] exists (it is
    assigned in [__init__]); the call of [process_frame_for_inference]
    passes five arguments to a method that takes four. *)
Definition _handle_monitoring_state (env : Env) : M unit :=
  let face_detected := match face_results env with Some _ => true | None => false end in
  fatigue_processor_method "update_face_detection_status" ;;;
  if negb face_detected then
    fatigue_processor_method "handle_distraction" ;;; ret tt
  else
    fatigue_processor_method "process_frame_for_inference" ;;;
    raise Py.TypeError.

(** [_logout_user].  After the session is closed the body goes on with
    [if not is_user_present:], a name that is bound nowhere in the
    method. *)
Definition _logout_user (env : Env) : M unit :=
  w <- read ;;
  (if SAVE_LOG_ON_SESSION_END (config w)
      && negb (String.eqb (current_user_code w) "")
      && negb (String.eqb (current_user_code w) "N/A")
   then call (save_event_log_to_file env) else ret tt) ;;;
  modify (with_user None "N/A") ;;;
  modify (with_app_state LISTENING) ;;;
  modify (fun w => with_timers (set_face_lost 0 (state_timers w)) w) ;;;
  modify (fun w => with_fatigue
                     (FatigueProcessor.reset_state (fatigue_processor w)
                                                   (t_reset1 env) (t_reset2 env))
                     (is_calibrating w) (calibration_frames_data w) w) ;;;
  call (populate_event_tree env) ;;;
  raise Py.NameError.

Definition _enter_sleep_mode : M unit :=
  w <- read ;;
  match app_state w with
  | REPOSO => ret tt
  | _ => modify (with_app_state REPOSO)
  end.

Definition _wake_from_sleep : M unit :=
  w <- read ;;
  match app_state w with
  | REPOSO => modify (with_app_state LISTENING)
  | _ => ret tt
  end.

(** Step 3 of [process_frame] (lines 1455-1466): the dispatch on
    [self.app_state].  The other steps (region of interest, colour
    conversion, the detectors, overlay and display) are not part of this
    definition: [Env] holds what they hand to the handlers, and an
    exception of theirs is not represented. *)
Definition process_frame (env : Env) : M unit :=
  w <- read ;;
  match app_state w with
  | LISTENING => _handle_listening_state env
  | IDENTIFYING => _handle_identifying_state env
  | AUTO_REGISTERING => _handle_auto_registering_state env
  | MONITORING => _handle_monitoring_state env
  | REPOSO => ret tt
  end.

(** The frames delivered one after the other, whatever each delivery
    returned; a delivery that raised leaves the window as it was at the
    raise. *)
Fixpoint process_frames (envs : list Env) (w : MainWindow)
  : list (Py.result unit) * MainWindow :=
  match envs with
  | [] => ([], w)
  | env :: rest =>
      let '(r, w') := process_frame env w in
      let '(rs, w'') := process_frames rest w' in
      (r :: rs, w'')
  end.

End Gui.


(** ** List helper *)

(** The last [n] entries of a list ([l[-n:]] for a list of at least [n]
    entries, the whole list otherwise). *)
Definition lastn {A} (n : nat) (l : list A) : list A :=
  skipn (length l - n) l.

(** ** fatigue_processor.py: calibration frames *)

Module FatigueCalibration.

Import NpFloat FatigueProcessor.

(** The metrics dictionary without its ['landmarks_np'] entry. *)
Record MetricValues := {
  v_ear : npfloat;
  v_mar : npfloat;
  v_puc : npfloat;
  v_moe : npfloat
}.

(** [process_frame_for_calibration]: [None] without a face, the metrics of
    the first face otherwise, computed without calibration data. *)
Definition process_frame_for_calibration (M : MathLib)
    (face_results : option (list point)) (frame_shape : Q * Q)
  : Py.result (option MetricValues) :=
  match face_results with
  | None => Py.Ok None
  | Some landmark =>
      match _calculate_facial_metrics M landmark frame_shape None with
      | Py.Ok metrics =>
          Py.Ok (Some {| v_ear := ear metrics; v_mar := mar metrics;
                         v_puc := puc metrics; v_moe := moe metrics |})
      | Py.Raise e => Py.Raise e
      end
  end.

End FatigueCalibration.

(** ** gui.py: the signals connected to the window *)

Module GuiSignals.

Import Gui.

(** What the event loop delivers to the window: a camera frame to
    [process_frame] ([start_camera] connects [update_frame] to it), the
    sensor thread's [no_motion_detected_for_duration] to
    [_enter_sleep_mode] and its [motion_detected] to [_wake_from_sleep]
    ([_start_mpu_thread]). *)
Inductive Signal :=
  | Frame (env : Env)
  | NoMotion
  | Motion.

Definition deliver (s : Signal) : M unit :=
  match s with
  | Frame env => process_frame env
  | NoMotion => _enter_sleep_mode
  | Motion => _wake_from_sleep
  end.

(** The signals delivered one after the other, whatever each slot
    returned. *)
Fixpoint deliver_all (signals : list Signal) (w : MainWindow)
  : list (Py.result unit) * MainWindow :=
  match signals with
  | [] => ([], w)
  | s :: rest =>
      let '(r, w') := deliver s w in
      let '(rs, w'') := deliver_all rest w' in
      (r :: rs, w'')
  end.

End GuiSignals.

(** ** lstm_classifier.py *)

Module LSTMClassifier.

Import NpFloat.

(** One row of [input_data]: [[ear, mar, puc, moe]]. *)
Definition Sample : Type := (npfloat * npfloat * npfloat * npfloat)%type.

Record t := { input_data : list Sample }.

(** [__init__] and [reset]: an empty buffer. *)
Definition init : t := {| input_data := [] |}.
Definition reset (c : t) : t := {| input_data := [] |}.

(** [l[a:b]] for [0 <= a <= b]. *)
Definition slice (a b : nat) (l : list Sample) : list Sample :=
  firstn (b - a) (skipn a l).

Section Model.

(** The loaded network on a batch of windows followed by
    [torch.sigmoid(...).gt(0.7).int()]: one vote per output. *)
Variable net : list (list Sample) -> list bool.

Definition classify (c : t) : Z :=
  let d := input_data c in
  let model_input :=
    [firstn 5 d; slice 3 8 d; slice 6 11 d; slice 9 14 d; slice 12 17 d; skipn 15 d] in
  let preds := net model_input in
  if (5 <=? NodDetector.count_true preds)%nat then 1%Z else 0%Z.

Definition update (c : t) (ear mar puc moe : npfloat) : option Z * t :=
  let d := input_data c ++ [(ear, mar, puc, moe)] in
  let d := if (20 <? length d)%nat then tl d else d in
  let c' := {| input_data := d |} in
  if (length d =? 20)%nat then (Some (classify c'), c') else (None, c').

(** Consecutive updates, one per sample. *)
Fixpoint feed (c : t) (samples : list Sample) : list (option Z) * t :=
  match samples with
  | [] => ([], c)
  | (ear, mar, puc, moe) :: rest =>
      let '(out, c') := update c ear mar puc moe in
      let '(outs, c'') := feed c' rest in
      (out :: outs, c'')
  end.

End Model.

End LSTMClassifier.

(** ** mpu6050.py *)

Module MPU6050.

(** The I2C bus during one read of the sensor:
    [read_byte_data(address, addr)] answers a byte or raises. *)
Definition Bus : Type := Z -> Py.result Z.

(** [self.bus] is [None] when the sensor could not be opened. *)
Record t := { bus : option Bus }.

Definition _read_word_2c (b : Bus) (addr : Z) : Py.result Z :=
  match b addr with
  | Py.Raise e => Py.Raise e
  | Py.Ok high =>
      match b (addr + 1)%Z with
      | Py.Raise e => Py.Raise e
      | Py.Ok low =>
          let val := (Z.shiftl high 8 + low)%Z in
          Py.Ok (if (val >=? 32768)%Z then (val - 65536)%Z else val)
      end
  end.

(** [read_sensor_data]: the registers 0x3B .. 0x47; any exception gives
    [None]. *)
Definition read_sensor_data (s : t) : option (Q * Q * Q * Q * Q * Q) :=
  match bus s with
  | None => None
  | Some b =>
      match _read_word_2c b 59, _read_word_2c b 61, _read_word_2c b 63,
            _read_word_2c b 67, _read_word_2c b 69, _read_word_2c b 71 with
      | Py.Ok ax, Py.Ok ay, Py.Ok az, Py.Ok gx, Py.Ok gy, Py.Ok gz =>
          Some (inject_Z ax / 16384, inject_Z ay / 16384, inject_Z az / 16384,
                inject_Z gx / 131, inject_Z gy / 131, inject_Z gz / 131)
      | _, _, _, _, _, _ => None
      end
  end.

Definition detect_motion (M : FatigueProcessor.MathLib) (s : t)
    (accel_threshold gyro_threshold : Q) : bool :=
  match read_sensor_data s with
  | None => false
  | Some (ax, ay, az, gx, gy, gz) =>
      let accel_mag := FatigueProcessor.sqrt M (ax * ax + ay * ay + az * az) in
      let gyro_mag := FatigueProcessor.sqrt M (gx * gx + gy * gy + gz * gz) in
      Py.gtb (Qabs (accel_mag - 1)) accel_threshold || Py.gtb gyro_mag gyro_threshold
  end.

End MPU6050.

(** ** mpu_thread.py *)

Module MPUThread.

Import GuiSignals.

(** The keys of ['hardware_settings'] the thread reads. *)
Record Settings := {
  mpu_sleep_threshold_minutes : option Q;
  mpu_accel_threshold : option Q;
  mpu_gyro_threshold : option Q
}.

Record t := {
  config : Settings;
  no_motion_timer_start : option Q
}.

Definition init (cfg : Settings) : t :=
  {| config := cfg; no_motion_timer_start := None |}.

(** What one pass of the loop sees: the bus as it answers during the
    pass, and the two clock reads of the pass. *)
Record Pass := { bus_now : MPU6050.Bus; t_start : Q; t_check : Q }.

(** The body of the [while] loop of [run], given what [detect_motion]
    answered: the signals it emits and the timer it leaves. *)
Definition iteration (th : t) (motion : bool) (p : Pass) : list Signal * t :=
  let sleep_duration :=
    FatigueProcessor.get (mpu_sleep_threshold_minutes (config th)) 5 * 60 in
  if motion then
    ([Motion], {| config := config th; no_motion_timer_start := None |})
  else
    let start := match no_motion_timer_start th with
                 | None => t_start p
                 | Some s => s
                 end in
    if Py.gtb (t_check p - start) sleep_duration
    then ([NoMotion], {| config := config th; no_motion_timer_start := None |})
    else ([], {| config := config th; no_motion_timer_start := Some start |}).

Section Run.

Variable M : FatigueProcessor.MathLib.

Definition pass (th : t) (p : Pass) : list Signal * t :=
  let accel_thresh := FatigueProcessor.get (mpu_accel_threshold (config th)) 0.5 in
  let gyro_thresh := FatigueProcessor.get (mpu_gyro_threshold (config th)) 0.5 in
  iteration th
            (MPU6050.detect_motion M {| MPU6050.bus := Some (bus_now p) |}
                                   accel_thresh gyro_thresh)
            p.

Fixpoint passes (th : t) (ps : list Pass) : list Signal * t :=
  match ps with
  | [] => ([], th)
  | p :: rest =>
      let '(out, th') := pass th p in
      let '(outs, th'') := passes th' rest in
      (out ++ outs, th'')
  end.

(** [run]: without a bus the thread returns at once; otherwise it goes
    through the passes made while [running] holds. *)
Definition run (sensor_available : bool) (th : t) (ps : list Pass) : list Signal * t :=
  if sensor_available then passes th ps else ([], th).

End Run.

End MPUThread.

(** ** roi_autoexp.py: the centred region of interest *)

Module RoiAutoexp.

(** The keys of a centring configuration. *)
Record RoiConfig := {
  ROI_WIDTH_PERCENT : option Q;
  ROI_HEIGHT_PERCENT : option Q;
  MIN_ROI_WIDTH : option Z;
  MIN_ROI_HEIGHT : option Z;
  MAX_ROI_WIDTH : option Z;
  MAX_ROI_HEIGHT : option Z
}.

Definition DEFAULT_ROI_CONFIG : RoiConfig := {|
  ROI_WIDTH_PERCENT := Some 0.6;
  ROI_HEIGHT_PERCENT := Some 0.6;
  MIN_ROI_WIDTH := Some 200%Z;
  MIN_ROI_HEIGHT := Some 150%Z;
  MAX_ROI_WIDTH := Some 800%Z;
  MAX_ROI_HEIGHT := Some 600%Z
|}.

(** The module-level state the centring functions use; [roi] is
    [(x, y, w, h)]. *)
Record t := {
  roi_selected : bool;
  roi : option (Z * Z * Z * Z);
  auto_center_enabled : bool
}.

(** The values the module is loaded with. *)
Definition initial : t :=
  {| roi_selected := false; roi := None; auto_center_enabled := true |}.

(** The rectangle both functions compute. *)
Definition centered (frame_width frame_height : Z) (config : option RoiConfig)
  : Z * Z * Z * Z :=
  let config := FatigueProcessor.get config DEFAULT_ROI_CONFIG in
  let roi_w := Py.int (inject_Z frame_width
                       * FatigueProcessor.get (ROI_WIDTH_PERCENT config) 0.6) in
  let roi_h := Py.int (inject_Z frame_height
                       * FatigueProcessor.get (ROI_HEIGHT_PERCENT config) 0.6) in
  let roi_w := Z.max (FatigueProcessor.get (MIN_ROI_WIDTH config) 200%Z)
                     (Z.min roi_w (FatigueProcessor.get (MAX_ROI_WIDTH config) 800%Z)) in
  let roi_h := Z.max (FatigueProcessor.get (MIN_ROI_HEIGHT config) 150%Z)
                     (Z.min roi_h (FatigueProcessor.get (MAX_ROI_HEIGHT config) 600%Z)) in
  let x := ((frame_width - roi_w) / 2)%Z in
  let y := ((frame_height - roi_h) / 2)%Z in
  (x, y, roi_w, roi_h).

(** [init_centered_roi], as defined last in the module (lines 193-222). *)
Definition init_centered_roi (frame_width frame_height : Z)
    (config : option RoiConfig) (st : t) : t :=
  {| roi_selected := true;
     roi := Some (centered frame_width frame_height config);
     auto_center_enabled := auto_center_enabled st |}.

Definition roi_eqb (a b : Z * Z * Z * Z) : bool :=
  let '(x, y, w, h) := a in
  let '(x', y', w', h') := b in
  (x =? x')%Z && (y =? y')%Z && (w =? w')%Z && (h =? h')%Z.

(** [ensure_roi_centered], as defined last in the module (lines 224-258). *)
Definition ensure_roi_centered (frame_width frame_height : Z)
    (config : option RoiConfig) (st : t) : t :=
  if negb (auto_center_enabled st) then st
  else
    match roi_selected st, roi st with
    | true, Some current =>
        let expected := centered frame_width frame_height config in
        if negb (roi_eqb current expected)
        then {| roi_selected := roi_selected st; roi := Some expected;
                auto_center_enabled := auto_center_enabled st |}
        else st
    | _, _ => init_centered_roi frame_width frame_height config st
    end.

(** [toggle_auto_center], as defined last in the module. *)
Definition toggle_auto_center (st : t) : bool * t :=
  let st' := {| roi_selected := roi_selected st; roi := roi st;
                auto_center_enabled := negb (auto_center_enabled st) |} in
  (auto_center_enabled st', st').

(** Step 1 of [MainWindow.process_frame] on a frame of the given size
    (gui.py, lines 1424-1432). *)
Definition frame_step (width height : Z) (center_config : option RoiConfig) (st : t) : t :=
  let st1 := if auto_center_enabled st
             then ensure_roi_centered width height center_config st else st in
  if negb (roi_selected st1) then init_centered_roi width height center_config st1
  else st1.

End RoiAutoexp.

(** ** deteccion.py: hands near the eyes *)

Module Deteccion.

Import FatigueProcessor.

(** [np.mean(points, axis=0)] *)
Definition mean_point (pts : list point) : point :=
  let n := inject_Z (Z.of_nat (length pts)) in
  (fold_right Qplus 0 (map fst pts) / n, fold_right Qplus 0 (map snd pts) / n).

(** [THUMB_TIP], [INDEX_FINGER_TIP] and [MIDDLE_FINGER_TIP]. *)
Definition key_hand_points : list nat := [4; 8; 12]%nat.

Section Rubbing.

Variable M : MathLib.

(** The body of the inner loop for one fingertip; [flags] is
    [(left_eye_rub, right_eye_rub)]. *)
Definition touch (frame_width frame_height detection_radius : Q)
    (left_eye_center right_eye_center : point) (hand_point : point)
    (flags : bool * bool) : bool * bool :=
  let hx := inject_Z (Py.int (fst hand_point * frame_width)) in
  let hy := inject_Z (Py.int (snd hand_point * frame_height)) in
  (if Py.ltb (_distance M (hx, hy) left_eye_center) detection_radius
   then true else fst flags,
   if Py.ltb (_distance M (hx, hy) right_eye_center) detection_radius
   then true else snd flags).

(** The inner loop over the fingertips of one hand; a hand without the
    landmark raises [IndexError]. *)
Fixpoint scan_points (frame_width frame_height detection_radius : Q)
    (left_eye_center right_eye_center : point) (hand : list point)
    (idx : list nat) (flags : bool * bool) : Py.result (bool * bool) :=
  match idx with
  | [] => Py.Ok flags
  | i :: rest =>
      match nth_error hand i with
      | None => Py.Raise Py.IndexError
      | Some hand_point =>
          scan_points frame_width frame_height detection_radius
                      left_eye_center right_eye_center hand rest
                      (touch frame_width frame_height detection_radius
                             left_eye_center right_eye_center hand_point flags)
      end
  end.

(** The outer loop over the detected hands. *)
Fixpoint scan_hands (frame_width frame_height detection_radius : Q)
    (left_eye_center right_eye_center : point) (hands : list (list point))
    (flags : bool * bool) : Py.result (bool * bool) :=
  match hands with
  | [] => Py.Ok flags
  | hand :: rest =>
      match scan_points frame_width frame_height detection_radius
                        left_eye_center right_eye_center hand key_hand_points flags with
      | Py.Raise e => Py.Raise e
      | Py.Ok flags' =>
          scan_hands frame_width frame_height detection_radius
                     left_eye_center right_eye_center rest flags'
      end
  end.

(** [detect_eye_rubbing]: [face_landmarks] is the pixel array of the
    metrics, [hand_landmarks] the normalised landmarks of each detected
    hand ([None] when the detector gave no result), [camera_settings] the
    pair [(FRAME_WIDTH, FRAME_HEIGHT)] when the configuration has it.
    Every exception inside the [try] gives 0. *)
Definition detect_eye_rubbing (face_landmarks : option (list point))
    (hand_landmarks : option (list (list point)))
    (camera_settings : option (Q * Q)) : Z :=
  match face_landmarks, hand_landmarks with
  | Some lm, Some (hand :: hands) =>
      match camera_settings with
      | None => 0%Z
      | Some (frame_width, frame_height) =>
          match take lm [33; 160; 158; 133]%nat, take lm [263; 387; 385; 362]%nat with
          | Py.Ok left_pts, Py.Ok right_pts =>
              let left_eye_center := mean_point left_pts in
              let right_eye_center := mean_point right_pts in
              let eye_dist := _distance M left_eye_center right_eye_center in
              let detection_radius := eye_dist * 0.7 in
              match scan_hands frame_width frame_height detection_radius
                               left_eye_center right_eye_center (hand :: hands)
                               (false, false) with
              | Py.Ok (left_eye_rub, right_eye_rub) =>
                  if left_eye_rub && right_eye_rub then 3%Z
                  else if left_eye_rub then 1%Z
                  else if right_eye_rub then 2%Z
                  else 0%Z
              | Py.Raise _ => 0%Z
              end
          | _, _ => 0%Z
          end
      end
  | _, _ => 0%Z
  end.

End Rubbing.

End Deteccion.
(** * Contracts and sample data used by the properties *)

Module Samples.

Import FaceProcessor.

(** The matcher's contract as the specification words it: the reported
    similarity is the maximum over all candidates, and a user is returned
    exactly when that maximum reaches the threshold. *)
Definition matcher_contract (q : option Embedding) (known : list UserData) (thr : Q) : Prop :=
  match find_match q known thr, similarities q known with
  | Py.Ok (user, best), Py.Ok sims =>
      q <> None -> known <> [] ->
      (In best sims /\ Forall (fun s => s <= best) sims)
      /\ (user <> None <-> thr <= best)
  | _, _ => True
  end.

Definition opposite_user : UserData :=
  {| user_id := 1; codigo_usuario := "USUARIO_0001"; embedding := Some [-1; 0] |}.

Definition user_a : UserData :=
  {| user_id := 1; codigo_usuario := "USUARIO_0001"; embedding := Some [0.6; 0.8] |}.
Definition user_b : UserData :=
  {| user_id := 2; codigo_usuario := "USUARIO_0002"; embedding := Some [1; 0] |}.


(** A wall-clock instant. *)
Definition T0 : Q := 1700000000.

Definition no_thresholds : FatigueProcessor.Thresholds := {|
  FatigueProcessor.DISTRACTION_FRAMES_THRESHOLD := None;
  FatigueProcessor.YAWN_MAR_FACTOR := None;
  FatigueProcessor.YAWN_FRAMES_THRESHOLD := None;
  FatigueProcessor.DROWSINESS_EAR_FACTOR := None;
  FatigueProcessor.MAX_ALERT_EYES_CLOSED_FRAMES := None;
  FatigueProcessor.DROWSINESS_EYES_CLOSED_FRAMES := None;
  FatigueProcessor.EYE_RUBBING_FRAMES := None |}.

(** A processor as [FatigueProcessor(config)] builds it, with or without a
    loaded classifier. *)
Definition processor (lstm : bool) : FatigueProcessor.t :=
  FatigueProcessor.init no_thresholds NodDetector.default_config lstm
                        3600 180 T0 T0 T0.

Definition gui_config : Gui.Config := {|
  Gui.pose_limits := {| PoseEstimator.MAX_ABS_PITCH := None;
                        PoseEstimator.MAX_ABS_YAW := None;
                        PoseEstimator.MAX_ABS_ROLL := None |};
  Gui.threshold := 0.45;
  Gui.stable_face_frames_to_identify := 3;
  Gui.face_lost_frames_to_logout := 2;
  Gui.auto_register_seconds := 15;
  Gui.SAVE_LOG_ON_SESSION_END := true |}.

Definition listening_window : Gui.MainWindow :=
  Gui.init gui_config (processor false).

(** A window in [MONITORING] with user 7 bound. *)
Definition monitoring_window : Gui.MainWindow :=
  Gui.with_user (Some 7%Z) "USUARIO_0007" (Gui.with_app_state Gui.MONITORING listening_window).

(** A frame's collaborators when nothing fails: [face] and [pose] are what
    the detectors and the pose estimator report. *)
Definition env_of (face : option (list FatigueProcessor.point))
    (pose : option PoseEstimator.Pose) (body : bool) : Gui.Env := {|
  Gui.face_results := face;
  Gui.pose_results := body;
  Gui.head_pose := pose;
  Gui.last_face_pose := pose;
  Gui.align_face := Py.Ok (Some tt);
  Gui.get_embedding := Py.Ok (Some [1; 0]);
  Gui.get_all_user_embeddings := Py.Ok [user_a; user_b];
  Gui.log_access_log := Py.Ok tt;
  Gui.register_user := Py.Ok (Some (3%Z, "USUARIO_0003"%string));
  Gui.store_new_user := Py.Ok tt;
  Gui.populate_event_tree := Py.Ok tt;
  Gui.save_event_log_to_file := Py.Ok tt;
  Gui.t_identify := T0; Gui.t_auto_start := T0; Gui.t_auto_now := T0;
  Gui.t_enrichment := T0; Gui.t_reset1 := T0; Gui.t_reset2 := T0 |}.

(** A face looking straight at the camera; a face turned 40 degrees; no
    face and no body. *)
Definition ok_env : Gui.Env := env_of (Some []) (Some (0, 0, 0)) true.
Definition turned_env : Gui.Env := env_of (Some []) (Some (0, 40, 0)) true.
Definition absent_env : Gui.Env := env_of None None false.

(** A window in [IDENTIFYING] whose [last_known_face_results] holds
    landmarks, and a frame on which the embedding model fails. *)
Definition identifying_window : Gui.MainWindow := {|
  Gui.config := gui_config;
  Gui.app_state := Gui.IDENTIFYING;
  Gui.current_user_id := None;
  Gui.current_user_code := "N/A";
  Gui.state_timers := Gui.state_timers listening_window;
  Gui.fatigue_processor := processor false;
  Gui.is_calibrating := false;
  Gui.calibration_frames_data := 0;
  Gui.last_known_face_results := Some true |}.

Definition embedding_fails_env : Gui.Env := {|
  Gui.face_results := Some [];
  Gui.pose_results := true;
  Gui.head_pose := Some (0, 0, 0);
  Gui.last_face_pose := Some (0, 0, 0);
  Gui.align_face := Py.Ok (Some tt);
  Gui.get_embedding := Py.Raise Py.RuntimeError;
  Gui.get_all_user_embeddings := Py.Ok [user_a; user_b];
  Gui.log_access_log := Py.Ok tt;
  Gui.register_user := Py.Ok (Some (3%Z, "USUARIO_0003"%string));
  Gui.store_new_user := Py.Ok tt;
  Gui.populate_event_tree := Py.Ok tt;
  Gui.save_event_log_to_file := Py.Ok tt;
  Gui.t_identify := T0; Gui.t_auto_start := T0; Gui.t_auto_now := T0;
  Gui.t_enrichment := T0; Gui.t_reset1 := T0; Gui.t_reset2 := T0 |}.

(** What the eyes-closed block tests: EAR below the calibrated threshold. *)
Definition eyes_closed (th : FatigueProcessor.Thresholds)
    (cal : FatigueProcessor.Calibration) (m : FatigueProcessor.Metrics) : bool :=
  NpFloat.ltb (FatigueProcessor.ear m)
    (NpFloat.Fin (FatigueProcessor.cal_ear_mean cal
                  * FatigueProcessor.get (FatigueProcessor.DROWSINESS_EAR_FACTOR th) 0.75)).

(** A frame with a detected face whose EAR is below the calibrated
    threshold. *)
Definition closed_eyes_frame (M : FatigueProcessor.MathLib)
    (th : FatigueProcessor.Thresholds) (cal : FatigueProcessor.Calibration)
    (f : FatigueProcessor.Frame) : bool :=
  match FatigueProcessor.face_landmarks f with
  | Some lm =>
      match FatigueProcessor._calculate_facial_metrics M lm
              (FatigueProcessor.frame_shape f) (Some cal) with
      | Py.Ok m => eyes_closed th cal m
      | Py.Raise _ => false
      end
  | None => false
  end.

(** The classifier raises no event on this frame: it is not loaded, or its
    answer is not 1. *)
Definition lstm_silent (lstm : bool) (f : FatigueProcessor.Frame) : bool :=
  negb lstm
  || match FatigueProcessor.lstm_prediction f with
     | Some p => negb (p =? 1)%Z
     | None => true
     end.

(** An executable stand-in for the floating-point square root: rounded
    down to six decimals, exact on the squares used below. *)
Definition approx_sqrt (x : Q) : Q :=
  inject_Z (Z.sqrt (Qfloor (x * 1000000000000))) / 1000000.

Definition approx_math : FatigueProcessor.MathLib :=
  {| FatigueProcessor.sqrt := approx_sqrt;
     FatigueProcessor.pi := 3.141592653589793 |}.

(** A face mesh of 478 landmarks: every landmark sits at the centre of the
    frame unless [overrides] places it. *)
Fixpoint lookup (i : nat) (overrides : list (nat * FatigueProcessor.point))
  : FatigueProcessor.point :=
  match overrides with
  | [] => (0.5, 0.5)
  | (j, p) :: rest => if (i =? j)%nat then p else lookup i rest
  end.

Definition mesh (overrides : list (nat * FatigueProcessor.point))
  : list FatigueProcessor.point :=
  map (fun i => lookup i overrides) (seq 0 478).

(** Eye corners 10 px apart, mouth corners 20 px apart on a 100 x 100
    frame. *)
Definition eye_corners : list (nat * FatigueProcessor.point) :=
  [(362%nat, (0.6, 0.4)); (263%nat, (0.7, 0.4)); (33%nat, (0.3, 0.4)); (133%nat, (0.4, 0.4))].

Definition closed_lids : list (nat * FatigueProcessor.point) :=
  [(385%nat, (0.63, 0.4)); (380%nat, (0.63, 0.4)); (387%nat, (0.67, 0.4)); (373%nat, (0.67, 0.4));
   (160%nat, (0.33, 0.4)); (144%nat, (0.33, 0.4)); (158%nat, (0.37, 0.4)); (153%nat, (0.37, 0.4))].

Definition open_lids : list (nat * FatigueProcessor.point) :=
  [(385%nat, (0.63, 0.38)); (380%nat, (0.63, 0.42)); (387%nat, (0.67, 0.38)); (373%nat, (0.67, 0.42));
   (160%nat, (0.33, 0.38)); (144%nat, (0.33, 0.42)); (158%nat, (0.37, 0.38)); (153%nat, (0.37, 0.42))].

Definition mouth_corners : list (nat * FatigueProcessor.point) :=
  [(61%nat, (0.4, 0.7)); (291%nat, (0.6, 0.7))].

(** Lips 4 px apart, and lips whose landmarks 0 and 17 coincide. *)
Definition lips_apart : list (nat * FatigueProcessor.point) :=
  [(0%nat, (0.5, 0.68)); (17%nat, (0.5, 0.72))].
Definition lips_together : list (nat * FatigueProcessor.point) :=
  [(0%nat, (0.5, 0.7)); (17%nat, (0.5, 0.7))].

Definition closed_eyes_mesh : list FatigueProcessor.point :=
  mesh (eye_corners ++ closed_lids ++ mouth_corners ++ lips_apart).
Definition open_eyes_mesh : list FatigueProcessor.point :=
  mesh (eye_corners ++ open_lids ++ mouth_corners ++ lips_apart).
Definition lips_together_mesh : list FatigueProcessor.point :=
  mesh (eye_corners ++ open_lids ++ mouth_corners ++ lips_together).

Definition frame_of (lm : list FatigueProcessor.point) (lstm : option Z)
  : FatigueProcessor.Frame := {|
  FatigueProcessor.frame_shape := (100, 100);
  FatigueProcessor.face_landmarks := Some lm;
  FatigueProcessor.pose_detected := false;
  FatigueProcessor.head_angle := (Some 0, Some 0);
  FatigueProcessor.rub_type := 0;
  FatigueProcessor.lstm_prediction := lstm |}.

(** Every clock read of the call returns [t]. *)
Definition clock_at (t : Q) : FatigueProcessor.Clock := {|
  FatigueProcessor.t_pausa :=
    {| PausaActivaHandler.now := t; PausaActivaHandler.reset1 := t;
       PausaActivaHandler.reset2 := t |};
  FatigueProcessor.t_distraction := t;
  FatigueProcessor.t_distraction_set := t;
  FatigueProcessor.t_current := t;
  FatigueProcessor.t_nod := t;
  FatigueProcessor.t_nod_detect := t |}.

Definition calibration : FatigueProcessor.Calibration :=
  {| FatigueProcessor.cal_ear_mean := 0.4; FatigueProcessor.cal_mar_mean := 5 |}.

(** Drowsiness above 1 frame, maximum alert above 2 frames. *)
Definition short_thresholds : FatigueProcessor.Thresholds := {|
  FatigueProcessor.DISTRACTION_FRAMES_THRESHOLD := None;
  FatigueProcessor.YAWN_MAR_FACTOR := None;
  FatigueProcessor.YAWN_FRAMES_THRESHOLD := None;
  FatigueProcessor.DROWSINESS_EAR_FACTOR := None;
  FatigueProcessor.MAX_ALERT_EYES_CLOSED_FRAMES := Some 2%Z;
  FatigueProcessor.DROWSINESS_EYES_CLOSED_FRAMES := Some 1%Z;
  FatigueProcessor.EYE_RUBBING_FRAMES := None |}.

(** A calibrated processor without classifier, state as [reset_state]
    leaves it. *)
Definition calibrated_processor : FatigueProcessor.t :=
  FatigueProcessor.set_calibration
    (FatigueProcessor.init short_thresholds NodDetector.default_config false
                           3600 180 T0 T0 T0)
    calibration T0 T0.

Definition closed_frame_at (k : Z) : FatigueProcessor.Frame * FatigueProcessor.Clock :=
  (frame_of closed_eyes_mesh None, clock_at (T0 + inject_Z k)).

(** The same processor with a loaded classifier, and the eyes-closed frame
    on which the classifier answers 1. *)
Definition classifier_processor : FatigueProcessor.t :=
  FatigueProcessor.set_calibration
    (FatigueProcessor.init short_thresholds NodDetector.default_config true
                           3600 180 T0 T0 T0)
    calibration T0 T0.

Definition flagged_frame_at (k : Z) : FatigueProcessor.Frame * FatigueProcessor.Clock :=
  (frame_of closed_eyes_mesh (Some 1%Z), clock_at (T0 + inject_Z k)).



(** A frame of the eyes-closed test: a face whose EAR is below the
    calibrated threshold, no classifier event, and a wall clock more than
    five seconds past the epoch. *)
Definition test_frame (M : FatigueProcessor.MathLib) (th : FatigueProcessor.Thresholds)
    (cal : FatigueProcessor.Calibration) (lstm : bool)
    (fc : FatigueProcessor.Frame * FatigueProcessor.Clock) : Prop :=
  closed_eyes_frame M th cal (fst fc) = true
  /\ lstm_silent lstm (fst fc) = true
  /\ 5 < FatigueProcessor.t_current (snd fc).

(** A further eyes-closed frame within five seconds of the emission at
    [t_emit]. *)
Definition cooldown_frame (M : FatigueProcessor.MathLib) (th : FatigueProcessor.Thresholds)
    (cal : FatigueProcessor.Calibration) (lstm : bool) (t_emit : Q)
    (fc : FatigueProcessor.Frame * FatigueProcessor.Clock) : Prop :=
  closed_eyes_frame M th cal (fst fc) = true
  /\ lstm_silent lstm (fst fc) = true
  /\ FatigueProcessor.t_current (snd fc) - t_emit <= 5.



Definition present (pose : bool) (c : PausaActivaHandler.Clock)
  : bool * bool * PausaActivaHandler.Clock := (true, pose, c).

Definition absent (c : PausaActivaHandler.Clock)
  : bool * bool * PausaActivaHandler.Clock := (false, false, c).



(** Where an event of the answer comes from. *)
Definition event_origin (fp : FatigueProcessor.t) (f : FatigueProcessor.Frame)
    (c : FatigueProcessor.Clock) (e : string) : Prop :=
  let s := FatigueProcessor.state fp in
  let th := FatigueProcessor.config fp in
  (e = "Pausa Activa"%string
   /\ fst (fst (PausaActivaHandler.update (FatigueProcessor.pausa_handler fp)
                  (match FatigueProcessor.face_landmarks f with Some _ => true | None => false end)
                  (FatigueProcessor.pose_detected f) (FatigueProcessor.t_pausa c))) = true)
  \/ (e = "Distraccion"%string /\ FatigueProcessor.face_landmarks f = None
      /\ (FatigueProcessor.distraction_frames s + 1 > FatigueProcessor.get (FatigueProcessor.DISTRACTION_FRAMES_THRESHOLD th) 30)%Z
      /\ 5 < FatigueProcessor.t_distraction c - FatigueProcessor.last_distraction_alert_time s)
  \/ (e = "AWAITING_CALIBRATION"%string /\ FatigueProcessor.calibration_data fp = None
      /\ FatigueProcessor.face_landmarks f <> None)
  \/ (e = "Bostezar"%string /\ FatigueProcessor.face_landmarks f <> None
      /\ (FatigueProcessor.yawn_frames s + 1 > FatigueProcessor.get (FatigueProcessor.YAWN_FRAMES_THRESHOLD th) 8)%Z
      /\ 10 < FatigueProcessor.t_current c - FatigueProcessor.last_yawn_time s)
  \/ (e = "Despierta"%string /\ FatigueProcessor.face_landmarks f <> None
      /\ (FatigueProcessor.closed_eyes_frames s + 1 > FatigueProcessor.get (FatigueProcessor.MAX_ALERT_EYES_CLOSED_FRAMES th) 60)%Z
      /\ 5 < FatigueProcessor.t_current c - FatigueProcessor.last_despierta_alert_time s)
  \/ (e = "Somnolencia"%string /\ FatigueProcessor.face_landmarks f <> None
      /\ (FatigueProcessor.closed_eyes_frames s + 1 > FatigueProcessor.get (FatigueProcessor.DROWSINESS_EYES_CLOSED_FRAMES th) 20)%Z)
  \/ (e = "Cabeceo"%string /\ FatigueProcessor.face_landmarks f <> None
      /\ fst (fst (NodDetector.update (FatigueProcessor.nod_detector fp)
                     (Some (FatigueProcessor.get (snd (FatigueProcessor.head_angle f)) 0)) (FatigueProcessor.t_nod c) (FatigueProcessor.t_nod_detect c)))
         = true)
  \/ (e = "Frotar Ojos"%string /\ FatigueProcessor.face_landmarks f <> None
      /\ (FatigueProcessor.rub_type f > 0)%Z
      /\ (FatigueProcessor.eye_rubbing_frames s + 1 > FatigueProcessor.get (FatigueProcessor.EYE_RUBBING_FRAMES th) 15)%Z
      /\ 10 < FatigueProcessor.t_current c - FatigueProcessor.last_eye_rub_time s).


(** An entry whose embedding cannot be multiplied with the query. *)
Definition mismatched (qe : FaceProcessor.Embedding) (u : FaceProcessor.UserData) : Prop :=
  exists e, FaceProcessor.embedding u = Some e /\ length e <> length qe.

(** The transitions of the session state machine on a frame whose
    dispatch returns. *)
Definition successor (a b : Gui.AppState) : bool :=
  match a, b with
  | Gui.LISTENING, (Gui.LISTENING | Gui.IDENTIFYING) => true
  | Gui.IDENTIFYING, (Gui.LISTENING | Gui.MONITORING | Gui.AUTO_REGISTERING) => true
  | Gui.AUTO_REGISTERING, (Gui.AUTO_REGISTERING | Gui.LISTENING | Gui.MONITORING) => true
  | Gui.REPOSO, Gui.REPOSO => true
  | _, _ => false
  end.

(** A session as [_login_user] opens it: a user is bound, the fatigue
    state is fresh and no calibration profile is set. *)
Definition fresh_session (w : Gui.MainWindow) : Prop :=
  Gui.app_state w = Gui.MONITORING
  /\ Gui.current_user_id w <> None
  /\ FatigueProcessor.state (Gui.fatigue_processor w) = FatigueProcessor.initial_state
  /\ FatigueProcessor.calibration_data (Gui.fatigue_processor w) = None
  /\ Gui.is_calibrating w = false.

(** Every collaborator of the automatic registration answers, and the
    database hands out a user. *)
Definition registration_succeeds (env : Gui.Env) : option (Z * string) :=
  match Gui.align_face env, Gui.get_embedding env, Gui.register_user env,
        Gui.store_new_user env, Gui.log_access_log env, Gui.populate_event_tree env with
  | Py.Ok (Some _), Py.Ok (Some _), Py.Ok (Some (uid, code)), Py.Ok _, Py.Ok _, Py.Ok _ =>
      if negb (uid =? 0)%Z && negb (String.eqb code "") then Some (uid, code) else None
  | _, _, _, _, _, _ => None
  end.

(** A window in [AUTO_REGISTERING] whose countdown started at [T0]. *)
Definition registering_window : Gui.MainWindow :=
  Gui.with_timers
    (Gui.set_auto_start (Some T0) (Gui.state_timers listening_window))
    (Gui.with_app_state Gui.AUTO_REGISTERING listening_window).

(** What the sensor said last: [Some true] after a no-motion signal,
    [Some false] after a motion signal, [None] if it said nothing. *)
Fixpoint last_sensor (signals : list GuiSignals.Signal) : option bool :=
  match signals with
  | [] => None
  | sg :: rest =>
      match last_sensor rest with
      | Some b => Some b
      | None =>
          match sg with
          | GuiSignals.Frame _ => None
          | GuiSignals.NoMotion => Some true
          | GuiSignals.Motion => Some false
          end
      end
  end.

(** The twelve registers [read_sensor_data] reads. *)
Definition sensor_registers : list Z :=
  [59; 60; 61; 62; 63; 64; 67; 68; 69; 70; 71; 72]%Z.

(** A bus that answers every register with the same byte, and one whose
    reads fail. *)
Definition constant_bus (v : Z) : MPU6050.Bus := fun _ => Py.Ok v.
Definition failing_bus : MPU6050.Bus := fun _ => Py.Raise Py.RuntimeError.

Definition default_settings : MPUThread.Settings := {|
  MPUThread.mpu_sleep_threshold_minutes := None;
  MPUThread.mpu_accel_threshold := None;
  MPUThread.mpu_gyro_threshold := None |}.

(** A pass at second [k] after [T0] during which every read fails. *)
Definition failing_pass (k : Z) : MPUThread.Pass := {|
  MPUThread.bus_now := failing_bus;
  MPUThread.t_start := T0 + inject_Z k;
  MPUThread.t_check := T0 + inject_Z k |}.

(** [detect_motion] answers [False] on this pass. *)
Definition still (M : FatigueProcessor.MathLib) (th : MPUThread.t) (p : MPUThread.Pass)
  : Prop :=
  MPU6050.detect_motion M {| MPU6050.bus := Some (MPUThread.bus_now p) |}
    (FatigueProcessor.get (MPUThread.mpu_accel_threshold (MPUThread.config th)) 0.5)
    (FatigueProcessor.get (MPUThread.mpu_gyro_threshold (MPUThread.config th)) 0.5)
  = false.

(** One of the twelve byte reads of this pass fails. *)
Definition read_fails (p : MPUThread.Pass) : Prop :=
  exists a, In a sensor_registers /\ Py.is_ok (MPUThread.bus_now p a) = false.

(** The seconds of stillness after which the thread signals. *)
Definition sleep_duration (th : MPUThread.t) : Q :=
  FatigueProcessor.get (MPUThread.mpu_sleep_threshold_minutes (MPUThread.config th)) 5 * 60.

(** A fingertip of the hand, in pixels, is closer to [centre] than
    [radius]. *)
Definition near_eye (M : FatigueProcessor.MathLib) (frame_width frame_height radius : Q)
    (centre : FatigueProcessor.point) (hand : list FatigueProcessor.point) : bool :=
  existsb (fun i =>
             match nth_error hand i with
             | Some p =>
                 Py.ltb (FatigueProcessor._distance M
                           (inject_Z (Py.int (fst p * frame_width)),
                            inject_Z (Py.int (snd p * frame_height))) centre)
                        radius
             | None => false
             end)
          Deteccion.key_hand_points.

(** The code for the two eyes. *)
Definition rub_code (left right : bool) : Z :=
  ((if left then 1 else 0) + (if right then 2 else 0))%Z.

(** A hand of 21 landmarks, all at the same normalised point. *)
Definition hand_at (p : FatigueProcessor.point) : list FatigueProcessor.point :=
  repeat p 21.
End Samples.

(** * Properties *)

(** ** Comparisons and truncation *)

Section PyFacts.

Lemma ltb_lt (x y : Q) : Py.ltb x y = true <-> x < y.
Proof.
  unfold Py.ltb. rewrite negb_true_iff. split; intro H.
  - apply Qnot_le_lt. intro Hle. apply Qle_bool_iff in Hle. congruence.
  - destruct (Qle_bool y x) eqn:E; trivial.
    apply Qle_bool_iff in E. exfalso. exact (Qlt_not_le _ _ H E).
Qed.

Lemma ltb_ge (x y : Q) : Py.ltb x y = false <-> y <= x.
Proof.
  unfold Py.ltb. rewrite negb_false_iff. apply Qle_bool_iff.
Qed.

Lemma gtb_gt (x y : Q) : Py.gtb x y = true <-> y < x.
Proof. apply ltb_lt. Qed.

Lemma gtb_le (x y : Q) : Py.gtb x y = false <-> x <= y.
Proof. apply ltb_ge. Qed.

Lemma leb_le (x y : Q) : Py.leb x y = true <-> x <= y.
Proof. apply Qle_bool_iff. Qed.

Lemma geb_ge (x y : Q) : Py.geb x y = true <-> y <= x.
Proof. apply Qle_bool_iff. Qed.

Lemma geb_lt (x y : Q) : Py.geb x y = false <-> x < y.
Proof.
  unfold Py.geb. split; intro H.
  - apply Qnot_le_lt. intro Hle. apply Qle_bool_iff in Hle. congruence.
  - destruct (Qle_bool y x) eqn:E; trivial.
    apply Qle_bool_iff in E. exfalso. exact (Qlt_not_le _ _ H E).
Qed.



End PyFacts.

(** ** The nod detector *)

Section NodFacts.

Import NodDetector.

Lemma update_config (d : t) (a : option Q) (t1 t2 : Q) :
  config (snd (update d a t1 t2)) = config d.
Proof.
  destruct a as [a|]; simpl; trivial.
  destruct (_ <? _)%nat; reflexivity.
Qed.

Lemma update_history (d : t) (a : Q) (t1 t2 : Q) :
  angle_y_history (snd (update d (Some a) t1 t2))
  = push (config d) (angle_y_history d) a.
Proof.
  simpl. destruct (_ <? _)%nat; reflexivity.
Qed.

(** A nod is declared only on a window that shows a recovery pattern and has
    enough samples. *)
Lemma update_nod_needs_recovery (d : t) (a : Q) (t1 t2 : Q) :
  fst (fst (update d (Some a) t1 t2)) = true ->
  let h' := push (config d) (angle_y_history d) a in
  (length h' <? min_frames_for_analysis (config d))%nat = false
  /\ recovery_pattern (config d) (Np.diff h') = true.
Proof.
  simpl. destruct (_ <? _)%nat eqn:E; simpl; intro H; [discriminate|].
  split; [reflexivity|].
  apply andb_true_iff in H. destruct H as [H _].
  apply andb_true_iff in H. exact (proj2 H).
Qed.

Lemma feed_quiet (angles : list Q) : forall (d : t) clk k,
  quiet (config d) (angle_y_history d) angles = true ->
  fst (feed d angles clk k) = repeat false (length angles).
Proof.
  induction angles as [|a rest IH]; intros d clk k Hq; [reflexivity|].
  cbn [quiet] in Hq. apply andb_true_iff in Hq. destruct Hq as [Hnow Hrest].
  cbn [feed length repeat].
  pose proof (update_nod_needs_recovery d a (fst (clk k)) (snd (clk k))) as Hnod.
  pose proof (update_history d a (fst (clk k)) (snd (clk k))) as Hh.
  pose proof (update_config d (Some a) (fst (clk k)) (snd (clk k))) as Hc.
  destruct (update d (Some a) (fst (clk k)) (snd (clk k))) as [[nod r] d'].
  cbn [fst snd] in *.
  specialize (IH d' clk (S k)). rewrite Hc, Hh in IH. specialize (IH Hrest).
  destruct (feed d' rest clk (S k)) as [outs d'']. cbn [fst] in *.
  f_equal; [|exact IH].
  destruct nod; [|reflexivity].
  destruct (Hnod eq_refl) as [H1 H2]. rewrite H1, H2 in Hnow. discriminate.
Qed.

(** C4, as stated, fails: with one sample every 30 ms on a wall clock the
    test window makes no update report a nod, so the number of updates
    with [is_nodding == True] is not one. *)
Lemma nod_test_window_not_once :
  count_true (fst (feed (init default_config) test_window
                        (clock_30ms 1700000000) 0)) <> 1%nat.
Proof. vm_compute. discriminate. Qed.

(** C4, amended: whatever the clock reads, feeding the test window to a
    fresh default detector reports [is_nodding == False] on each of the 20
    updates, and feeding the same window a second time reports [False] on
    each of the next 20 as well. *)
Theorem nod_test_window_never_nods (clk : nat -> Q * Q) :
  fst (feed (init default_config) (test_window ++ test_window) clk 0)
  = repeat false 40.
Proof.
  apply (feed_quiet (test_window ++ test_window) (init default_config) clk 0%nat).
  vm_compute. reflexivity.
Qed.

(** The window with a dip directly followed by the rise does nod, once. *)
Lemma nod_sharp_window_once :
  fst (feed (init default_config)
            [0;0;0;0;0;0;0;0;0;0;14;-8;0;0;0;0;0;0;0;0]
            (clock_30ms 1700000000) 0)
  = [false;false;false;false;false;false;false;false;false;false;
     false;true;false;false;false;false;false;false;false;false].
Proof. vm_compute. reflexivity. Qed.

End NodFacts.

(** ** The identity matcher *)

Section MatchFacts.

Import FaceProcessor Samples.

Variable q : option Embedding.
Variable thr : Q.

Lemma Qeq_bool_lt_false (a b : Q) : a < b -> Qeq_bool a b = false.
Proof.
  intro H. destruct (Qeq_bool a b) eqn:E; trivial.
  apply Qeq_bool_eq in E. rewrite E in H. exfalso. exact (Qlt_irrefl _ H).
Qed.

Lemma similarities_cons u rest sims :
  similarities q (u :: rest) = Py.Ok sims ->
  exists s sims', compare_embeddings q (embedding u) = Py.Ok s
                  /\ similarities q rest = Py.Ok sims' /\ sims = s :: sims'.
Proof.
  simpl. destruct (compare_embeddings q (embedding u)) as [s|e];
    destruct (similarities q rest) as [l|e']; intro H; try discriminate.
  inversion H. eauto.
Qed.

Lemma scan_spec (known : list UserData) : forall best highest sims,
  similarities q known = Py.Ok sims ->
  exists best' highest',
    scan q known thr best highest = Py.Ok (best', highest')
    /\ highest <= highest'
    /\ Forall (fun s => s <= highest') sims
    /\ ((Forall (fun s => s <= highest) sims /\ highest' = highest /\ best' = best)
        \/ (In highest' sims /\ highest < highest'
            /\ best' = if Py.geb highest' thr then first_with q known highest'
                       else best)).
Proof.
  induction known as [|u rest IH]; intros best highest sims Hs.
  - simpl in Hs. inversion Hs; subst. exists best, highest. simpl.
    repeat split; auto using Qle_refl.
  - destruct (similarities_cons _ _ _ Hs) as (s & sims' & Hc & Hr & ->).
    cbn [scan first_with]. rewrite Hc.
    destruct (Py.gtb s highest) eqn:Hgt.
    + apply gtb_gt in Hgt.
      destruct (IH (if Py.geb s thr then Some u else best) s sims' Hr)
        as (b' & h' & Hscan & Hle & Hall & Hcase).
      exists b', h'. split; [exact Hscan|].
      split; [apply Qlt_le_weak; eapply Qlt_le_trans; eauto|].
      split; [constructor; assumption|].
      right. destruct Hcase as [(Hall' & -> & ->) | (Hin & Hlt & ->)].
      * split; [left; reflexivity|]. split; [assumption|].
        rewrite Qeq_bool_refl. reflexivity.
      * split; [right; assumption|].
        split; [eapply Qlt_trans; eauto|].
        rewrite (Qeq_bool_lt_false _ _ Hlt).
        destruct (Py.geb h' thr) eqn:Hg; [reflexivity|].
        apply geb_lt in Hg.
        assert (Hst : Py.geb s thr = false)
          by (apply geb_lt; eapply Qlt_trans; eauto).
        rewrite Hst. reflexivity.
    + apply gtb_le in Hgt.
      destruct (IH best highest sims' Hr) as (b' & h' & Hscan & Hle & Hall & Hcase).
      exists b', h'. split; [exact Hscan|]. split; [assumption|].
      split; [constructor; [eapply Qle_trans; eauto | assumption]|].
      destruct Hcase as [(Hall' & -> & ->) | (Hin & Hlt & ->)].
      * left. repeat split; trivial. constructor; assumption.
      * right. split; [right; assumption|]. split; [assumption|].
        rewrite (Qeq_bool_lt_false s h'); [reflexivity|].
        eapply Qle_lt_trans; eauto.
Qed.

Lemma first_with_some (known : list UserData) : forall sims m,
  similarities q known = Py.Ok sims -> In m sims ->
  first_with q known m <> None.
Proof.
  induction known as [|u rest IH]; intros sims m Hs Hin.
  - simpl in Hs. inversion Hs; subst. destruct Hin.
  - destruct (similarities_cons _ _ _ Hs) as (s & sims' & Hc & Hr & ->).
    cbn [first_with]. rewrite Hc.
    destruct (Qeq_bool s m) eqn:E; [discriminate|].
    destruct Hin as [->|Hin].
    + rewrite Qeq_bool_refl in E. discriminate.
    + eapply IH; eauto.
Qed.

End MatchFacts.

Section MatchClaims.

Import FaceProcessor Samples.

(** C3, as stated, fails: a unit-norm query whose only candidate is the
    opposite unit vector has maximum similarity -1; with threshold -1 the
    maximum reaches the threshold, yet no user is returned. *)
Lemma find_match_floor_counterexample :
  ~ matcher_contract (Some [1; 0]) [opposite_user] (-1).
Proof.
  unfold matcher_contract.
  replace (find_match (Some [1; 0]) [opposite_user] (-1))
    with (Py.Ok (@None UserData, -1)) by (vm_compute; reflexivity).
  replace (similarities (Some [1; 0]) [opposite_user])
    with (Py.Ok [-1]) by (vm_compute; reflexivity).
  intro H. destruct H as [_ [_ H]]; try discriminate.
  apply H; [apply Qle_refl | reflexivity].
Qed.

(** C3, amended: when the query is present, the known list is not empty and
    no dot product fails, [find_match] returns; if some similarity exceeds
    -1.0 (the value the scan starts from) the reported similarity is the
    maximum over all candidates, a user is returned exactly when that
    maximum is at least the threshold, and it is the owner of the first
    embedding that attains the maximum; if no similarity exceeds -1.0 the
    result is no user with similarity -1.0.  An absent query or an empty
    known list gives no user with similarity 0.0. *)
Theorem find_match_spec (qe : Embedding) (known : list UserData) (thr : Q)
    (sims : list Q)
    (Hsims : similarities (Some qe) known = Py.Ok sims)
    (Hne : known <> []) :
  find_match None known thr = Py.Ok (None, 0)
  /\ find_match (Some qe) [] thr = Py.Ok (None, 0)
  /\ exists user best,
       find_match (Some qe) known thr = Py.Ok (user, best)
       /\ (Exists (fun s => -1 < s) sims ->
           In best sims
           /\ Forall (fun s => s <= best) sims
           /\ (user <> None <-> thr <= best)
           /\ (thr <= best -> user = first_with (Some qe) known best))
       /\ (Forall (fun s => s <= -1) sims -> user = None /\ best = -1).
Proof.
  split; [reflexivity|]. split; [reflexivity|].
  destruct (scan_spec (Some qe) thr known None (-1) sims Hsims)
    as (b' & h' & Hscan & Hle & Hall & Hcase).
  exists b', h'. split.
  - destruct known; [contradiction|exact Hscan].
  - destruct Hcase as [(Hlow & -> & ->) | (Hin & Hlt & ->)].
    + split; [|auto]. intro Hex. exfalso.
      apply Exists_exists in Hex. destruct Hex as (s & Hs & Hgt).
      rewrite Forall_forall in Hlow. exact (Qlt_not_le _ _ Hgt (Hlow s Hs)).
    + split.
      * intros _. split; [assumption|]. split; [assumption|].
        destruct (Py.geb h' thr) eqn:Hg.
        -- apply geb_ge in Hg. split; [|reflexivity].
           split; [intros _; assumption|].
           intros _. eapply first_with_some; eauto.
        -- apply geb_lt in Hg. split.
           ++ split; [intro H; contradiction|].
              intro H. exfalso. exact (Qlt_not_le _ _ Hg H).
           ++ intro H. exfalso. exact (Qlt_not_le _ _ Hg H).
      * intro Hlow. exfalso. rewrite Forall_forall in Hlow.
        exact (Qlt_not_le _ _ Hlt (Hlow h' Hin)).
Qed.

Lemma find_match_spec_witness :
  similarities (Some [1; 0]) [user_a; user_b] = Py.Ok [0.6 * 1 + (0.8 * 0 + 0); 1 * 1 + (0 * 0 + 0)]
  /\ [user_a; user_b] <> []
  /\ exists user best,
       find_match (Some [1; 0]) [user_a; user_b] 0.45 = Py.Ok (user, best)
       /\ (Exists (fun s => -1 < s) [0.6 * 1 + (0.8 * 0 + 0); 1 * 1 + (0 * 0 + 0)] ->
           In best [0.6 * 1 + (0.8 * 0 + 0); 1 * 1 + (0 * 0 + 0)]
           /\ Forall (fun s => s <= best) [0.6 * 1 + (0.8 * 0 + 0); 1 * 1 + (0 * 0 + 0)]
           /\ (user <> None <-> 0.45 <= best)
           /\ (0.45 <= best -> user = first_with (Some [1; 0]) [user_a; user_b] best))
       /\ (Forall (fun s => s <= -1) [0.6 * 1 + (0.8 * 0 + 0); 1 * 1 + (0 * 0 + 0)] ->
           user = None /\ best = -1).
Proof.
  split; [reflexivity|]. split; [discriminate|].
  apply (find_match_spec [1; 0] [user_a; user_b] 0.45
           [0.6 * 1 + (0.8 * 0 + 0); 1 * 1 + (0 * 0 + 0)]).
  - reflexivity.
  - discriminate.
Defined.

End MatchClaims.

(** ** The session state machine *)

Section ListeningFacts.

Import Gui.
Open Scope Z_scope.

Lemma process_frames_app (a b : list Env) (w : MainWindow) :
  snd (process_frames (a ++ b) w) = snd (process_frames b (snd (process_frames a w))).
Proof.
  revert w. induction a as [|env a IH]; intro w; [reflexivity|].
  cbn [process_frames app].
  destruct (process_frame env w) as [r w'].
  specialize (IH w').
  destruct (process_frames (a ++ b) w') as [rs w''].
  destruct (process_frames a w') as [rs1 w1]. exact IH.
Qed.

Lemma listening_step (env : Env) (w : MainWindow) :
  app_state w = LISTENING ->
  process_frame env w =
  (Py.Ok tt,
   if frame_ok (config w) env then
     if stable_face_counter (state_timers w) + 1 >=? stable_face_frames_to_identify (config w)
     then with_timers (set_stable 0 (state_timers w)) (with_app_state IDENTIFYING w)
     else with_timers (set_stable (stable_face_counter (state_timers w) + 1) (state_timers w)) w
   else with_timers (set_stable 0 (state_timers w)) w).
Proof.
  intro Hs. unfold process_frame, bind, read. rewrite Hs.
  unfold _handle_listening_state, bind, read, frame_ok, pose_data, modify.
  destruct (face_results env); [|reflexivity].
  destruct (acceptable (head_pose env) (config w)); [|reflexivity].
  destruct (_ >=? _); reflexivity.
Qed.

Lemma listening_stable_run (envs : list Env) : forall (w : MainWindow),
  app_state w = LISTENING ->
  Forall (fun env => frame_ok (config w) env = true) envs ->
  stable_face_counter (state_timers w) + Z.of_nat (length envs)
    < stable_face_frames_to_identify (config w) ->
  let w' := snd (process_frames envs w) in
  app_state w' = LISTENING
  /\ config w' = config w
  /\ stable_face_counter (state_timers w')
     = stable_face_counter (state_timers w) + Z.of_nat (length envs).
Proof.
  induction envs as [|env envs IH]; intros w Hs Hok Hlt.
  - cbn. split; [assumption|]. split; [reflexivity|]. lia.
  - inversion Hok as [|? ? Hok1 Hok2]; subst.
    cbn [process_frames]. rewrite (listening_step env w Hs), Hok1.
    cbn [length] in Hlt.
    destruct (_ >=? _) eqn:E; [apply Z.geb_le in E; lia|].
    set (w1 := with_timers _ w).
    specialize (IH w1).
    destruct (process_frames envs w1) as [rs w2] eqn:Hrun. cbn [snd] in *.
    destruct IH as (H1 & H2 & H3); subst w1; cbn; try assumption; try lia.
    repeat split; try assumption. cbn in H3. lia.
Qed.


Lemma process_frames_one (env : Env) (w : MainWindow) :
  snd (process_frames [env] w) = snd (process_frame env w).
Proof.
  cbn [process_frames]. destruct (process_frame env w). reflexivity.
Qed.

Lemma Forall_firstn_ok {A} (P : A -> Prop) (k : nat) (l : list A) :
  Forall P l -> Forall P (firstn k l).
Proof.
  revert k. induction l as [|x l IH]; intros k H; destruct k; cbn; auto.
  inversion H; subst. constructor; auto.
Qed.

(** C5, amended: from [LISTENING] with the stable-face counter at 0 and a
    threshold of at least one frame, threshold - 1 acceptable frames followed by one
    frame without a face or with an unacceptable pose never reach
    [IDENTIFYING] and end with the counter back at 0; threshold acceptable
    frames in a row end in [IDENTIFYING]. *)
Theorem listening_debounce (w : MainWindow) (oks : list Env) (bad : Env)
    (Hs : app_state w = LISTENING)
    (H0 : stable_face_counter (state_timers w) = 0)
    (HN : 1 <= stable_face_frames_to_identify (config w))
    (Hok : Forall (fun env => frame_ok (config w) env = true) oks)
    (Hbad : frame_ok (config w) bad = false) :
  (Z.of_nat (length oks) = stable_face_frames_to_identify (config w) - 1 ->
   (forall k, app_state (snd (process_frames (firstn k (oks ++ [bad])) w)) = LISTENING)
   /\ stable_face_counter (state_timers (snd (process_frames (oks ++ [bad]) w))) = 0)
  /\ (Z.of_nat (length oks) = stable_face_frames_to_identify (config w) ->
      app_state (snd (process_frames oks w)) = IDENTIFYING).
Proof.
  split; intro Hlen.
  - assert (Hend : let w' := snd (process_frames (oks ++ [bad]) w) in
                   app_state w' = LISTENING
                   /\ stable_face_counter (state_timers w') = 0).
    { rewrite process_frames_app, process_frames_one.
      destruct (listening_stable_run oks w Hs Hok) as (H1 & H2 & H3); [lia|].
      rewrite (listening_step bad _ H1), H2, Hbad. cbn. auto. }
    split; [|exact (proj2 Hend)].
    intro k. destruct (Nat.le_gt_cases k (length oks)) as [Hk|Hk].
    + rewrite firstn_app. replace (k - length oks)%nat with 0%nat by lia.
      cbn [firstn]. rewrite app_nil_r.
      apply listening_stable_run; [assumption|apply Forall_firstn_ok; assumption|].
      pose proof (firstn_le_length k oks). lia.
    + rewrite firstn_all2 by (rewrite length_app; cbn; lia).
      exact (proj1 Hend).
  - destruct oks as [|e oks'] using rev_ind; [cbn in Hlen; lia|].
    clear IHoks'. rewrite length_app in Hlen. cbn in Hlen.
    apply Forall_app in Hok. destruct Hok as [Hok1 Hok2].
    inversion Hok2 as [|? ? Hlast _]; subst.
    rewrite process_frames_app, process_frames_one.
    destruct (listening_stable_run oks' w Hs Hok1) as (H1 & H2 & H3); [lia|].
    rewrite (listening_step e _ H1), H2, Hlast.
    destruct (_ >=? _) eqn:E; [reflexivity|].
    rewrite Z.geb_leb in E. apply Z.leb_gt in E. rewrite H3 in E. lia.
Qed.


Lemma listening_debounce_witness :
  (Z.of_nat (length [Samples.ok_env; Samples.ok_env]) = 3 - 1 ->
   (forall k, app_state (snd (process_frames
                (firstn k ([Samples.ok_env; Samples.ok_env] ++ [Samples.turned_env]))
                Samples.listening_window)) = LISTENING)
   /\ stable_face_counter (state_timers (snd (process_frames
         ([Samples.ok_env; Samples.ok_env] ++ [Samples.turned_env])
         Samples.listening_window))) = 0)
  /\ (Z.of_nat (length [Samples.ok_env; Samples.ok_env]) = 3 ->
      app_state (snd (process_frames [Samples.ok_env; Samples.ok_env]
                                     Samples.listening_window)) = IDENTIFYING).
Proof.
  apply (listening_debounce Samples.listening_window
           [Samples.ok_env; Samples.ok_env] Samples.turned_env).
  - reflexivity.
  - reflexivity.
  - vm_compute. discriminate.
  - repeat constructor.
  - reflexivity.
Defined.

(** C5, as stated, fails: [_wake_from_sleep] goes back to [LISTENING]
    without touching the stable-face counter.  After [__init__], two
    acceptable frames, the sensor's no-motion signal and its motion signal
    leave the window in [LISTENING] with the counter at 2, the threshold
    being 3; of the threshold - 1 = 2 acceptable frames that follow, the
    first already moves the window to [IDENTIFYING], and it is there after
    the unacceptable frame that ends the run. *)
Lemma listening_after_wake_identifies_early :
  let w := snd (GuiSignals.deliver_all
                  [GuiSignals.Frame Samples.ok_env; GuiSignals.Frame Samples.ok_env;
                   GuiSignals.NoMotion; GuiSignals.Motion]
                  (init Samples.gui_config (Samples.processor false))) in
  app_state w = LISTENING
  /\ stable_face_frames_to_identify (config w) = 3%Z
  /\ stable_face_counter (state_timers w) = 2%Z
  /\ Forall (fun env => frame_ok (config w) env = true) [Samples.ok_env; Samples.ok_env]
  /\ frame_ok (config w) Samples.turned_env = false
  /\ app_state (snd (process_frames [Samples.ok_env] w)) = IDENTIFYING
  /\ app_state (snd (process_frames ([Samples.ok_env; Samples.ok_env]
                                       ++ [Samples.turned_env]) w)) = IDENTIFYING.
Proof.
  cbv zeta. split; [reflexivity|]. split; [reflexivity|]. split; [reflexivity|].
  split; [repeat constructor|]. repeat split.
Qed.

End ListeningFacts.

Section MonitoringFacts.

Import Gui.

(** In [MONITORING] every frame fails with [AttributeError] on the first
    statement that uses the processor, and the window is left untouched. *)
Lemma monitoring_step (env : Env) (w : MainWindow) :
  app_state w = MONITORING ->
  process_frame env w = (Py.Raise Py.AttributeError, w).
Proof.
  intro Hs. unfold process_frame, bind, read. rewrite Hs. reflexivity.
Qed.

Lemma monitoring_run (envs : list Env) (w : MainWindow) :
  app_state w = MONITORING ->
  process_frames envs w = (map (fun _ => Py.Raise Py.AttributeError) envs, w).
Proof.
  intro Hs. induction envs as [|env envs IH]; [reflexivity|].
  cbn [process_frames map]. rewrite (monitoring_step env w Hs), IH. reflexivity.
Qed.

(** [_logout_user] does close the session, and then fails on the unbound
    name; nothing in the state machine calls it. *)
Lemma logout_user_effect (env : Env) (w : MainWindow) :
  save_event_log_to_file env = Py.Ok tt ->
  populate_event_tree env = Py.Ok tt ->
  let '(r, w') := _logout_user env w in
  r = Py.Raise Py.NameError
  /\ app_state w' = LISTENING
  /\ current_user_id w' = None
  /\ face_lost_counter (state_timers w') = 0%Z.
Proof.
  intros H1 H2. unfold _logout_user, bind, read, call, modify, ret, raise.
  rewrite H1, H2.
  destruct (_ && _); cbn; auto.
Qed.

(** C1, on the code: with [face_lost_frames_to_logout = 2], three
    consecutive frames with neither face nor body delivered in [MONITORING]
    each raise [AttributeError]; afterwards the window is still in
    [MONITORING], user 7 is still bound and the face-lost counter is still
    0. *)
Theorem monitoring_face_lost_no_logout :
  face_lost_frames_to_logout (config Samples.monitoring_window) = 2%Z
  /\ process_frames [Samples.absent_env; Samples.absent_env; Samples.absent_env]
                    Samples.monitoring_window
     = ([Py.Raise Py.AttributeError; Py.Raise Py.AttributeError;
         Py.Raise Py.AttributeError],
        Samples.monitoring_window)
  /\ app_state Samples.monitoring_window = MONITORING
  /\ current_user_id Samples.monitoring_window = Some 7%Z
  /\ face_lost_counter (state_timers Samples.monitoring_window) = 0%Z.
Proof.
  split; [reflexivity|]. split; [|repeat split].
  exact (monitoring_run _ Samples.monitoring_window eq_refl).
Qed.

(** C2, on the code: [process_frame] dispatches to the handlers without a
    [try] of its own.  A frame delivered in [MONITORING] raises
    [AttributeError] out of [process_frame] and the window stays in
    [MONITORING], user bound: nothing is caught and there is no transition
    to [LISTENING].  Three acceptable frames after [__init__] lead to
    [IDENTIFYING], where the next frame raises [AttributeError] at the
    landmark check, before the handler's [try], and the window stays in
    [IDENTIFYING]. *)
Theorem handler_exception_propagates :
  app_state Samples.monitoring_window = MONITORING
  /\ process_frame Samples.absent_env Samples.monitoring_window
     = (Py.Raise Py.AttributeError, Samples.monitoring_window)
  /\ Samples.listening_window = init Samples.gui_config (Samples.processor false)
  /\ (let w := snd (process_frames [Samples.ok_env; Samples.ok_env; Samples.ok_env]
                                   Samples.listening_window) in
      app_state w = IDENTIFYING
      /\ process_frame Samples.ok_env w = (Py.Raise Py.AttributeError, w)).
Proof.
  split; [reflexivity|]. split.
  - exact (monitoring_step _ Samples.monitoring_window eq_refl).
  - split; [reflexivity|]. cbv zeta. split; reflexivity.
Qed.

Lemma try_except_total {A} (body : M A) (handler : Py.exn -> M A) (w : MainWindow) :
  (forall e w1, exists a w2, handler e w1 = (Py.Ok a, w2)) ->
  exists a w', try_except body handler w = (Py.Ok a, w').
Proof.
  intro Hh. unfold try_except. destruct (body w) as [[a|e] w1]; eauto.
Qed.

Lemma try_listening (body : M unit) (w : MainWindow) :
  exists w', try_except body (fun _ => modify (with_app_state LISTENING)) w = (Py.Ok tt, w')
             /\ (Py.is_ok (fst (body w)) = false -> app_state w' = LISTENING).
Proof.
  unfold try_except, modify. destruct (body w) as [[[]|e] w1]; cbn.
  - exists w1. split; [reflexivity|discriminate].
  - eexists. split; [reflexivity|]. reflexivity.
Qed.

(** The two [try] blocks that exist do what the specification asks of
    every handler: an exception raised inside the [try] of
    [_execute_auto_registration] or, once [last_known_face_results] holds
    landmarks, inside the [try] of [_handle_identifying_state] is caught
    there and the state becomes [LISTENING]. *)
Lemma guarded_blocks_catch (env : Env) (w : MainWindow) :
  (exists w', _execute_auto_registration env w = (Py.Ok tt, w')
              /\ (Py.is_ok (fst (registration_body env w)) = false ->
                  app_state w' = LISTENING))
  /\ (last_known_face_results w = Some true ->
      exists w', _handle_identifying_state env w = (Py.Ok tt, w')
                 /\ (Py.is_ok (fst (identify_body env w)) = false ->
                     app_state w' = LISTENING)).
Proof.
  split; [apply try_listening|].
  intro Hl. unfold _handle_identifying_state, bind, read. rewrite Hl.
  apply try_listening.
Qed.

Lemma guarded_blocks_catch_example :
  exists w', _handle_identifying_state Samples.embedding_fails_env
                                       Samples.identifying_window = (Py.Ok tt, w')
             /\ app_state w' = LISTENING.
Proof.
  destruct (guarded_blocks_catch Samples.embedding_fails_env
                                 Samples.identifying_window) as (_ & H).
  destruct (H eq_refl) as (w' & H1 & H2).
  exists w'. split; [exact H1|]. apply H2. reflexivity.
Qed.

End MonitoringFacts.

Section ReachFacts.

Import Gui.

Lemma prepare_keeps_attribute env w :
  last_known_face_results (snd (_prepare_for_monitoring_session env w))
  = last_known_face_results w.
Proof.
  unfold _prepare_for_monitoring_session, bind, modify, call.
  destruct (populate_event_tree env); reflexivity.
Qed.

Lemma login_keeps_attribute env uid code sim w :
  last_known_face_results (snd (_login_user env uid code sim w))
  = last_known_face_results w.
Proof.
  unfold _login_user, bind, modify, call.
  destruct (log_access_log env); [|reflexivity].
  rewrite prepare_keeps_attribute. reflexivity.
Qed.

Lemma registration_keeps_attribute env w :
  last_known_face_results (snd (_execute_auto_registration env w))
  = last_known_face_results w.
Proof.
  unfold _execute_auto_registration, try_except, registration_body, bind, modify, call, raise.
  destruct (align_face env) as [[[]|]|]; try reflexivity.
  destruct (get_embedding env) as [[e|]|]; try reflexivity.
  destruct (register_user env) as [[[uid code]|]|]; try reflexivity.
  destruct (_ && _); [|reflexivity].
  destruct (store_new_user env); [|reflexivity].
  pose proof (login_keeps_attribute env uid code 1 w) as H.
  destruct (_login_user env uid code 1 w) as [[[]|e'] w']; cbn in *; exact H.
Qed.

(** No handler assigns [last_known_face_results]. *)
Lemma process_frame_keeps_attribute env w :
  last_known_face_results w = None ->
  last_known_face_results (snd (process_frame env w)) = None.
Proof.
  intro H. unfold process_frame, bind, read.
  destruct (app_state w).
  - unfold _handle_listening_state, bind, read, modify.
    destruct (face_results env); [|exact H].
    destruct (acceptable _ _); [|exact H].
    destruct (_ >=? _)%Z; exact H.
  - unfold _handle_identifying_state, bind, read. rewrite H. exact H.
  - unfold _handle_auto_registering_state, bind, read, modify, ret.
    destruct (negb _); [exact H|].
    destruct (Py.leb _ 0); [|exact H].
    rewrite registration_keeps_attribute. exact H.
  - unfold _handle_monitoring_state, bind, fatigue_processor_method. cbn. exact H.
  - exact H.
Qed.

(** From [__init__] on, the attribute is never assigned: a frame delivered
    in [IDENTIFYING] raises [AttributeError] at the landmark check, before
    the [try]. *)
Lemma process_frames_keep_attribute (envs : list Env) : forall w,
  last_known_face_results w = None ->
  last_known_face_results (snd (process_frames envs w)) = None.
Proof.
  induction envs as [|e envs IH]; intros w0 H0; [exact H0|].
  cbn [process_frames].
  pose proof (process_frame_keeps_attribute e w0 H0) as H1.
  destruct (process_frame e w0) as [r w1]. cbn [snd] in H1.
  specialize (IH w1 H1). destruct (process_frames envs w1). exact IH.
Qed.

(** From [__init__] on, the attribute is never assigned: a frame delivered
    in [IDENTIFYING] raises [AttributeError] at the landmark check, before
    the [try]. *)
Lemma identifying_raises_before_try cfg fp envs env :
  let w := snd (process_frames envs (init cfg fp)) in
  app_state w = IDENTIFYING ->
  process_frame env w = (Py.Raise Py.AttributeError, w).
Proof.
  intros w Hs.
  assert (Hattr : last_known_face_results w = None)
    by (apply process_frames_keep_attribute; reflexivity).
  unfold process_frame, bind, read. rewrite Hs.
  unfold _handle_identifying_state, bind, read. rewrite Hattr. reflexivity.
Qed.

End ReachFacts.

(** ** The fatigue event detector *)

Section InferenceFacts.

Import NpFloat FatigueProcessor Samples.

Lemma mem_app (e x : string) (l : list string) :
  mem e (l ++ [x]) = mem e l || String.eqb e x.
Proof.
  unfold mem. rewrite existsb_app. cbn. rewrite orb_false_r. reflexivity.
Qed.

Lemma mem_In (e : string) (l : list string) : mem e l = true <-> In e l.
Proof.
  unfold mem. rewrite existsb_exists. split.
  - intros (x & Hx & He). apply String.eqb_eq in He. subst. exact Hx.
  - intro H. exists e. split; [exact H|apply String.eqb_refl].
Qed.

Lemma mem_list_set (e : string) (l : list string) :
  mem e (Py.list_set l) = mem e l.
Proof.
  apply eq_true_iff_eq. rewrite !mem_In. unfold Py.list_set. apply nodup_In.
Qed.

Lemma yawn_block_spec th cal m ct s evs :
  let r := yawn_block th cal m ct s evs in
  closed_eyes_frames (snd r) = closed_eyes_frames s
  /\ last_despierta_alert_time (snd r) = last_despierta_alert_time s
  /\ forall e, String.eqb e "Bostezar" = false -> mem e (fst r) = mem e evs.
Proof.
  unfold yawn_block. destruct (gtb _ _); [destruct (_ && _)|];
    cbn [fst snd closed_eyes_frames last_despierta_alert_time set_yawn];
    repeat split; trivial; intros e He; try reflexivity;
    rewrite mem_app, He, orb_false_r; reflexivity.
Qed.

Lemma rub_block_spec th f ct s evs :
  let r := rub_block th f ct s evs in
  closed_eyes_frames (snd r) = closed_eyes_frames s
  /\ last_despierta_alert_time (snd r) = last_despierta_alert_time s
  /\ forall e, String.eqb e "Frotar Ojos" = false -> mem e (fst r) = mem e evs.
Proof.
  unfold rub_block. destruct (_ >? _)%Z; [destruct (_ && _)|];
    cbn [fst snd closed_eyes_frames last_despierta_alert_time set_eye_rub];
    repeat split; trivial; intros e He; try reflexivity;
    rewrite mem_app, He, orb_false_r; reflexivity.
Qed.

Lemma eyes_block_spec th cal m ct s evs :
  let r := eyes_block th cal m ct s evs in
  let n := (closed_eyes_frames s + 1)%Z in
  let above_max := (n >? get (MAX_ALERT_EYES_CLOSED_FRAMES th) 60)%Z in
  let despierta := eyes_closed th cal m && above_max
                   && Py.gtb (ct - last_despierta_alert_time s) 5 in
  let somnolencia := eyes_closed th cal m && negb above_max
                     && (n >? get (DROWSINESS_EYES_CLOSED_FRAMES th) 20)%Z in
  closed_eyes_frames (snd r) = (if eyes_closed th cal m then n else 0%Z)
  /\ last_despierta_alert_time (snd r)
     = (if despierta then ct else last_despierta_alert_time s)
  /\ mem "Despierta" (fst r) = mem "Despierta" evs || despierta
  /\ mem "Somnolencia" (fst r) = mem "Somnolencia" evs || somnolencia.
Proof.
  unfold eyes_block, eyes_closed.
  destruct (ltb _ _); cbn [andb negb];
    [|cbn [fst snd closed_eyes_frames last_despierta_alert_time set_closed_eyes];
      rewrite !orb_false_r; auto].
  destruct (_ >? get (MAX_ALERT_EYES_CLOSED_FRAMES th) 60%Z)%Z; cbn [andb negb].
  - destruct (Py.gtb _ 5);
      cbn [fst snd closed_eyes_frames last_despierta_alert_time set_closed_eyes];
      rewrite ?mem_app; cbn [String.eqb Ascii.eqb Bool.eqb andb orb];
      rewrite ?orb_false_r; auto.
  - destruct (_ >? _)%Z;
      cbn [fst snd closed_eyes_frames last_despierta_alert_time set_closed_eyes];
      rewrite ?mem_app; cbn [String.eqb Ascii.eqb Bool.eqb andb orb];
      rewrite ?orb_false_r; auto.
Qed.

Lemma lstm_block_silent fp f ct s evs :
  lstm_silent (lstm_classifier fp) f = true -> lstm_block fp f ct s evs = Py.Ok (evs, s).
Proof.
  unfold lstm_silent, lstm_block. destruct (lstm_classifier fp); cbn; [|reflexivity].
  destruct (lstm_prediction f) as [p|]; [|reflexivity].
  destruct (p =? 1)%Z; [discriminate|reflexivity].
Qed.

Lemma lstm_block_raises fp f s evs :
  lstm_classifier fp = true -> lstm_prediction f = Some 1%Z ->
  lstm_block fp f None s evs = Py.Raise Py.UnboundLocalError.
Proof.
  intros H1 H2. unfold lstm_block. rewrite H1, H2. reflexivity.
Qed.

Variable M : MathLib.

Lemma inference_step (fp : t) (f : Frame) (c : Clock) lm cal m :
  face_landmarks f = Some lm ->
  calibration_data fp = Some cal ->
  _calculate_facial_metrics M lm (frame_shape f) (Some cal) = Py.Ok m ->
  lstm_silent (lstm_classifier fp) f = true ->
  exists evs ov fp',
    process_frame_for_inference M fp f c = (Py.Ok (evs, ov), fp')
    /\ config fp' = config fp
    /\ calibration_data fp' = Some cal
    /\ lstm_classifier fp' = lstm_classifier fp
    /\ let th := config fp in
       let s := state fp in
       let n := (closed_eyes_frames s + 1)%Z in
       let above_max := (n >? get (MAX_ALERT_EYES_CLOSED_FRAMES th) 60)%Z in
       let despierta := eyes_closed th cal m && above_max
                        && Py.gtb (t_current c - last_despierta_alert_time s) 5 in
       let somnolencia := eyes_closed th cal m && negb above_max
                          && (n >? get (DROWSINESS_EYES_CLOSED_FRAMES th) 20)%Z in
       closed_eyes_frames (state fp') = (if eyes_closed th cal m then n else 0%Z)
       /\ last_despierta_alert_time (state fp')
          = (if despierta then t_current c else last_despierta_alert_time s)
       /\ mem "Despierta" evs = despierta
       /\ mem "Somnolencia" evs = somnolencia.
Proof.
  intros Hf Hc Hm Hl.
  unfold process_frame_for_inference.
  destruct (PausaActivaHandler.update _ _ _ _) as [[alert remaining] pausa'].
  rewrite Hf. cbn [with_pausa with_state calibration_data state config lstm_classifier nod_detector].
  rewrite Hc, Hm.
  rewrite lstm_block_silent by exact Hl.
  cbn [with_pausa with_state calibration_data state config lstm_classifier nod_detector].
  destruct (head_angle f) as [angle_x angle_y].
  set (s1 := set_distraction _ _ _).
  set (ev0 := if alert then _ else _).
  pose proof (yawn_block_spec (config fp) cal m (t_current c) s1 ev0) as Hy.
  destruct (yawn_block _ _ _ _ _ _) as [ev2 s3]. cbn [fst snd] in Hy.
  pose proof (eyes_block_spec (config fp) cal m (t_current c) s3 ev2) as He.
  destruct (eyes_block _ _ _ _ _ _) as [ev3 s4]. cbn [fst snd] in He.
  destruct (NodDetector.update _ _ _ _) as [[nod risk] nod'].
  set (ev4 := if nod then _ else _).
  pose proof (rub_block_spec (config fp) f (t_current c) s4 ev4) as Hr.
  destruct (rub_block _ _ _ _ _) as [ev5 s5]. cbn [fst snd] in Hr.
  destruct (banner ev5) as [text max_alert].
  do 3 eexists. split; [reflexivity|].
  cbn [with_nod with_state config calibration_data lstm_classifier state].
  split; [reflexivity|]. split; [exact Hc|]. split; [reflexivity|].
  destruct Hy as (Hy1 & Hy2 & Hy3).
  destruct He as (He1 & He2 & He3 & He4).
  destruct Hr as (Hr1 & Hr2 & Hr3).
  assert (H0 : forall e, mem e ev0 = String.eqb e "Pausa Activa" && alert).
  { intro e. subst ev0. destruct alert; cbn; rewrite ?orb_false_r, ?andb_true_r, ?andb_false_r; reflexivity. }
  assert (H4 : forall e, String.eqb e "Cabeceo" = false -> mem e ev4 = mem e ev3).
  { intros e H. subst ev4. destruct nod; [|reflexivity]. rewrite mem_app, H, orb_false_r. reflexivity. }
  rewrite Hy1, Hy2 in *. subst s1. cbn [closed_eyes_frames last_despierta_alert_time set_distraction] in *.
  rewrite Hr1, Hr2, He1, He2.
  rewrite !mem_list_set, !Hr3, !H4, He3, He4, !Hy3, !H0 by reflexivity.
  cbn. auto.
Qed.


Lemma run_cons (fp : t) (f : Frame) (c : Clock) (rest : list (Frame * Clock)) :
  run M fp ((f, c) :: rest)
  = (fst (process_frame_for_inference M fp f c)
       :: fst (run M (snd (process_frame_for_inference M fp f c)) rest),
     snd (run M (snd (process_frame_for_inference M fp f c)) rest)).
Proof.
  cbn [run]. destruct (process_frame_for_inference M fp f c) as [r fp'].
  cbn [fst snd]. destruct (run M fp' rest). reflexivity.
Qed.

Lemma run_app (a b : list (Frame * Clock)) : forall fp,
  run M fp (a ++ b)
  = (fst (run M fp a) ++ fst (run M (snd (run M fp a)) b),
     snd (run M (snd (run M fp a)) b)).
Proof.
  induction a as [|[f c] a IH]; intro fp.
  - cbn. destruct (run M fp b). reflexivity.
  - cbn [app]. rewrite !run_cons, IH. reflexivity.
Qed.

Lemma closed_frame_step (fp : t) (f : Frame) (c : Clock) cal :
  calibration_data fp = Some cal ->
  closed_eyes_frame M (config fp) cal f = true ->
  lstm_silent (lstm_classifier fp) f = true ->
  let r := process_frame_for_inference M fp f c in
  let n := (closed_eyes_frames (state fp) + 1)%Z in
  let despierta := (n >? get (MAX_ALERT_EYES_CLOSED_FRAMES (config fp)) 60)%Z
                   && Py.gtb (t_current c - last_despierta_alert_time (state fp)) 5 in
  config (snd r) = config fp
  /\ calibration_data (snd r) = Some cal
  /\ lstm_classifier (snd r) = lstm_classifier fp
  /\ closed_eyes_frames (state (snd r)) = n
  /\ last_despierta_alert_time (state (snd r))
     = (if despierta then t_current c else last_despierta_alert_time (state fp))
  /\ emitted "Despierta" (fst r) = despierta.
Proof.
  intros Hc Hclosed Hl. unfold closed_eyes_frame in Hclosed.
  destruct (face_landmarks f) as [lm|] eqn:Hf; [|discriminate].
  destruct (_calculate_facial_metrics M lm (frame_shape f) (Some cal)) as [m|e] eqn:Hm;
    [|discriminate].
  destruct (inference_step fp f c lm cal m Hf Hc Hm Hl)
    as (evs & ov & fp' & Heq & H1 & H2 & H3 & H4 & H5 & H6 & _).
  rewrite Heq. cbn [fst snd emitted]. rewrite Hclosed in *. cbn [andb] in *.
  repeat split; assumption.
Qed.

Lemma closed_frames_below_max (frames : list (Frame * Clock)) : forall (fp : t) cal,
  calibration_data fp = Some cal ->
  Forall (test_frame M (config fp) cal (lstm_classifier fp)) frames ->
  (closed_eyes_frames (state fp) + Z.of_nat (length frames)
   <= get (MAX_ALERT_EYES_CLOSED_FRAMES (config fp)) 60)%Z ->
  let r := run M fp frames in
  map (emitted "Despierta") (fst r) = repeat false (length frames)
  /\ config (snd r) = config fp
  /\ calibration_data (snd r) = Some cal
  /\ lstm_classifier (snd r) = lstm_classifier fp
  /\ closed_eyes_frames (state (snd r))
     = (closed_eyes_frames (state fp) + Z.of_nat (length frames))%Z
  /\ last_despierta_alert_time (state (snd r)) = last_despierta_alert_time (state fp).
Proof.
  induction frames as [|[f c] frames IH]; intros fp cal Hc Hall Hle.
  - cbn. repeat split; trivial. lia.
  - inversion Hall as [|? ? (Hclosed & Hl & _) Hrest]; subst. cbn [fst snd] in *.
    cbn [length] in Hle.
    destruct (closed_frame_step fp f c cal Hc Hclosed Hl)
      as (H1 & H2 & H3 & H4 & H5 & H6).
    assert (Hn : ((closed_eyes_frames (state fp) + 1
                   >? get (MAX_ALERT_EYES_CLOSED_FRAMES (config fp)) 60)%Z = false)).
    { rewrite Z.gtb_ltb. apply Z.ltb_ge. lia. }
    rewrite Hn in *. cbn [andb] in *.
    rewrite run_cons. cbn [fst snd map length repeat].
    set (fp1 := snd (process_frame_for_inference M fp f c)) in *.
    destruct (IH fp1 cal H2) as (I1 & I2 & I3 & I4 & I5 & I6).
    + rewrite H1, H3. exact Hrest.
    + rewrite H1, H4. lia.
    + rewrite H6, I1, I2, I3, I4, I5, I6, H1, H3, H4, H5.
      repeat split; trivial. lia.
Qed.

Lemma closed_frames_in_cooldown (frames : list (Frame * Clock)) : forall (fp : t) cal,
  calibration_data fp = Some cal ->
  Forall (cooldown_frame M (config fp) cal (lstm_classifier fp)
                         (last_despierta_alert_time (state fp))) frames ->
  map (emitted "Despierta") (fst (run M fp frames)) = repeat false (length frames).
Proof.
  induction frames as [|[f c] frames IH]; intros fp cal Hc Hall; [reflexivity|].
  inversion Hall as [|? ? (Hclosed & Hl & Ht) Hrest]; subst. cbn [fst snd] in *.
  destruct (closed_frame_step fp f c cal Hc Hclosed Hl)
    as (H1 & H2 & H3 & H4 & H5 & H6).
  assert (Hcool : Py.gtb (t_current c - last_despierta_alert_time (state fp)) 5 = false)
    by (apply gtb_le; exact Ht).
  rewrite Hcool, andb_false_r in *.
  rewrite run_cons. cbn [fst map length repeat]. rewrite H6. f_equal.
  apply (IH _ cal H2). rewrite H1, H3, H5. exact Hrest.
Qed.

Lemma count_emitted_map (e : string) (l : list (Py.result (list string * Overlay))) :
  count_emitted e l = NodDetector.count_true (map (emitted e) l).
Proof.
  unfold count_emitted, NodDetector.count_true.
  induction l as [|x l IH]; [reflexivity|]. cbn.
  destruct (emitted e x); cbn; rewrite IH; reflexivity.
Qed.

Lemma count_true_repeat_false (n : nat) :
  NodDetector.count_true (repeat false n) = 0%nat.
Proof. induction n; cbn; auto. Qed.

(** What the eyes-closed block does when the classifier stays out of the
    way: with calibration set and the fatigue state as [reset_state] leaves
    it, MAX_ALERT_EYES_CLOSED_FRAMES + 1 consecutive frames with a detected
    face and EAR below the calibrated threshold, none with a classifier
    answer of 1, the wall clock more than five seconds past the epoch, emit
    "Despierta" on the last frame and on no other; further such frames
    within 5 seconds of that emission emit none. *)
Lemma despierta_once_without_classifier (fp : t) (cal : Calibration)
    (before : list (Frame * Clock)) (last : Frame * Clock)
    (after : list (Frame * Clock))
    (Hcal : calibration_data fp = Some cal)
    (Hreset : state fp = initial_state)
    (Hmax : (0 <= get (MAX_ALERT_EYES_CLOSED_FRAMES (config fp)) 60)%Z)
    (Hlen : Z.of_nat (length (before ++ [last]))
            = (get (MAX_ALERT_EYES_CLOSED_FRAMES (config fp)) 60 + 1)%Z)
    (Hframes : Forall (test_frame M (config fp) cal (lstm_classifier fp))
                      (before ++ [last]))
    (Hafter : Forall (cooldown_frame M (config fp) cal (lstm_classifier fp)
                                     (t_current (snd last))) after) :
  map (emitted "Despierta") (fst (run M fp (before ++ last :: after)))
  = repeat false (length before) ++ true :: repeat false (length after)
  /\ count_emitted "Despierta" (fst (run M fp (before ++ [last]))) = 1%nat
  /\ count_emitted "Despierta" (fst (run M fp (before ++ last :: after))) = 1%nat.
Proof.
  destruct last as [f c].
  rewrite length_app in Hlen. cbn [length] in Hlen.
  apply Forall_app in Hframes. destruct Hframes as [Hinit Hlast].
  inversion Hlast as [|? ? (Hclosed & Hl & Ht) _]; subst. cbn [fst snd] in *.
  destruct (closed_frames_below_max before fp cal Hcal Hinit)
    as (I1 & I2 & I3 & I4 & I5 & I6).
  { rewrite Hreset. cbn. lia. }
  set (fp1 := snd (run M fp before)) in *.
  destruct (closed_frame_step fp1 f c cal I3) as (H1 & H2 & H3 & H4 & H5 & H6).
  { rewrite I2. exact Hclosed. }
  { rewrite I4. exact Hl. }
  rewrite I5, I6, I2, Hreset in H5, H6.
  cbn [closed_eyes_frames last_despierta_alert_time initial_state] in H5, H6.
  assert (Habove : ((0 + Z.of_nat (length before) + 1
                     >? get (MAX_ALERT_EYES_CLOSED_FRAMES (config fp)) 60)%Z = true))
    by (rewrite Z.gtb_ltb; apply Z.ltb_lt; lia).
  assert (Hcool : Py.gtb (t_current c - 0) 5 = true)
    by (apply gtb_gt; unfold Qminus; rewrite Qplus_0_r; exact Ht).
  rewrite Habove, Hcool in H5, H6. cbn [andb] in H5, H6.
  assert (Hall : forall more,
             Forall (cooldown_frame M (config fp) cal (lstm_classifier fp)
                                    (t_current c)) more ->
             map (emitted "Despierta") (fst (run M fp (before ++ (f, c) :: more)))
             = repeat false (length before) ++ true :: repeat false (length more)).
  { intros more Hmore. rewrite run_app. cbn [fst]. rewrite map_app, I1. f_equal.
    fold fp1. rewrite run_cons. cbn [fst map]. rewrite H6. f_equal.
    apply (closed_frames_in_cooldown more _ cal H2).
    rewrite H1, H3, H5, I2, I4. exact Hmore. }
  split; [exact (Hall after Hafter)|].
  rewrite !count_emitted_map, (Hall after Hafter), (Hall [] (Forall_nil _)).
  unfold NodDetector.count_true.
  rewrite !filter_app, !length_app. cbn [filter length repeat].
  fold (NodDetector.count_true (repeat false (length before))).
  fold (NodDetector.count_true (repeat false (length after))).
  rewrite !count_true_repeat_false. split; reflexivity.
Qed.

(** With a loaded classifier that answers 1, the call reads the local
    [current_time] before it is assigned. *)
Lemma classifier_event_raises (fp : t) (f : Frame) (c : Clock)
    (lm : list point) (m : Metrics) :
  face_landmarks f = Some lm ->
  _calculate_facial_metrics M lm (frame_shape f) (calibration_data fp) = Py.Ok m ->
  lstm_classifier fp = true ->
  lstm_prediction f = Some 1%Z ->
  fst (process_frame_for_inference M fp f c) = Py.Raise Py.UnboundLocalError.
Proof.
  intros Hf Hm Hl Hp. unfold process_frame_for_inference.
  rewrite Hf.
  destruct (PausaActivaHandler.update _ _ _ _) as [[alert remaining] pausa'].
  cbn [with_pausa with_state calibration_data state config lstm_classifier
       nod_detector pausa_handler].
  rewrite Hm, lstm_block_raises by assumption. reflexivity.
Qed.




(** Without a calibration profile the call answers
    ["AWAITING_CALIBRATION"] alone, whatever the pause handler did in the
    same call. *)
Lemma awaiting_calibration_masks (fp : t) (f : Frame) (c : Clock)
    (lm : list point) (m : Metrics) :
  face_landmarks f = Some lm ->
  calibration_data fp = None ->
  _calculate_facial_metrics M lm (frame_shape f) None = Py.Ok m ->
  lstm_silent (lstm_classifier fp) f = true ->
  let r := process_frame_for_inference M fp f c in
  (exists ov, fst r = Py.Ok (["AWAITING_CALIBRATION"%string], ov))
  /\ pausa_handler (snd r)
     = snd (PausaActivaHandler.update (pausa_handler fp) true (pose_detected f)
                                      (t_pausa c)).
Proof.
  intros Hf Hc Hm Hl. unfold process_frame_for_inference.
  rewrite Hf.
  destruct (PausaActivaHandler.update _ _ _ _) as [[alert remaining] pausa'].
  cbn [with_pausa with_state calibration_data state config lstm_classifier
       nod_detector pausa_handler].
  rewrite Hc, Hm, lstm_block_silent by exact Hl.
  cbn [with_pausa with_state calibration_data state config lstm_classifier
       nod_detector pausa_handler].
  rewrite ?Hc. cbn. eauto.
Qed.

End InferenceFacts.

Section InferenceExamples.

Import NpFloat FatigueProcessor Samples.

Lemma despierta_once_without_classifier_example :
  map (emitted "Despierta")
      (fst (run approx_math calibrated_processor
                ([closed_frame_at 1; closed_frame_at 2]
                   ++ closed_frame_at 3 :: [closed_frame_at 4; closed_frame_at 5])))
  = repeat false (length [closed_frame_at 1; closed_frame_at 2])
    ++ true :: repeat false (length [closed_frame_at 4; closed_frame_at 5])
  /\ count_emitted "Despierta"
       (fst (run approx_math calibrated_processor
                 ([closed_frame_at 1; closed_frame_at 2] ++ [closed_frame_at 3]))) = 1%nat
  /\ count_emitted "Despierta"
       (fst (run approx_math calibrated_processor
                 ([closed_frame_at 1; closed_frame_at 2]
                    ++ closed_frame_at 3 :: [closed_frame_at 4; closed_frame_at 5]))) = 1%nat.
Proof.
  apply (despierta_once_without_classifier approx_math calibrated_processor calibration
           [closed_frame_at 1; closed_frame_at 2] (closed_frame_at 3)
           [closed_frame_at 4; closed_frame_at 5]).
  - reflexivity.
  - reflexivity.
  - vm_compute. discriminate.
  - reflexivity.
  - repeat constructor; vm_compute; reflexivity.
  - repeat constructor; vm_compute; try reflexivity; discriminate.
Defined.



(** C6, on the code: a calibrated processor with a loaded classifier, the
    state as [reset_state] leaves it, the higher threshold at 2 frames;
    MAX_ALERT_EYES_CLOSED_FRAMES + 1 = 3 consecutive frames with a detected
    face and EAR below the calibrated threshold, on each of which the
    classifier answers 1.  Every call raises [UnboundLocalError] before the
    eyes-closed block: "Despierta" is emitted on none of the frames and the
    counter is still 0.  The same three frames without the classifier's
    answer emit it once. *)
Theorem despierta_lost_to_classifier :
  let frames := [flagged_frame_at 1; flagged_frame_at 2; flagged_frame_at 3] in
  let r := run approx_math classifier_processor frames in
  calibration_data classifier_processor = Some calibration
  /\ lstm_classifier classifier_processor = true
  /\ state classifier_processor = initial_state
  /\ get (MAX_ALERT_EYES_CLOSED_FRAMES (config classifier_processor)) 60%Z = 2%Z
  /\ Forall (fun fc => closed_eyes_frame approx_math (config classifier_processor)
                                         calibration (fst fc) = true) frames
  /\ fst r = [Py.Raise Py.UnboundLocalError; Py.Raise Py.UnboundLocalError;
              Py.Raise Py.UnboundLocalError]
  /\ count_emitted "Despierta" (fst r) = 0%nat
  /\ closed_eyes_frames (state (snd r)) = 0%Z
  /\ count_emitted "Despierta"
       (fst (run approx_math classifier_processor
                 [closed_frame_at 1; closed_frame_at 2; closed_frame_at 3])) = 1%nat.
Proof.
  cbv zeta.
  split; [reflexivity|]. split; [reflexivity|]. split; [reflexivity|].
  split; [reflexivity|].
  split; [repeat (apply Forall_cons; [vm_compute; reflexivity|]); apply Forall_nil|].
  split; [vm_compute; reflexivity|]. split; [vm_compute; reflexivity|].
  split; vm_compute; reflexivity.
Qed.

(** C10, on the code: a processor with a loaded classifier and no
    calibration profile, a frame with a detected face on which the
    classifier answers 1: the call raises [UnboundLocalError] instead of
    returning ["AWAITING_CALIBRATION"]. *)
Theorem awaiting_calibration_classifier_raises :
  calibration_data (processor true) = None
  /\ fst (process_frame_for_inference approx_math (processor true)
            (frame_of open_eyes_mesh (Some 1%Z)) (clock_at (T0 + 1)))
     = Py.Raise Py.UnboundLocalError.
Proof. split; vm_compute; reflexivity. Qed.

(** The same frame without the classifier's answer: the pause reminder
    raised by the call (work duration 10 s, 11 s elapsed) is dropped from
    the answer while the handler has started a new cycle. *)
Lemma awaiting_calibration_drops_pause :
  let fp := init no_thresholds NodDetector.default_config false 10 180 T0 T0 T0 in
  let r := process_frame_for_inference approx_math fp
             (frame_of open_eyes_mesh None) (clock_at (T0 + 11)) in
  fst (fst (PausaActivaHandler.update (pausa_handler fp) true false
                                      (t_pausa (clock_at (T0 + 11))))) = true
  /\ (match fst r with
      | Py.Ok (events, _) => events = ["AWAITING_CALIBRATION"%string]
      | Py.Raise _ => False
      end)
  /\ PausaActivaHandler.elapsed_work_time (pausa_handler (snd r)) = 0.
Proof. vm_compute. repeat split. Qed.

End InferenceExamples.

(** ** The active-pause handler *)

Section PausaFacts.

Import PausaActivaHandler Samples.





Lemma pausa_run_cons h f p c rest :
  run h ((f, p, c) :: rest)
  = (fst (update h f p c) :: fst (run (snd (update h f p c)) rest),
     snd (run (snd (update h f p c)) rest)).
Proof.
  cbn [run]. destruct (update h f p c) as [out h']. cbn [fst snd].
  destruct (run h' rest). reflexivity.
Qed.


(** An absent update never alerts. *)
Lemma absent_step_no_alert h c : fst (fst (update h false false c)) = false.
Proof.
  unfold update. cbn [orb]. destruct (negb _); destruct (truthy _ && _); reflexivity.
Qed.









(** One update per second with the user present: alerts at seconds 10 and
    20 and at no other of the first 25 seconds. *)
Lemma pausa_activa_second_by_second :
  map fst (fst (run (init 10 180 T0) (present_every_second T0 25)))
  = [false; false; false; false; false; false; false; false; false; true;
     false; false; false; false; false; false; false; false; false; true;
     false; false; false; false; false].
Proof. vm_compute. reflexivity. Qed.

End PausaFacts.

(** ** The facial metric extractor *)

Section MetricFacts.

Import NpFloat FatigueProcessor Samples.

Variable M : MathLib.

Lemma Qeq_bool_nonzero (x : Q) : ~ x == 0 -> Qeq_bool x 0 = false.
Proof.
  intro H. destruct (Qeq_bool x 0) eqn:E; [|reflexivity].
  apply Qeq_bool_eq in E. contradiction.
Qed.

(** A division whose divisor is not zero is finite. *)
Lemma div_finite (a b : Q) : ~ b == 0 -> div (Fin a) (Fin b) = Fin (a / b).
Proof.
  intro H. cbn. rewrite (Qeq_bool_nonzero b H). reflexivity.
Qed.

(** EAR of one eye: 0 when the horizontal distance is at most 0.000001, a
    finite quotient otherwise. *)
Lemma eye_aspect_ratio_guarded (eye_points : list point) :
  (Py.gtb (_distance M (at_ eye_points 0) (at_ eye_points 3)) 0.000001 = false ->
   _eye_aspect_ratio M eye_points = Fin 0)
  /\ is_finite (_eye_aspect_ratio M eye_points) = true.
Proof.
  unfold _eye_aspect_ratio.
  destruct (Py.gtb _ 0.000001) eqn:E.
  - split; [discriminate|]. apply gtb_gt in E.
    rewrite div_finite; [reflexivity|]. intro H. lra.
  - split; reflexivity.
Qed.

Lemma circularity_finite (iris : list point) :
  is_finite (_calculate_circularity M iris) = true.
Proof.
  unfold _calculate_circularity.
  destruct (_ || _); [reflexivity|].
  destruct (Py.ltb _ 0.000001) eqn:E; [reflexivity|].
  apply ltb_ge in E.
  rewrite div_finite; [reflexivity|].
  intro H. apply Qmult_integral in H. lra.
Qed.

Lemma finite_cases (x : npfloat) : is_finite x = true -> exists q, x = Fin q.
Proof. destruct x; try discriminate. eauto. Qed.

(** PUC is finite on every mesh, and 0 when both irises are degenerate. *)
Lemma puc_guarded (lm_np : list point) :
  is_finite (puc_of M lm_np) = true.
Proof.
  unfold puc_of.
  destruct (take lm_np _) as [r|]; [|reflexivity].
  destruct (take lm_np _) as [l|]; [|reflexivity].
  destruct (finite_cases _ (circularity_finite r)) as [qr ->].
  destruct (finite_cases _ (circularity_finite l)) as [ql ->].
  destruct (_ && _).
  - cbn [add]. rewrite div_finite; [reflexivity|]. intro H. discriminate.
  - unfold max. destruct (gtb _ _); reflexivity.
Qed.

Lemma puc_both_degenerate (lm_np r l : list point) :
  take lm_np [473; 474; 475; 476; 477]%nat = Py.Ok r ->
  take lm_np [468; 469; 470; 471; 472]%nat = Py.Ok l ->
  _calculate_circularity M r = Fin 0 ->
  _calculate_circularity M l = Fin 0 ->
  puc_of M lm_np = Fin 0.
Proof.
  intros Hr Hl Hcr Hcl. unfold puc_of. rewrite Hr, Hl, Hcr, Hcl. reflexivity.
Qed.

(** EAR and PUC are finite on every mesh the extractor accepts. *)
Lemma ear_guarded (landmark : list point) (shape : Q * Q)
    (cal : option Calibration) (m : Metrics) :
  _calculate_facial_metrics M landmark shape cal = Py.Ok m ->
  is_finite (ear m) = true /\ is_finite (puc m) = true.
Proof.
  unfold _calculate_facial_metrics. destruct shape as [h w].
  destruct (take _ _) as [l|]; [|discriminate].
  destruct (take _ _) as [r|]; [|discriminate].
  destruct (take _ _) as [mo|]; [|discriminate].
  intro H. inversion H; subst; clear H. cbn [ear puc].
  split; [|apply puc_guarded].
  destruct (finite_cases _ (proj2 (eye_aspect_ratio_guarded l))) as [ql ->].
  destruct (finite_cases _ (proj2 (eye_aspect_ratio_guarded r))) as [qr ->].
  cbn [add]. rewrite div_finite; [reflexivity|]. intro H. discriminate.
Qed.

(** MOE divides by EAR (or its normalised value) only above 0.000001. *)
Lemma guarded_quotient (x c : Q) :
  exists q, (if Py.gtb c 0.000001 then div (Fin x) (Fin c) else Fin 1) = Fin q.
Proof.
  destruct (Py.gtb c 0.000001) eqn:E; [|eauto].
  apply gtb_gt in E. rewrite div_finite; [eauto|]. intro H. lra.
Qed.

Lemma guarded_ratio (a e : Q) :
  is_finite (if gtb (Fin e) (Fin 0.000001) then div (Fin a) (Fin e) else Fin a) = true.
Proof.
  destruct (gtb (Fin e) (Fin 0.000001)) eqn:E; [|reflexivity].
  cbn [gtb ltb] in E. apply ltb_lt in E.
  rewrite div_finite; [reflexivity|]. intro H. lra.
Qed.

Lemma moe_guarded (e a : Q) (cal : option Calibration) :
  is_finite (moe_of (Fin e) (Fin a) cal) = true.
Proof.
  unfold moe_of. destruct cal as [cal|]; [|apply guarded_ratio].
  destruct (guarded_quotient e (cal_ear_mean cal)) as [en ->].
  destruct (guarded_quotient a (cal_mar_mean cal)) as [mn ->].
  apply guarded_ratio.
Qed.

End MetricFacts.

Section MetricExamples.

Import NpFloat FatigueProcessor Samples.

(** C9, on the code: on a mesh whose lip landmarks 0 and 17 coincide the
    MAR quotient divides by zero; MAR is [inf], and so is MOE, with or
    without calibration, while EAR and PUC are finite. *)
Theorem mar_division_unguarded :
  match _calculate_facial_metrics approx_math lips_together_mesh (100, 100) None,
        _calculate_facial_metrics approx_math lips_together_mesh (100, 100)
                                  (Some calibration) with
  | Py.Ok raw, Py.Ok normalised =>
      mar raw = PInf /\ moe raw = PInf
      /\ mar normalised = PInf /\ moe normalised = PInf
      /\ is_finite (ear raw) = true /\ is_finite (puc raw) = true
  | _, _ => False
  end.
Proof. vm_compute. repeat split. Qed.

(** The unguarded MAR reaches the yawn test: with coinciding lips the yawn
    counter advances on every frame. *)
Lemma unguarded_mar_counts_as_yawn :
  yawn_frames (state (snd (process_frame_for_inference approx_math calibrated_processor
                             (frame_of lips_together_mesh None) (clock_at (T0 + 1)))))
  = 1%Z.
Proof. vm_compute. reflexivity. Qed.

End MetricExamples.

(** * Further properties of the modelled code *)

(** ** The nod detector: window, score and cooldown *)

Section NodInvariants.

Import NodDetector.

Lemma py_max0_spec (x : Q) : 0 <= Py.max 0 x /\ (x <= 10 -> Py.max 0 x <= 10).
Proof.
  unfold Py.max. destruct (Py.gtb x 0) eqn:E.
  - apply gtb_gt in E. split; [lra|auto].
  - split; [lra|intros _; lra].
Qed.

Lemma py_min10_spec (x : Q) : Py.min 10 x <= 10 /\ (0 <= x -> 0 <= Py.min 10 x).
Proof.
  unfold Py.min. destruct (Py.ltb x 10) eqn:E.
  - apply ltb_lt in E. split; [lra|auto].
  - split; [lra|intros _; lra].
Qed.

(** X1: The risk score stays between 0 and 10: from a score in that range
    and a non-negative weight, every update reports the score it stores,
    keeps it in the range, and does not raise it unless it declares a
    nod. *)
Theorem nod_risk_score_bounded (d : t) (a : option Q) (t1 t2 : Q)
    (Hw : 0 <= recovery_pattern_weight (config d))
    (Hr : 0 <= risk_score d <= 10) :
  let r := update d a t1 t2 in
  snd (fst r) = risk_score (snd r)
  /\ 0 <= risk_score (snd r) <= 10
  /\ (fst (fst r) = false -> risk_score (snd r) <= risk_score d).
Proof.
  destruct a as [a|]; cbn [update]; [|cbn; repeat split; try tauto; lra].
  destruct (py_max0_spec (risk_score d - 0.01)) as [H0 H10].
  assert (H10' : Py.max 0 (risk_score d - 0.01) <= 10) by (apply H10; lra).
  assert (Hdec : Py.max 0 (risk_score d - 0.01) <= risk_score d).
  { unfold Py.max. destruct (Py.gtb _ 0); lra. }
  destruct (_ <? _)%nat; cbn [fst snd risk_score]; [auto|].
  unfold _detect_nodding. cbn [fst snd risk_score config].
  split; [reflexivity|].
  destruct (_ && _ && _); cbn [risk_score].
  - destruct (py_min10_spec (Py.max 0 (risk_score d - 0.01)
                             + recovery_pattern_weight (config d))) as [Ha Hb].
    split; [split; [apply Hb; lra|exact Ha]|discriminate].
  - destruct (py_min10_spec (Py.max 0 (risk_score d - 0.01))) as [Ha Hb].
    split; [split; [apply Hb; lra|exact Ha]|].
    intros _. unfold Py.min. destruct (Py.ltb _ 10) eqn:E; [exact Hdec|].
    apply ltb_ge in E. lra.
Qed.

Lemma nod_risk_score_bounded_witness :
  let r := update (init default_config) (Some 14) Samples.T0 Samples.T0 in
  snd (fst r) = risk_score (snd r)
  /\ 0 <= risk_score (snd r) <= 10
  /\ (fst (fst r) = false -> risk_score (snd r) <= risk_score (init default_config)).
Proof.
  apply (nod_risk_score_bounded (init default_config) (Some 14) Samples.T0 Samples.T0).
  - vm_compute. discriminate.
  - split; vm_compute; discriminate.
Defined.

Lemma push_is_last (cfg : Config) (h : list Q) (x : Q) :
  (length h <= window_size cfg)%nat ->
  push cfg h x = lastn (window_size cfg) (h ++ [x])
  /\ (length (push cfg h x) <= window_size cfg)%nat.
Proof.
  intro Hlen. unfold push, lastn. rewrite length_app. cbn [length].
  destruct (_ <? _)%nat eqn:E.
  - apply Nat.ltb_lt in E.
    replace (length h + 1 - window_size cfg)%nat with 1%nat by lia.
    split; [reflexivity|].
    destruct h; cbn in *; [lia|]. rewrite length_app. cbn. lia.
  - apply Nat.ltb_ge in E.
    replace (length h + 1 - window_size cfg)%nat with 0%nat by lia.
    split; [reflexivity|]. rewrite length_app. cbn. lia.
Qed.

Lemma lastn_snoc {A} (n : nat) (p : list A) (x : A) :
  lastn n (lastn n p ++ [x]) = lastn n (p ++ [x]).
Proof.
  unfold lastn.
  rewrite !length_app, length_skipn. cbn [length].
  destruct (Nat.le_gt_cases (length p) n) as [H|H].
  - replace (length p - n)%nat with 0%nat by lia. cbn [skipn].
    f_equal. lia.
  - assert (Hs : skipn (length p - n) p ++ [x] = skipn (length p - n) (p ++ [x])).
    { rewrite skipn_app. replace (length p - n - length p)%nat with 0%nat by lia.
      reflexivity. }
    rewrite Hs, skipn_skipn. f_equal. lia.
Qed.

Lemma feed_history (angles : list Q) : forall (d : t) clk k (seen : list Q),
  angle_y_history d = lastn (window_size (config d)) seen ->
  angle_y_history (snd (feed d angles clk k))
  = lastn (window_size (config d)) (seen ++ angles).
Proof.
  induction angles as [|a rest IH]; intros d clk k seen Hh.
  - cbn. rewrite app_nil_r. exact Hh.
  - cbn [feed].
    pose proof (update_history d a (fst (clk k)) (snd (clk k))) as Hu.
    pose proof (update_config d (Some a) (fst (clk k)) (snd (clk k))) as Hc.
    destruct (update d (Some a) (fst (clk k)) (snd (clk k))) as [[nod r] d'].
    cbn [snd] in *.
    specialize (IH d' clk (S k) (seen ++ [a])).
    destruct (feed d' rest clk (S k)) as [outs d'']. cbn [snd] in *.
    rewrite Hc in IH. rewrite <- app_assoc in IH. apply IH.
    rewrite Hu, Hh.
    destruct (push_is_last (config d) (lastn (window_size (config d)) seen) a) as [Hp _].
    { unfold lastn. rewrite length_skipn. lia. }
    rewrite Hp. apply lastn_snoc.
Qed.

(** X2: The detector keeps a sliding window: after any feed to a fresh
    detector the angle history is the last [window_size] samples fed, in
    order. *)
Theorem nod_window_slides (cfg : Config) (angles : list Q) (clk : nat -> Q * Q) :
  angle_y_history (snd (feed (init cfg) angles clk 0))
  = lastn (window_size cfg) angles
  /\ (length (angle_y_history (snd (feed (init cfg) angles clk 0)))
      <= window_size cfg)%nat.
Proof.
  pose proof (feed_history angles (init cfg) clk 0%nat [] eq_refl) as H.
  cbn [config init app] in H. rewrite H. split; [reflexivity|].
  unfold lastn. rewrite length_skipn. lia.
Qed.

Lemma update_cooldown (d : t) (a : Q) (t1 t2 : Q) :
  let r := update d (Some a) t1 t2 in
  (fst (fst r) = true ->
   cooldown_period_secs (config d) < t2 - last_detection_time d
   /\ last_detection_time (snd r) = t2)
  /\ (fst (fst r) = false -> last_detection_time (snd r) = last_detection_time d).
Proof.
  cbn [update]. destruct (_ <? _)%nat; cbn [fst snd last_detection_time].
  - split; [discriminate|reflexivity].
  - unfold _detect_nodding. cbn [fst snd last_detection_time config].
    destruct (_ && _ && _) eqn:E; cbn.
    + split; [|discriminate]. intros _. split; [|reflexivity].
      apply andb_true_iff in E. destruct E as [_ E]. apply gtb_gt in E. exact E.
    + split; [discriminate|reflexivity].
Qed.

Lemma feed_in_cooldown (angles : list Q) : forall (d : t) clk k,
  (forall j, snd (clk j) - last_detection_time d <= cooldown_period_secs (config d)) ->
  fst (feed d angles clk k) = repeat false (length angles).
Proof.
  induction angles as [|a rest IH]; intros d clk k Hc; [reflexivity|].
  cbn [feed length repeat].
  pose proof (update_cooldown d a (fst (clk k)) (snd (clk k))) as [Ht Hf].
  pose proof (update_config d (Some a) (fst (clk k)) (snd (clk k))) as Hcfg.
  destruct (update d (Some a) (fst (clk k)) (snd (clk k))) as [[nod r] d'].
  cbn [fst snd] in *.
  destruct nod.
  - destruct (Ht eq_refl) as [Hlt _]. specialize (Hc k). lra.
  - specialize (IH d' clk (S k)).
    rewrite Hcfg, (Hf eq_refl) in IH. specialize (IH Hc).
    destruct (feed d' rest clk (S k)) as [outs d'']. cbn [fst] in *.
    rewrite IH. reflexivity.
Qed.

(** X3: After a declared nod no further nod is declared while the clock read
    of the detection stays within the cooldown of that nod, whatever is
    fed. *)
Theorem nod_cooldown_silences (d : t) (a : Q) (t1 t2 : Q)
    (angles : list Q) (clk : nat -> Q * Q) (k : nat)
    (Hnod : fst (fst (update d (Some a) t1 t2)) = true)
    (Hclk : forall j, snd (clk j) - t2 <= cooldown_period_secs (config d)) :
  cooldown_period_secs (config d) < t2 - last_detection_time d
  /\ fst (feed (snd (update d (Some a) t1 t2)) angles clk k)
     = repeat false (length angles).
Proof.
  destruct (update_cooldown d a t1 t2) as [Ht _].
  destruct (Ht Hnod) as [Hlt Hlast]. split; [exact Hlt|].
  apply feed_in_cooldown. intro j.
  rewrite Hlast, update_config. apply Hclk.
Qed.

Lemma nod_cooldown_silences_witness :
  let d := snd (feed (init default_config) [0; 0; 0; 0; 0; 0; 0; 0; 0; 0; 14]
                     (clock_30ms 1700000000) 0) in
  let t := 1700000000 + 0.33 in
  cooldown_period_secs (config d) < t - last_detection_time d
  /\ fst (feed (snd (update d (Some (-8)) t t)) [14; -8; 14; -8]
               (fun _ => (t + 1, t + 1)) 0)
     = repeat false 4.
Proof.
  cbv zeta.
  apply (nod_cooldown_silences
           (snd (feed (init default_config) [0; 0; 0; 0; 0; 0; 0; 0; 0; 0; 14]
                      (clock_30ms 1700000000) 0))
           (-8) (1700000000 + 0.33) (1700000000 + 0.33) [14; -8; 14; -8]
           (fun _ => (1700000000 + 0.33 + 1, 1700000000 + 0.33 + 1)) 0%nat).
  - vm_compute. reflexivity.
  - intro j. vm_compute. discriminate.
Defined.

Lemma feed_too_few (angles : list Q) : forall (d : t) clk k,
  (length (angle_y_history d) + length angles < min_frames_for_analysis (config d))%nat ->
  fst (feed d angles clk k) = repeat false (length angles).
Proof.
  induction angles as [|a rest IH]; intros d clk k Hlen; [reflexivity|].
  cbn [feed length repeat] in *.
  pose proof (update_nod_needs_recovery d a (fst (clk k)) (snd (clk k))) as Hnod.
  pose proof (update_history d a (fst (clk k)) (snd (clk k))) as Hh.
  pose proof (update_config d (Some a) (fst (clk k)) (snd (clk k))) as Hc.
  destruct (update d (Some a) (fst (clk k)) (snd (clk k))) as [[nod r] d'].
  cbn [fst snd] in *.
  assert (Hpush : (length (push (config d) (angle_y_history d) a)
                   <= length (angle_y_history d) + 1)%nat).
  { clear. unfold push. generalize (angle_y_history d). intro h.
    destruct (_ <? _)%nat.
    - destruct h as [|q l]; simpl; [lia|]. rewrite length_app. simpl. lia.
    - rewrite length_app. simpl. lia. }
  specialize (IH d' clk (S k)). rewrite Hc, Hh in IH.
  destruct (feed d' rest clk (S k)) as [outs d'']. cbn [fst] in *.
  rewrite IH by lia. f_equal.
  destruct nod; [|reflexivity].
  destruct (Hnod eq_refl) as [H1 _]. apply Nat.ltb_ge in H1. lia.
Qed.

(** X4: A fresh detector declares nothing on its first
    [min_frames_for_analysis - 1] samples, whatever they are. *)
Theorem nod_needs_min_frames (cfg : Config) (angles : list Q) (clk : nat -> Q * Q)
    (Hfew : (length angles < min_frames_for_analysis cfg)%nat) :
  fst (feed (init cfg) angles clk 0) = repeat false (length angles).
Proof.
  apply feed_too_few. cbn. exact Hfew.
Qed.

Lemma nod_needs_min_frames_witness :
  fst (feed (init default_config) [0; 14; -8; 14; -8; 14; -8; 14; -8]
            (clock_30ms 1700000000) 0)
  = repeat false 9.
Proof.
  apply (nod_needs_min_frames default_config [0; 14; -8; 14; -8; 14; -8; 14; -8]
           (clock_30ms 1700000000)).
  vm_compute. lia.
Defined.

End NodInvariants.

(** ** The fatigue processor: what a call can return *)

Section EventShape.

Import NpFloat FatigueProcessor Samples.

Ltac pick :=
  first [ solve [repeat split; auto; try discriminate]
        | left; solve [repeat split; auto; try discriminate]
        | right; pick ].

Ltac finish :=
  repeat (first [split | match goal with |- _ -> _ => intro end]);
  cbn [fst snd yawn_frames closed_eyes_frames eye_rubbing_frames distraction_frames
       last_despierta_alert_time last_eye_rub_time last_yawn_time
       set_yawn set_closed_eyes set_eye_rub set_distraction] in *;
  try lia; try discriminate; try assumption; try reflexivity.

Lemma yawn_block_full th cal m ct s evs :
  exists emit : bool,
    fst (yawn_block th cal m ct s evs)
    = (if emit then evs ++ ["Bostezar"%string] else evs)
    /\ (emit = true ->
        (yawn_frames s + 1 > get (YAWN_FRAMES_THRESHOLD th) 8)%Z
        /\ 10 < ct - last_yawn_time s
        /\ yawn_frames (snd (yawn_block th cal m ct s evs)) = 0%Z)
    /\ ((0 <= yawn_frames s)%Z ->
        (0 <= yawn_frames (snd (yawn_block th cal m ct s evs)) <= yawn_frames s + 1)%Z)
    /\ closed_eyes_frames (snd (yawn_block th cal m ct s evs)) = closed_eyes_frames s
    /\ eye_rubbing_frames (snd (yawn_block th cal m ct s evs)) = eye_rubbing_frames s
    /\ distraction_frames (snd (yawn_block th cal m ct s evs)) = distraction_frames s
    /\ last_despierta_alert_time (snd (yawn_block th cal m ct s evs))
       = last_despierta_alert_time s
    /\ last_eye_rub_time (snd (yawn_block th cal m ct s evs)) = last_eye_rub_time s.
Proof.
  unfold yawn_block. destruct (gtb _ _).
  - destruct (_ >? _)%Z eqn:E1; cbn [andb].
    + destruct (Py.gtb _ 10) eqn:E2.
      * exists true. apply gtb_gt in E2. apply Z.gtb_gt in E1. finish.
      * exists false. finish.
    + exists false. finish.
  - exists false. finish.
Qed.

Lemma eyes_block_full th cal m ct s evs :
  exists despierta somnolencia : bool,
    fst (eyes_block th cal m ct s evs)
    = (if despierta then evs ++ ["Despierta"%string]
       else if somnolencia then evs ++ ["Somnolencia"%string] else evs)
    /\ (despierta = true ->
        (closed_eyes_frames s + 1 > get (MAX_ALERT_EYES_CLOSED_FRAMES th) 60)%Z
        /\ 5 < ct - last_despierta_alert_time s)
    /\ (somnolencia = true ->
        (closed_eyes_frames s + 1 > get (DROWSINESS_EYES_CLOSED_FRAMES th) 20)%Z)
    /\ ((0 <= closed_eyes_frames s)%Z ->
        (0 <= closed_eyes_frames (snd (eyes_block th cal m ct s evs))
         <= closed_eyes_frames s + 1)%Z)
    /\ yawn_frames (snd (eyes_block th cal m ct s evs)) = yawn_frames s
    /\ eye_rubbing_frames (snd (eyes_block th cal m ct s evs)) = eye_rubbing_frames s
    /\ distraction_frames (snd (eyes_block th cal m ct s evs)) = distraction_frames s
    /\ last_eye_rub_time (snd (eyes_block th cal m ct s evs)) = last_eye_rub_time s.
Proof.
  unfold eyes_block. destruct (ltb _ _).
  - destruct (_ >? get (MAX_ALERT_EYES_CLOSED_FRAMES th) 60%Z)%Z eqn:E1.
    + destruct (Py.gtb _ 5) eqn:E2.
      * exists true, false. apply gtb_gt in E2. apply Z.gtb_gt in E1. finish.
      * exists false, false. finish.
    + destruct (_ >? get (DROWSINESS_EYES_CLOSED_FRAMES th) 20%Z)%Z eqn:E3.
      * exists false, true. apply Z.gtb_gt in E3. finish.
      * exists false, false. finish.
  - exists false, false. finish.
Qed.

Lemma rub_block_full th f ct s evs :
  exists emit : bool,
    fst (rub_block th f ct s evs)
    = (if emit then evs ++ ["Frotar Ojos"%string] else evs)
    /\ (emit = true ->
        (rub_type f > 0)%Z
        /\ (eye_rubbing_frames s + 1 > get (EYE_RUBBING_FRAMES th) 15)%Z
        /\ 10 < ct - last_eye_rub_time s)
    /\ ((0 <= eye_rubbing_frames s)%Z ->
        (0 <= eye_rubbing_frames (snd (rub_block th f ct s evs))
         <= eye_rubbing_frames s + 1)%Z)
    /\ yawn_frames (snd (rub_block th f ct s evs)) = yawn_frames s
    /\ closed_eyes_frames (snd (rub_block th f ct s evs)) = closed_eyes_frames s
    /\ distraction_frames (snd (rub_block th f ct s evs)) = distraction_frames s.
Proof.
  unfold rub_block. destruct (rub_type f >? 0)%Z eqn:E0.
  - destruct (_ >? get _ _)%Z eqn:E1; cbn [andb].
    + destruct (Py.gtb _ 10) eqn:E2.
      * exists true. apply gtb_gt in E2. apply Z.gtb_gt in E1. apply Z.gtb_gt in E0.
        finish.
      * exists false. finish.
    + exists false. finish.
  - exists false. finish.
Qed.

Lemma distraction_block_full th s evs c :
  exists emit : bool,
    fst (distraction_block th s evs c)
    = (if emit then evs ++ ["Distraccion"%string] else evs)
    /\ (emit = true ->
        (distraction_frames s + 1 > get (DISTRACTION_FRAMES_THRESHOLD th) 30)%Z
        /\ 5 < t_distraction c - last_distraction_alert_time s)
    /\ distraction_frames (snd (distraction_block th s evs c))
       = (distraction_frames s + 1)%Z
    /\ yawn_frames (snd (distraction_block th s evs c)) = yawn_frames s
    /\ closed_eyes_frames (snd (distraction_block th s evs c)) = closed_eyes_frames s
    /\ eye_rubbing_frames (snd (distraction_block th s evs c)) = eye_rubbing_frames s.
Proof.
  unfold distraction_block.
  destruct (_ >? _)%Z eqn:E1; cbn [andb].
  - destruct (Py.gtb _ 5) eqn:E2.
    + exists true. apply gtb_gt in E2. apply Z.gtb_gt in E1. finish.
    + exists false. finish.
  - exists false. finish.
Qed.

Lemma lstm_block_cases fp f s evs :
  lstm_block fp f None s evs = Py.Ok (evs, s)
  \/ (lstm_block fp f None s evs = Py.Raise Py.UnboundLocalError
      /\ lstm_classifier fp = true /\ lstm_prediction f = Some 1%Z).
Proof.
  unfold lstm_block. destruct (lstm_classifier fp); [|auto].
  destruct (lstm_prediction f) as [p|]; [|auto].
  destruct (p =? 1)%Z eqn:E; [|auto].
  apply Z.eqb_eq in E. subst. auto.
Qed.


Lemma banner_max (l : list string) :
  snd (banner l) = mem "Despierta" l || mem "Cabeceo" l.
Proof.
  unfold banner. destruct (mem "Despierta" l || mem "Cabeceo" l); [reflexivity|].
  repeat match goal with |- context [if ?b then _ else _] => destruct b end;
    reflexivity.
Qed.

Lemma In_list_set (e : string) (l : list string) : In e (Py.list_set l) <-> In e l.
Proof. apply nodup_In. Qed.

Variable M : MathLib.

Lemma pffi_shape (fp : t) (f : Frame) (c : Clock) :
  let r := process_frame_for_inference M fp f c in
  let s := state fp in
  let s' := state (snd r) in
  (config (snd r) = config fp
   /\ calibration_data (snd r) = calibration_data fp
   /\ lstm_classifier (snd r) = lstm_classifier fp)
  /\ (((0 <= yawn_frames s)%Z -> (0 <= yawn_frames s' <= yawn_frames s + 1)%Z)
      /\ ((0 <= closed_eyes_frames s)%Z ->
          (0 <= closed_eyes_frames s' <= closed_eyes_frames s + 1)%Z)
      /\ ((0 <= eye_rubbing_frames s)%Z ->
          (0 <= eye_rubbing_frames s' <= eye_rubbing_frames s + 1)%Z)
      /\ ((0 <= distraction_frames s)%Z ->
          (0 <= distraction_frames s' <= distraction_frames s + 1)%Z))
  /\ ((face_landmarks f <> None -> distraction_frames s' = 0%Z)
      /\ (face_landmarks f = None ->
          distraction_frames s' = (distraction_frames s + 1)%Z
          /\ yawn_frames s' = yawn_frames s
          /\ closed_eyes_frames s' = closed_eyes_frames s
          /\ eye_rubbing_frames s' = eye_rubbing_frames s))
  /\ match fst r with
     | Py.Raise e =>
         face_landmarks f <> None
         /\ (e = Py.IndexError
             \/ (e = Py.UnboundLocalError /\ lstm_classifier fp = true
                 /\ lstm_prediction f = Some 1%Z))
     | Py.Ok (evs, ov) =>
         NoDup evs
         /\ (forall e, In e evs -> event_origin fp f c e)
         /\ is_max_alert ov = mem "Despierta" evs || mem "Cabeceo" evs
     end.
Proof.
  cbv zeta. unfold process_frame_for_inference.
  destruct (PausaActivaHandler.update _ _ _ _) as [[alert remaining] pausa'] eqn:Hpausa.
  set (ev0 := if alert then ["Pausa Activa"%string] else []).
  assert (Hev0 : forall e, In e ev0 -> e = "Pausa Activa"%string /\ alert = true).
  { intros e He. subst ev0. destruct alert; cbn in He; [|contradiction].
    destruct He as [<-|[]]. auto. }
  assert (Hnd0 : NoDup ev0).
  { subst ev0. destruct alert; repeat constructor. intros []. }
  destruct (face_landmarks f) as [lm|] eqn:Hf.
  - (* a face *)
    cbn [with_pausa with_state calibration_data state config lstm_classifier nod_detector].
    destruct (_calculate_facial_metrics M lm (frame_shape f) (calibration_data fp))
      as [m|e] eqn:Hm.
    2:{ cbn [fst snd with_state with_pausa state config calibration_data lstm_classifier
             set_distraction yawn_frames closed_eyes_frames eye_rubbing_frames
             distraction_frames].
        split; [auto|]. split; [repeat split; lia|].
        split; [split; [reflexivity|discriminate]|].
        split; [discriminate|]. left.
        unfold _calculate_facial_metrics in Hm. destruct (frame_shape f) as [h w].
        repeat match type of Hm with
               | match ?x with _ => _ end = _ => destruct x
               end; inversion Hm; reflexivity. }
    destruct (lstm_block_cases (with_state (with_pausa fp pausa')
                 (set_distraction (state fp) 0 (last_distraction_alert_time (state fp))))
                 f (set_distraction (state fp) 0 (last_distraction_alert_time (state fp)))
                 ev0) as [Hl|(Hl & Hl1 & Hl2)];
      cbn [with_pausa with_state calibration_data state config lstm_classifier nod_detector] in *;
      rewrite Hl.
    2:{ cbn [fst snd with_state with_pausa state config calibration_data lstm_classifier
             set_distraction yawn_frames closed_eyes_frames eye_rubbing_frames
             distraction_frames].
        split; [auto|]. split; [repeat split; lia|].
        split; [split; [reflexivity|discriminate]|].
        split; [discriminate|]. right. auto. }
    cbn [with_pausa with_state calibration_data state config lstm_classifier nod_detector].
    destruct (calibration_data fp) as [cal|] eqn:Hcal.
    2:{ cbn [fst snd with_state with_pausa state config calibration_data lstm_classifier
             set_distraction yawn_frames closed_eyes_frames eye_rubbing_frames
             distraction_frames is_max_alert].
        split; [auto|]. split; [repeat split; lia|].
        split; [split; [reflexivity|discriminate]|].
        split; [repeat constructor; intros []|].
        split; [|reflexivity].
        intros e [<-|[]]. unfold event_origin. rewrite Hf, Hcal.
        right. right. left. repeat split. discriminate. }
    destruct (head_angle f) as [angle_x angle_y] eqn:Hang.
    set (s1 := set_distraction (state fp) 0 (last_distraction_alert_time (state fp))).
    destruct (yawn_block_full (config fp) cal m (t_current c) s1 ev0)
      as (ey & Hy1 & Hy2 & Hy3 & Hy4 & Hy5 & Hy6 & Hy7 & Hy8).
    destruct (yawn_block _ _ _ _ _ _) as [ev2 s3]. cbn [fst snd] in *.
    destruct (eyes_block_full (config fp) cal m (t_current c) s3 ev2)
      as (ed & es & He1 & He2 & He3 & He4 & He5 & He6 & He7 & He8).
    destruct (eyes_block _ _ _ _ _ _) as [ev3 s4]. cbn [fst snd] in *.
    destruct (NodDetector.update _ _ _ _) as [[nod risk] nod'] eqn:Hnod.
    set (ev4 := if nod then ev3 ++ ["Cabeceo"%string] else ev3).
    destruct (rub_block_full (config fp) f (t_current c) s4 ev4)
      as (er & Hr1 & Hr2 & Hr3 & Hr4 & Hr5 & Hr6).
    destruct (rub_block _ _ _ _ _) as [ev5 s5]. cbn [fst snd] in *.
    pose proof (banner_max ev5) as Hb.
    destruct (banner ev5) as [text max_alert]. cbn [snd] in Hb.
    cbn [fst snd with_nod with_state with_pausa state config calibration_data
         lstm_classifier is_max_alert].
    subst s1.
    cbn [set_distraction yawn_frames closed_eyes_frames eye_rubbing_frames
         distraction_frames last_yawn_time last_despierta_alert_time
         last_eye_rub_time] in *.
    split; [auto|].
    split; [repeat split; intros; lia|].
    split; [split; [intros _; congruence|discriminate]|].
    split; [apply NoDup_nodup|].
    split; [|rewrite Hb, !mem_list_set; reflexivity].
    intros e He. apply (proj1 (In_list_set _ _)) in He.
    unfold event_origin. rewrite Hf, Hpausa, Hang. cbn [fst snd]. rewrite Hnod.
    cbn [fst].
    assert (Hface : Some lm <> None) by discriminate.
    rewrite Hy4, Hy7 in He2. rewrite Hy4 in He3. rewrite He6, He8, Hy5, Hy8 in Hr2.
    clear Hb Hl Hy3 He4 Hr3.
    subst ev5. subst ev4. subst ev3. subst ev2.
    destruct er; [destruct (Hr2 eq_refl)|]; clear Hr2;
      (destruct nod);
      (destruct ed; [destruct (He2 eq_refl)|]; clear He2);
      (destruct es; [pose proof (He3 eq_refl)|]; clear He3);
      (destruct ey; [destruct (Hy2 eq_refl) as (? & ? & ?)|]; clear Hy2);
      repeat match type of He with
             | In _ (_ ++ [_]) =>
                 apply in_app_or in He; destruct He as [He|[<-|[]]]; [|pick]
             end;
      apply Hev0 in He; destruct He as [-> ->]; pick.
  - (* no face *)
    cbn [with_pausa with_state calibration_data state config lstm_classifier nod_detector].
    destruct (distraction_block_full (config fp) (state fp) ev0 c)
      as (edis & Hd1 & Hd2 & Hd3 & Hd4 & Hd5 & Hd6).
    destruct (distraction_block _ _ _ _) as [ev1 s1]. cbn [fst snd] in *.
    cbn [fst snd with_state with_pausa state config calibration_data lstm_classifier
         is_max_alert].
    split; [auto|].
    split; [repeat split; intros; lia|].
    split; [split; [intro H; contradiction|intros _; auto]|].
    split; [apply NoDup_nodup|].
    assert (Horigin : forall e, In e ev1 -> event_origin fp f c e).
    { intros e He. unfold event_origin. rewrite Hf, Hpausa. cbn [fst].
      subst ev1.
      destruct edis; [destruct (Hd2 eq_refl)|]; clear Hd2;
        repeat match type of He with
               | In _ (_ ++ [_]) =>
                   apply in_app_or in He; destruct He as [He|[<-|[]]]; [|pick]
               end;
        apply Hev0 in He; destruct He as [-> ->]; pick. }
    split; [intros e He; apply (proj1 (In_list_set _ _)) in He; auto|].
    rewrite !mem_list_set. symmetry. apply orb_false_iff.
    split; apply not_true_is_false; intro Hmem; apply mem_In in Hmem;
      apply Horigin in Hmem; unfold event_origin in Hmem; rewrite Hf in Hmem;
      repeat (destruct Hmem as [Hmem|Hmem]);
      decompose [and] Hmem; try discriminate; congruence.
Qed.


Lemma take_ok (lm : list point) (idx : list nat) :
  Forall (fun i => (i < length lm)%nat) idx -> exists l, take lm idx = Py.Ok l.
Proof.
  induction idx as [|i idx IH]; intro H; [cbn; eauto|].
  inversion H as [|? ? Hi Hrest]; subst. cbn.
  destruct (nth_error lm i) as [p|] eqn:E.
  - destruct (IH Hrest) as [l ->]. eauto.
  - apply nth_error_None in E. lia.
Qed.

Lemma take_raise (lm : list point) (idx : list nat) :
  Exists (fun i => (length lm <= i)%nat) idx -> take lm idx = Py.Raise Py.IndexError.
Proof.
  induction idx as [|i idx IH]; intro H; inversion H as [? ? Hi|? ? Hrest]; subst; cbn.
  - apply nth_error_None in Hi. rewrite Hi. reflexivity.
  - rewrite (IH Hrest). destruct (nth_error lm i); reflexivity.
Qed.

Lemma metrics_short_mesh (lm : list point) (shape : Q * Q) (cal : option Calibration) :
  (length lm < 388)%nat ->
  _calculate_facial_metrics M lm shape cal = Py.Raise Py.IndexError.
Proof.
  intro H. unfold _calculate_facial_metrics. destruct shape as [h w].
  rewrite (take_raise _ [362; 385; 387; 263; 373; 380]%nat).
  - reflexivity.
  - rewrite length_map. apply Exists_cons_tl, Exists_cons_tl, Exists_cons_hd.
    unfold point in *. lia.
Qed.

Lemma metrics_full_mesh (lm : list point) (shape : Q * Q) (cal : option Calibration) :
  (388 <= length lm)%nat ->
  exists m, _calculate_facial_metrics M lm shape cal = Py.Ok m
            /\ ((length lm < 478)%nat -> puc m = Fin 0).
Proof.
  intro H. unfold _calculate_facial_metrics. destruct shape as [h w].
  unfold point in *.
  set (lm_np := map _ lm).
  assert (Hlen : length lm_np = length lm) by (subst lm_np; apply length_map).
  destruct (take_ok lm_np [362; 385; 387; 263; 373; 380]%nat) as [l ->];
    [repeat (apply Forall_cons; [unfold point in *; lia|]); apply Forall_nil|].
  destruct (take_ok lm_np [33; 160; 158; 133; 153; 144]%nat) as [r ->];
    [repeat (apply Forall_cons; [unfold point in *; lia|]); apply Forall_nil|].
  destruct (take_ok lm_np [61; 291; 0; 17]%nat) as [mo ->];
    [repeat (apply Forall_cons; [unfold point in *; lia|]); apply Forall_nil|].
  eexists. split; [reflexivity|]. cbn [puc]. intro Hshort.
  unfold puc_of.
  rewrite (take_raise lm_np [473; 474; 475; 476; 477]%nat); [reflexivity|].
  apply Exists_cons_tl, Exists_cons_tl, Exists_cons_tl, Exists_cons_tl, Exists_cons_hd.
  unfold point in *. lia.
Qed.

(** EAR, MAR and PUC do not depend on the calibration profile; only MOE
    does. *)
Lemma metrics_calibration_free (lm : list point) (shape : Q * Q)
    (cal1 cal2 : option Calibration) :
  match _calculate_facial_metrics M lm shape cal1,
        _calculate_facial_metrics M lm shape cal2 with
  | Py.Ok m1, Py.Ok m2 =>
      ear m1 = ear m2 /\ mar m1 = mar m2 /\ puc m1 = puc m2
      /\ landmarks_np m1 = landmarks_np m2
  | Py.Raise e1, Py.Raise e2 => e1 = e2
  | _, _ => False
  end.
Proof.
  unfold _calculate_facial_metrics. destruct shape as [h w].
  destruct (take _ _); [|reflexivity].
  destruct (take _ _); [|reflexivity].
  destruct (take _ _); [|reflexivity].
  cbn. auto.
Qed.

(** The circularity of an iris is a finite number between 0 and 1. *)
Lemma circularity_unit (iris : list point) :
  exists q, _calculate_circularity M iris = Fin q /\ 0 <= q <= 1.
Proof.
  unfold _calculate_circularity.
  destruct (_ || _); [exists 0; split; [reflexivity|lra]|].
  destruct (Py.ltb _ 0.000001) eqn:E; [exists 0; split; [reflexivity|lra]|].
  apply ltb_ge in E.
  rewrite div_finite; [|intro H; apply Qmult_integral in H; lra].
  cbn [clip]. eexists. split; [reflexivity|].
  unfold Np.clip. destruct (Py.ltb _ 0) eqn:E0; [lra|].
  apply ltb_ge in E0.
  destruct (Py.gtb _ 1) eqn:E1; [lra|].
  apply gtb_le in E1. lra.
Qed.

(** X12: PUC lies between 0 and 1 on every mesh, whatever the square root and
    the value of pi in use. *)
Theorem puc_unit_interval (lm_np : list point) :
  exists q, puc_of M lm_np = Fin q /\ 0 <= q <= 1.
Proof.
  unfold puc_of.
  destruct (take lm_np _) as [r|]; [|exists 0; split; [reflexivity|lra]].
  destruct (take lm_np _) as [l|]; [|exists 0; split; [reflexivity|lra]].
  destruct (circularity_unit r) as (qr & -> & Hr).
  destruct (circularity_unit l) as (ql & -> & Hl).
  destruct (_ && _).
  - cbn [add]. rewrite div_finite by (intro H; discriminate).
    eexists. split; [reflexivity|]. split.
    + apply Qle_shift_div_l; lra.
    + apply Qle_shift_div_r; lra.
  - unfold max. destruct (gtb _ _); eauto.
Qed.

(** X11: The facial metric extractor by mesh size: fewer than 388 landmarks
    raise [IndexError]; from 388 landmarks on the metrics are returned,
    PUC being 0 when the mesh has no iris landmarks (fewer than 478); a
    calibration frame gets the EAR, MAR and PUC that inference computes
    under any calibration profile. *)
Theorem metrics_by_mesh_size (lm : list point) (shape : Q * Q)
    (cal : option Calibration) :
  ((length lm < 388)%nat ->
   _calculate_facial_metrics M lm shape cal = Py.Raise Py.IndexError
   /\ FatigueCalibration.process_frame_for_calibration M (Some lm) shape
      = Py.Raise Py.IndexError)
  /\ ((388 <= length lm)%nat ->
      exists m v,
        _calculate_facial_metrics M lm shape cal = Py.Ok m
        /\ FatigueCalibration.process_frame_for_calibration M (Some lm) shape
           = Py.Ok (Some v)
        /\ FatigueCalibration.v_ear v = ear m
        /\ FatigueCalibration.v_mar v = mar m
        /\ FatigueCalibration.v_puc v = puc m
        /\ ((length lm < 478)%nat -> puc m = Fin 0)).
Proof.
  unfold FatigueCalibration.process_frame_for_calibration. split.
  - intro H. rewrite !metrics_short_mesh by exact H. split; reflexivity.
  - intro H.
    destruct (metrics_full_mesh lm shape cal H) as (m & Hm & Hp).
    destruct (metrics_full_mesh lm shape None H) as (raw & Hraw & _).
    pose proof (metrics_calibration_free lm shape cal None) as Hfree.
    rewrite Hm, Hraw in Hfree. destruct Hfree as (H1 & H2 & H3 & _).
    rewrite Hraw. eexists m, _. split; [exact Hm|]. split; [reflexivity|].
    cbn [FatigueCalibration.v_ear FatigueCalibration.v_mar FatigueCalibration.v_puc].
    repeat split; auto.
Qed.

(** X5: The events of an answer: no event twice, every event one of the
    eight names with the condition that raised it, and the maximum-alert
    flag set exactly when "Despierta" or "Cabeceo" is among them. *)
Theorem inference_events_justified (fp : t) (f : Frame) (c : Clock)
    (evs : list string) (ov : Overlay)
    (Hok : fst (process_frame_for_inference M fp f c) = Py.Ok (evs, ov)) :
  NoDup evs
  /\ (forall e, In e evs -> event_origin fp f c e)
  /\ is_max_alert ov = mem "Despierta" evs || mem "Cabeceo" evs.
Proof.
  destruct (pffi_shape fp f c) as (_ & _ & _ & H). rewrite Hok in H. exact H.
Qed.

(** X6: When the call raises, for a processor whose calibration data is
    [None] or a profile that holds both [cal_ear_mean] and [cal_mar_mean]
    (what [Calibration] represents): exactly on a frame with a face whose
    mesh has fewer than 388 landmarks ([IndexError]) or, the mesh being
    long enough, on which a loaded classifier answers 1
    ([UnboundLocalError]). *)
Theorem inference_raises_iff (fp : t) (f : Frame) (c : Clock) :
  (forall e, fst (process_frame_for_inference M fp f c) = Py.Raise e <->
     exists lm, face_landmarks f = Some lm
       /\ ((e = Py.IndexError /\ (length lm < 388)%nat)
           \/ (e = Py.UnboundLocalError /\ (388 <= length lm)%nat
               /\ lstm_classifier fp = true /\ lstm_prediction f = Some 1%Z))).
Proof.
  intro e. split.
  - intro Hr.
    destruct (face_landmarks f) as [lm|] eqn:Hf.
    + exists lm. split; [reflexivity|].
      destruct (Nat.lt_ge_cases (length lm) 388) as [Hs|Hl].
      * left. split; [|exact Hs].
        unfold process_frame_for_inference in Hr. rewrite Hf in Hr.
        destruct (PausaActivaHandler.update _ _ _ _) as [[alert remaining] pausa'].
        cbn [with_pausa with_state calibration_data state config lstm_classifier
             nod_detector] in Hr.
        rewrite (metrics_short_mesh lm _ _ Hs) in Hr. cbn in Hr. congruence.
      * right.
        destruct (pffi_shape fp f c) as (_ & _ & _ & H). rewrite Hr in H.
        destruct H as [_ [->|(-> & H1 & H2)]]; [|auto].
        exfalso. unfold process_frame_for_inference in Hr. rewrite Hf in Hr.
        destruct (PausaActivaHandler.update _ _ _ _) as [[alert remaining] pausa'].
        cbn [with_pausa with_state calibration_data state config lstm_classifier
             nod_detector] in Hr.
        destruct (metrics_full_mesh lm (frame_shape f) (calibration_data fp) Hl)
          as (m & Hm & _).
        rewrite Hm in Hr.
        match type of Hr with
        | context [lstm_block ?a ?b ?c ?d ?e] =>
            destruct (lstm_block_cases a b d e) as [Hl1|(Hl1 & _)]
        end; rewrite Hl1 in Hr.
        -- cbn [with_pausa with_state calibration_data state config lstm_classifier
                nod_detector] in Hr.
           destruct (calibration_data fp); [|cbn in Hr; discriminate].
           destruct (head_angle f). destruct (yawn_block _ _ _ _ _ _).
           destruct (eyes_block _ _ _ _ _ _).
           destruct (NodDetector.update _ _ _ _) as [[? ?] ?].
           destruct (rub_block _ _ _ _ _). destruct (banner _).
           cbn in Hr. discriminate.
        -- cbn in Hr. congruence.
    + destruct (pffi_shape fp f c) as (_ & _ & _ & H). rewrite Hr in H.
      destruct H as [H _]. contradiction.
  - intros (lm & Hf & [(-> & Hs)|(-> & Hl & H1 & H2)]).
    + unfold process_frame_for_inference. rewrite Hf.
      destruct (PausaActivaHandler.update _ _ _ _) as [[alert remaining] pausa'].
      cbn [with_pausa with_state calibration_data state config lstm_classifier
           nod_detector].
      rewrite (metrics_short_mesh lm _ _ Hs). reflexivity.
    + destruct (metrics_full_mesh lm (frame_shape f) (calibration_data fp) Hl)
        as (m & Hm & _).
      exact (classifier_event_raises M fp f c lm m Hf Hm H1 H2).
Qed.

End EventShape.

Section Debounce.

Import NpFloat FatigueProcessor Samples.

Variable M : MathLib.

Lemma emitted_origin (fp : t) (f : Frame) (c : Clock) (e : string) :
  emitted e (fst (process_frame_for_inference M fp f c)) = true ->
  event_origin fp f c e.
Proof.
  intro He. destruct (pffi_shape M fp f c) as (_ & _ & _ & H).
  destruct (fst (process_frame_for_inference M fp f c)) as [[evs ov]|x];
    [|discriminate].
  destruct H as (_ & H & _). apply H. apply mem_In. exact He.
Qed.

Ltac origin H :=
  unfold event_origin in H;
  repeat match type of H with _ \/ _ => destruct H as [H|H] end;
  let E := fresh "E" in destruct H as (E & H); try discriminate E.

(** A counter, the threshold it is compared with, and the event it gates. *)
Lemma debounce_run (counter : State -> Z) (threshold : Thresholds -> Z)
    (event : string)
    (step : forall fp f c,
       let r := process_frame_for_inference M fp f c in
       ((0 <= counter (state fp))%Z ->
        (0 <= counter (state (snd r)) <= counter (state fp) + 1)%Z)
       /\ (emitted event (fst r) = true ->
           (counter (state fp) + 1 > threshold (config fp))%Z))
    (frames : list (Frame * Clock)) : forall fp,
  (0 <= counter (state fp))%Z ->
  (counter (state fp) + Z.of_nat (length frames) <= threshold (config fp))%Z ->
  count_emitted event (fst (run M fp frames)) = 0%nat.
Proof.
  intros fp H0 Hle. rewrite count_emitted_map.
  replace (map (emitted event) (fst (run M fp frames)))
    with (repeat false (length frames)); [apply count_true_repeat_false|].
  revert fp H0 Hle.
  induction frames as [|[f c] frames IH]; intros fp H0 Hle; [reflexivity|].
  rewrite run_cons. cbn [fst map length repeat]. cbn [length] in Hle.
  destruct (step fp f c) as [Hb He].
  destruct (pffi_shape M fp f c) as ((Hc & _) & _).
  f_equal.
  - destruct (emitted event _); [|reflexivity]. specialize (He eq_refl). lia.
  - apply IH; [apply Hb; exact H0|]. rewrite Hc. specialize (Hb H0). lia.
Qed.

(** X7: Debouncing over a run of arbitrary frames (faces or not, any clock,
    calls that raise included): from non-negative counters, an event whose
    counter is still [n] frames or more below its threshold is emitted by
    none of the next [n] calls. *)
Theorem inference_debounce (fp : t) (frames : list (Frame * Clock))
    (Hy : (0 <= yawn_frames (state fp))%Z)
    (Hc : (0 <= closed_eyes_frames (state fp))%Z)
    (Hr : (0 <= eye_rubbing_frames (state fp))%Z)
    (Hd : (0 <= distraction_frames (state fp))%Z) :
  let n := Z.of_nat (length frames) in
  let outs := fst (run M fp frames) in
  let s := state fp in
  let th := config fp in
  ((yawn_frames s + n <= get (YAWN_FRAMES_THRESHOLD th) 8)%Z ->
   count_emitted "Bostezar" outs = 0%nat)
  /\ ((closed_eyes_frames s + n <= get (DROWSINESS_EYES_CLOSED_FRAMES th) 20)%Z ->
      count_emitted "Somnolencia" outs = 0%nat)
  /\ ((closed_eyes_frames s + n <= get (MAX_ALERT_EYES_CLOSED_FRAMES th) 60)%Z ->
      count_emitted "Despierta" outs = 0%nat)
  /\ ((eye_rubbing_frames s + n <= get (EYE_RUBBING_FRAMES th) 15)%Z ->
      count_emitted "Frotar Ojos" outs = 0%nat)
  /\ ((distraction_frames s + n <= get (DISTRACTION_FRAMES_THRESHOLD th) 30)%Z ->
      count_emitted "Distraccion" outs = 0%nat).
Proof.
  cbv zeta. repeat split; intro Hle.
  - apply (debounce_run yawn_frames
             (fun th => get (YAWN_FRAMES_THRESHOLD th) 8%Z)); [|assumption..].
    intros fp0 f c. cbv zeta.
    destruct (pffi_shape M fp0 f c) as (_ & (B & _) & _).
    split; [exact B|]. intro He. apply emitted_origin in He. origin He.
    tauto.
  - apply (debounce_run closed_eyes_frames
             (fun th => get (DROWSINESS_EYES_CLOSED_FRAMES th) 20%Z)); [|assumption..].
    intros fp0 f c. cbv zeta.
    destruct (pffi_shape M fp0 f c) as (_ & (_ & B & _) & _).
    split; [exact B|]. intro He. apply emitted_origin in He. origin He.
    tauto.
  - apply (debounce_run closed_eyes_frames
             (fun th => get (MAX_ALERT_EYES_CLOSED_FRAMES th) 60%Z)); [|assumption..].
    intros fp0 f c. cbv zeta.
    destruct (pffi_shape M fp0 f c) as (_ & (_ & B & _) & _).
    split; [exact B|]. intro He. apply emitted_origin in He. origin He.
    tauto.
  - apply (debounce_run eye_rubbing_frames
             (fun th => get (EYE_RUBBING_FRAMES th) 15%Z)); [|assumption..].
    intros fp0 f c. cbv zeta.
    destruct (pffi_shape M fp0 f c) as (_ & (_ & _ & B & _) & _).
    split; [exact B|]. intro He. apply emitted_origin in He. origin He.
    tauto.
  - apply (debounce_run distraction_frames
             (fun th => get (DISTRACTION_FRAMES_THRESHOLD th) 30%Z)); [|assumption..].
    intros fp0 f c. cbv zeta.
    destruct (pffi_shape M fp0 f c) as (_ & (_ & _ & _ & B) & _).
    split; [exact B|]. intro He. apply emitted_origin in He. origin He.
    tauto.
Qed.

End Debounce.
Section FrameEffects.

Import NpFloat FatigueProcessor Samples.

Variable M : MathLib.

(** X9: Which collaborators a call feeds: the pause handler is updated by
    every call, also by one that raises; the nod detector gets a sample
    exactly on a call with a face and a calibration profile that returns,
    and is left as it was by every other call. *)
Theorem inference_detector_feeding (fp : t) (f : Frame) (c : Clock) :
  let r := process_frame_for_inference M fp f c in
  let face := match face_landmarks f with Some _ => true | None => false end in
  pausa_handler (snd r)
  = snd (PausaActivaHandler.update (pausa_handler fp) face (pose_detected f) (t_pausa c))
  /\ nod_detector (snd r)
     = (if face && Py.is_ok (fst r)
           && match calibration_data fp with Some _ => true | None => false end
        then snd (NodDetector.update (nod_detector fp)
                    (Some (get (snd (head_angle f)) 0)) (t_nod c) (t_nod_detect c))
        else nod_detector fp).
Proof.
  cbv zeta. unfold process_frame_for_inference.
  destruct (PausaActivaHandler.update _ _ _ _) as [[alert remaining] pausa'].
  cbn [snd]. destruct (face_landmarks f) as [lm|] eqn:Hf.
  - cbn [with_pausa with_state calibration_data state config lstm_classifier
         nod_detector pausa_handler].
    destruct (_calculate_facial_metrics _ _ _ _) as [m|e]; [|cbn; auto].
    destruct (lstm_block _ _ _ _ _) as [[events1 s2]|e]; [|cbn; auto].
    cbn [with_pausa with_state calibration_data state config lstm_classifier
         nod_detector pausa_handler].
    destruct (calibration_data fp) as [cal|] eqn:Hcal; [|cbn; auto].
    destruct (head_angle f) as [ax ay]. cbn [snd].
    destruct (yawn_block _ _ _ _ _ _) as [events2 s3].
    destruct (eyes_block _ _ _ _ _ _) as [events3 s4].
    destruct (NodDetector.update _ _ _ _) as [[nod risk] nod'].
    destruct (rub_block _ _ _ _ _) as [events5 s5].
    destruct (banner _) as [text max_alert].
    cbn. split; reflexivity.
  - destruct (distraction_block _ _ _ _) as [events1 s1]. cbn. auto.
Qed.

(** X8: Over any run of calls, raising ones included, the thresholds, the
    calibration profile and the classifier stay as they were; the four
    frame counters, once non-negative, stay non-negative. *)
Theorem inference_run_keeps_profile (frames : list (Frame * Clock)) (fp : t) :
  let fp' := snd (run M fp frames) in
  config fp' = config fp
  /\ calibration_data fp' = calibration_data fp
  /\ lstm_classifier fp' = lstm_classifier fp
  /\ length (fst (run M fp frames)) = length frames
  /\ (((0 <= yawn_frames (state fp))%Z -> (0 <= yawn_frames (state fp'))%Z)
      /\ ((0 <= closed_eyes_frames (state fp))%Z -> (0 <= closed_eyes_frames (state fp'))%Z)
      /\ ((0 <= eye_rubbing_frames (state fp))%Z -> (0 <= eye_rubbing_frames (state fp'))%Z)
      /\ ((0 <= distraction_frames (state fp))%Z -> (0 <= distraction_frames (state fp'))%Z)).
Proof.
  cbv zeta. revert fp.
  induction frames as [|[f c] frames IH]; intro fp; [cbn; tauto|].
  rewrite run_cons. cbn [fst snd length].
  destruct (pffi_shape M fp f c) as ((H1 & H2 & H3) & (B1 & B2 & B3 & B4) & _).
  destruct (IH (snd (process_frame_for_inference M fp f c)))
    as (I1 & I2 & I3 & I4 & J1 & J2 & J3 & J4).
  rewrite I1, I2, I3, I4.
  repeat split; auto; intro H0.
  - apply J1, B1, H0.
  - apply J2, B2, H0.
  - apply J3, B3, H0.
  - apply J4, B4, H0.
Qed.

(** X10: A frame without a face: the call returns, the overlay reads
    "ROSTRO NO DETECTADO" and carries no metrics, the only events it can
    carry are "Pausa Activa" and "Distraccion"; "Distraccion" is there
    exactly when the counter passes its threshold more than five seconds
    after the last such alert, and it does not restart the counter.  The
    pause handler is updated, nothing else of the processor changes. *)
Theorem inference_without_face (fp : t) (f : Frame) (c : Clock)
    (Hface : face_landmarks f = None) :
  let r := process_frame_for_inference M fp f c in
  let s := state fp in
  let s' := state (snd r) in
  exists evs ov,
    fst r = Py.Ok (evs, ov)
    /\ alert_text ov = Some "ROSTRO NO DETECTADO"%string
    /\ ov_metrics ov = None /\ is_max_alert ov = false
    /\ (forall e, In e evs -> e = "Pausa Activa"%string \/ e = "Distraccion"%string)
    /\ mem "Distraccion" evs
       = (distraction_frames s + 1 >? get (DISTRACTION_FRAMES_THRESHOLD (config fp)) 30)%Z
         && Py.gtb (t_distraction c - last_distraction_alert_time s) 5
    /\ mem "Pausa Activa" evs
       = fst (fst (PausaActivaHandler.update (pausa_handler fp) false (pose_detected f)
                                             (t_pausa c)))
    /\ distraction_frames s' = (distraction_frames s + 1)%Z
    /\ yawn_frames s' = yawn_frames s
    /\ closed_eyes_frames s' = closed_eyes_frames s
    /\ eye_rubbing_frames s' = eye_rubbing_frames s
    /\ nod_detector (snd r) = nod_detector fp
    /\ pausa_handler (snd r)
       = snd (PausaActivaHandler.update (pausa_handler fp) false (pose_detected f)
                                        (t_pausa c)).
Proof.
  cbv zeta. unfold process_frame_for_inference. rewrite Hface.
  destruct (PausaActivaHandler.update _ _ _ _) as [[alert remaining] pausa'].
  cbn [fst snd with_pausa state config]. unfold distraction_block.
  destruct ((_ >? _)%Z && _) eqn:E.
  - eexists _, _. split; [reflexivity|]. cbn [fst snd alert_text ov_metrics is_max_alert
      with_state state nod_detector pausa_handler with_pausa
      distraction_frames yawn_frames closed_eyes_frames eye_rubbing_frames
      set_distraction].
    repeat split.
    + intros e He. apply (proj1 (In_list_set _ _)) in He.
      apply in_app_or in He. destruct He as [He|[He|[]]]; [|auto].
      destruct alert; [|destruct He]. destruct He as [He|[]]. auto.
    + rewrite mem_list_set, mem_app. destruct alert; reflexivity.
    + rewrite mem_list_set, mem_app. destruct alert; reflexivity.
  - eexists _, _. split; [reflexivity|]. cbn [fst snd alert_text ov_metrics is_max_alert
      with_state state nod_detector pausa_handler with_pausa
      distraction_frames yawn_frames closed_eyes_frames eye_rubbing_frames
      set_distraction].
    repeat split.
    + intros e He. apply (proj1 (In_list_set _ _)) in He.
      destruct alert; [|destruct He]. destruct He as [He|[]]. auto.
    + rewrite mem_list_set. destruct alert; reflexivity.
    + rewrite mem_list_set. destruct alert; reflexivity.
Qed.

End FrameEffects.

Section EventExamples.

Import NpFloat FatigueProcessor Samples.

Lemma inference_events_justified_witness :
  let fp := snd (run approx_math calibrated_processor
                     [closed_frame_at 1; closed_frame_at 2]) in
  let f := fst (closed_frame_at 3) in
  let c := snd (closed_frame_at 3) in
  exists ov,
    fst (process_frame_for_inference approx_math fp f c) = Py.Ok (["Despierta"%string], ov)
    /\ NoDup ["Despierta"%string]
    /\ (forall e, In e ["Despierta"%string] -> event_origin fp f c e)
    /\ is_max_alert ov
       = mem "Despierta" ["Despierta"%string] || mem "Cabeceo" ["Despierta"%string].
Proof.
  cbv zeta. eexists. split; [vm_compute; reflexivity|].
  apply (inference_events_justified approx_math). vm_compute. reflexivity.
Defined.

Lemma inference_debounce_witness :
  let frames := [closed_frame_at 1; closed_frame_at 2; closed_frame_at 3] in
  count_emitted "Bostezar" (fst (run approx_math (processor false) frames)) = 0%nat
  /\ count_emitted "Frotar Ojos" (fst (run approx_math (processor false) frames)) = 0%nat.
Proof.
  cbv zeta.
  destruct (inference_debounce approx_math (processor false)
              [closed_frame_at 1; closed_frame_at 2; closed_frame_at 3])
    as (H1 & _ & _ & H4 & _); try (vm_compute; discriminate).
  split; [apply H1|apply H4]; vm_compute; discriminate.
Defined.

Lemma inference_without_face_witness :
  exists evs ov,
    fst (process_frame_for_inference approx_math (processor false)
           {| frame_shape := (100, 100); face_landmarks := None; pose_detected := false;
              head_angle := (None, None); rub_type := 0; lstm_prediction := None |}
           (clock_at (T0 + 1)))
    = Py.Ok (evs, ov)
    /\ alert_text ov = Some "ROSTRO NO DETECTADO"%string.
Proof.
  destruct (inference_without_face approx_math (processor false)
              {| frame_shape := (100, 100); face_landmarks := None; pose_detected := false;
                 head_angle := (None, None); rub_type := 0; lstm_prediction := None |}
              (clock_at (T0 + 1)) eq_refl) as (evs & ov & H1 & H2 & _).
  exists evs, ov. split; assumption.
Defined.

End EventExamples.

(** ** The pause handler during an absence *)

Section PausaAbsence.

Import PausaActivaHandler Samples.

Lemma absent_step_short (h : t) (c : Clock) (s : Q) :
  is_paused h = true ->
  pause_start_time h = Some s ->
  now c - s <= reset_threshold h ->
  let r := update h false false c in
  fst (fst r) = false
  /\ elapsed_work_time (snd r) = elapsed_work_time h
  /\ is_paused (snd r) = true
  /\ pause_start_time (snd r) = Some s
  /\ last_update_time (snd r) = now c
  /\ reset_threshold (snd r) = reset_threshold h.
Proof.
  intros Hp Hs Hshort. cbv zeta. unfold update. cbn [orb]. rewrite Hp. cbn [negb].
  cbn [set_times pause_start_time reset_threshold]. rewrite Hs.
  assert (Hg : Py.gtb (now c - s) (reset_threshold h) = false)
    by (apply gtb_le; exact Hshort).
  rewrite Hg, andb_false_r. cbn. repeat split; reflexivity.
Qed.

Lemma absent_run_short (rest : list Clock) : forall (h : t) (s : Q),
  is_paused h = true ->
  pause_start_time h = Some s ->
  Forall (fun c => now c - s <= reset_threshold h) rest ->
  let r := run h (map absent rest) in
  map fst (fst r) = repeat false (length rest)
  /\ elapsed_work_time (snd r) = elapsed_work_time h
  /\ is_paused (snd r) = true
  /\ pause_start_time (snd r) = Some s.
Proof.
  induction rest as [|c rest IH]; intros h s Hp Hs Hall; [cbn; auto|].
  inversion Hall as [|? ? Hc Hrest]; subst.
  cbv zeta. cbn [map]. change (absent c) with (false, false, c).
  rewrite pausa_run_cons. cbn [fst snd map length repeat].
  destruct (absent_step_short h c s Hp Hs Hc) as (A1 & A2 & A3 & A4 & _ & A6).
  destruct (IH (snd (update h false false c)) s A3 A4) as (I1 & I2 & I3 & I4).
  { rewrite A6. exact Hrest. }
  rewrite I1, I2, I3, I4, A1, A2. auto.
Qed.

(** X13: A short absence pauses the work counter without losing it: mid-cycle,
    absent updates that all come within [reset_threshold] seconds of the
    first of them give no alert and leave the elapsed work time as it
    was, the handler paused since that first update. *)
Theorem short_absence_keeps_work (h : t) (c1 : Clock) (rest : list Clock)
    (Hp : is_paused h = false)
    (Hshort : Forall (fun c => now c - now c1 <= reset_threshold h) (c1 :: rest)) :
  let r := run h (map absent (c1 :: rest)) in
  map fst (fst r) = repeat false (S (length rest))
  /\ elapsed_work_time (snd r) = elapsed_work_time h
  /\ is_paused (snd r) = true
  /\ pause_start_time (snd r) = Some (now c1).
Proof.
  inversion Hshort as [|? ? H1 Hrest]; subst.
  cbv zeta. cbn [map]. change (absent c1) with (false, false, c1).
  rewrite pausa_run_cons. cbn [fst snd map repeat].
  assert (Hstep : fst (fst (update h false false c1)) = false
                  /\ elapsed_work_time (snd (update h false false c1)) = elapsed_work_time h
                  /\ is_paused (snd (update h false false c1)) = true
                  /\ pause_start_time (snd (update h false false c1)) = Some (now c1)
                  /\ reset_threshold (snd (update h false false c1)) = reset_threshold h).
  { unfold update. cbn [orb]. rewrite Hp. cbn [negb].
    cbn [set_times pause_start_time reset_threshold].
    assert (Hg : Py.gtb (now c1 - now c1) (reset_threshold h) = false)
      by (apply gtb_le; exact H1).
    rewrite Hg, andb_false_r. cbn. repeat split; reflexivity. }
  destruct Hstep as (A1 & A2 & A3 & A4 & A6).
  destruct (absent_run_short rest (snd (update h false false c1)) (now c1) A3 A4)
    as (I1 & I2 & I3 & I4).
  { rewrite A6. exact Hrest. }
  rewrite I1, I2, I3, I4, A1, A2. auto.
Qed.

Lemma short_absence_keeps_work_witness :
  let h := snd (run (init 3600 180 T0) (map (present false) (map (tick T0) [1; 2; 3]%Z))) in
  let r := run h (map absent (map (tick T0) [4; 60; 184]%Z)) in
  map fst (fst r) = repeat false 3
  /\ elapsed_work_time (snd r) = elapsed_work_time h
  /\ is_paused (snd r) = true
  /\ pause_start_time (snd r) = Some (now (tick T0 4)).
Proof.
  cbv zeta.
  apply (short_absence_keeps_work
           (snd (run (init 3600 180 T0)
                     (map (present false) (map (tick T0) [1; 2; 3]%Z))))
           (tick T0 4) (map (tick T0) [60; 184]%Z)).
  - vm_compute. reflexivity.
  - repeat constructor; vm_compute; discriminate.
Defined.

End PausaAbsence.

(** ** The identity matcher: threshold and shapes *)

Section MatchShape.

Import FaceProcessor Samples.

Lemma np_dot_ok_iff (a b : list Q) :
  (exists s, np_dot a b = Py.Ok s) <-> length a = length b.
Proof.
  revert b. induction a as [|x a IH]; intros [|y b]; cbn.
  - split; eauto.
  - split; [intros [s H]; discriminate|discriminate].
  - split; [intros [s H]; discriminate|discriminate].
  - split.
    + intros [s H]. destruct (np_dot a b) as [s'|e] eqn:E; [|discriminate].
      f_equal. apply IH. eauto.
    + intro H. injection H as H. apply IH in H. destruct H as [s ->]. eauto.
Qed.

Lemma np_dot_raises (a b : list Q) (e : Py.exn) :
  np_dot a b = Py.Raise e -> e = Py.ValueError /\ length a <> length b.
Proof.
  revert b. induction a as [|x a IH]; intros [|y b]; cbn; intro H;
    try discriminate; try (injection H as <-; split; [reflexivity|discriminate]).
  destruct (np_dot a b) as [s|e'] eqn:E; [discriminate|].
  injection H as <-. destruct (IH b E) as [-> Hne]. split; [reflexivity|].
  intro Hl. apply Hne. injection Hl as Hl. exact Hl.
Qed.

Lemma scan_shapes (qe : Embedding) (thr : Q) (known : list UserData) :
  forall best highest,
  match scan (Some qe) known thr best highest with
  | Py.Raise e => e = Py.ValueError /\ Exists (mismatched qe) known
  | Py.Ok _ => Forall (fun u => ~ mismatched qe u) known
  end.
Proof.
  induction known as [|u rest IH]; intros best highest; cbn [scan]; [constructor|].
  unfold compare_embeddings.
  destruct (embedding u) as [e|] eqn:He.
  - destruct (np_dot qe e) as [s|x] eqn:Hd.
    + assert (Hu : ~ mismatched qe u).
      { intros (e' & He' & Hne). rewrite He in He'. injection He' as <-.
        apply Hne. symmetry. apply np_dot_ok_iff. eauto. }
      destruct (Py.gtb s highest).
      * specialize (IH (if Py.geb s thr then Some u else best) s).
        destruct (scan _ rest _ _ _); [constructor; assumption|].
        destruct IH as [-> IH]. split; [reflexivity|]. apply Exists_cons_tl, IH.
      * specialize (IH best highest).
        destruct (scan _ rest _ _ _); [constructor; assumption|].
        destruct IH as [-> IH]. split; [reflexivity|]. apply Exists_cons_tl, IH.
    + destruct (np_dot_raises _ _ _ Hd) as [-> Hne]. split; [reflexivity|].
      apply Exists_cons_hd. exists e. split; [exact He|]. intro H. apply Hne. auto.
  - assert (Hu : ~ mismatched qe u).
    { intros (e' & He' & _). rewrite He in He'. discriminate. }
    destruct (Py.gtb 0 highest).
    + specialize (IH (if Py.geb 0 thr then Some u else best) 0).
      destruct (scan _ rest _ _ _); [constructor; assumption|].
      destruct IH as [-> IH]. split; [reflexivity|]. apply Exists_cons_tl, IH.
    + specialize (IH best highest).
      destruct (scan _ rest _ _ _); [constructor; assumption|].
      destruct IH as [-> IH]. split; [reflexivity|]. apply Exists_cons_tl, IH.
Qed.

(** X14: The matcher does not check shapes: with a query present it raises
    exactly when some known entry holds an embedding whose length differs
    from the query's, and what it raises is numpy's [ValueError]; entries
    without an embedding never make it fail. *)
Theorem find_match_shape_error (qe : Embedding) (known : list UserData) (thr : Q) :
  match find_match (Some qe) known thr with
  | Py.Raise e => e = Py.ValueError /\ Exists (mismatched qe) known
  | Py.Ok _ => Forall (fun u => ~ mismatched qe u) known
  end.
Proof.
  destruct known as [|u rest]; [constructor|].
  unfold find_match. apply scan_shapes.
Qed.

Lemma scan_threshold (q : option Embedding) (thr thr' : Q) (known : list UserData) :
  thr <= thr' ->
  forall best best' highest user s,
    (best' = None \/ (best' = best /\ thr' <= highest)) ->
    scan q known thr' best' highest = Py.Ok (user, s) ->
    exists user0, scan q known thr best highest = Py.Ok (user0, s)
                  /\ (user <> None -> user0 = user /\ thr' <= s).
Proof.
  intro Hle. induction known as [|u rest IH]; intros best best' highest user s Hinv H.
  - cbn in *. injection H as <- <-. exists best. split; [reflexivity|].
    intro Hn. destruct Hinv as [->|[-> Ht]]; [contradiction|auto].
  - cbn [scan] in *.
    destruct (compare_embeddings q (embedding u)) as [sim|e]; [|discriminate].
    destruct (Py.gtb sim highest) eqn:Hgt.
    + apply gtb_gt in Hgt.
      apply (IH (if Py.geb sim thr then Some u else best) _ _ _ _) in H; [exact H|].
      destruct (Py.geb sim thr') eqn:G'.
      * apply geb_ge in G'. right. split; [|exact G'].
        assert (G : Py.geb sim thr = true) by (apply geb_ge; lra).
        rewrite G. reflexivity.
      * destruct Hinv as [->|[-> Ht]]; [left; reflexivity|].
        apply geb_lt in G'. lra.
    + apply (IH best _ _ _ _) in H; [exact H|]. exact Hinv.
Qed.

(** X15: The threshold only decides whether the best candidate is returned:
    lowering it leaves the reported similarity as it is and keeps a user
    that was returned, whose similarity is at least the higher
    threshold. *)
Theorem find_match_threshold (q : option Embedding) (known : list UserData)
    (thr thr' : Q) (user : option UserData) (best : Q)
    (Hle : thr <= thr')
    (Hfound : find_match q known thr' = Py.Ok (user, best)) :
  exists user0,
    find_match q known thr = Py.Ok (user0, best)
    /\ (user <> None -> user0 = user /\ thr' <= best).
Proof.
  unfold find_match in *. destruct q as [qe|].
  - destruct known as [|u rest].
    + injection Hfound as <- <-. exists None. split; [reflexivity|]. contradiction.
    + apply (scan_threshold (Some qe) thr thr' (u :: rest) Hle None None (-1) user best);
        auto.
  - injection Hfound as <- <-. exists None. split; [reflexivity|]. contradiction.
Qed.

Lemma find_match_threshold_witness :
  exists user0,
    find_match (Some [1; 0]) [user_a; user_b] 0.45 = Py.Ok (user0, 1)
    /\ (Some user_b <> None -> user0 = Some user_b /\ 0.9 <= 1).
Proof.
  apply (find_match_threshold (Some [1; 0]) [user_a; user_b] 0.45 0.9
           (Some user_b) 1).
  - vm_compute. discriminate.
  - vm_compute. reflexivity.
Defined.

End MatchShape.

(** ** Pose limits *)

Section PoseLimitsFacts.

Import PoseEstimator.

(** X16: Acceptance looks at absolute angles only and is closed downwards: a
    pose whose three angles are, in absolute value, at most those of an
    accepted pose is accepted, so the mirror image of an accepted pose
    is. *)
Theorem pose_acceptance_monotone (p y r p' y' r' : Q) (limits : PoseLimits)
    (Hacc : is_pose_acceptable (p, y, r) limits = true)
    (Hp : Qabs p' <= Qabs p) (Hy : Qabs y' <= Qabs y) (Hr : Qabs r' <= Qabs r) :
  is_pose_acceptable (p', y', r') limits = true
  /\ is_pose_acceptable (- p, - y, - r) limits = true.
Proof.
  unfold is_pose_acceptable in *.
  apply andb_true_iff in Hacc. destruct Hacc as [Hacc H3].
  apply andb_true_iff in Hacc. destruct Hacc as [H1 H2].
  apply leb_le in H1, H2, H3.
  split.
  - rewrite !andb_true_iff. repeat split; apply leb_le; lra.
  - rewrite !Qabs_opp, !andb_true_iff. repeat split; apply leb_le; lra.
Qed.

Lemma pose_acceptance_monotone_witness :
  is_pose_acceptable (-5, 10, 0) (Gui.pose_limits Samples.gui_config) = true
  /\ is_pose_acceptable (- (10), - (-20), - (15)) (Gui.pose_limits Samples.gui_config) = true.
Proof.
  apply (pose_acceptance_monotone 10 (-20) 15 (-5) 10 0
           (Gui.pose_limits Samples.gui_config)).
  - vm_compute. reflexivity.
  - vm_compute. discriminate.
  - vm_compute. discriminate.
  - vm_compute. discriminate.
Defined.

End PoseLimitsFacts.

(** ** The session state machine *)

Section SessionMachine.

Import Gui GuiSignals Samples.

Ltac conj_auto := repeat (split; [solve [auto]|]); auto 6.

Ltac run_monad :=
  unfold bind, read, modify, call, ret, raise, try_except in *; cbn beta iota in *.

Lemma login_outcome (env : Env) (uid : Z) (code : string) (sim : Q) (w : MainWindow) :
  let r := _login_user env uid code sim w in
  config (snd r) = config w
  /\ last_known_face_results (snd r) = last_known_face_results w
  /\ current_user_id (snd r) = Some uid
  /\ current_user_code (snd r) = code
  /\ (Py.is_ok (fst r) = true ->
      log_access_log env = Py.Ok tt /\ populate_event_tree env = Py.Ok tt
      /\ fresh_session (snd r))
  /\ (log_access_log env = Py.Ok tt -> populate_event_tree env = Py.Ok tt ->
      Py.is_ok (fst r) = true).
Proof.
  cbv zeta. unfold _login_user, _prepare_for_monitoring_session. run_monad.
  destruct (log_access_log env) as [[]|e1]; cbn.
  - destruct (populate_event_tree env) as [[]|e2]; cbn.
    + repeat split; auto; discriminate.
    + repeat split; auto; discriminate.
  - repeat split; auto; discriminate.
Qed.


Lemma registration_cases (env : Env) (w : MainWindow) :
  let r := _execute_auto_registration env w in
  fst r = Py.Ok tt
  /\ config (snd r) = config w
  /\ match registration_succeeds env with
     | Some (uid, code) =>
         fresh_session (snd r)
         /\ current_user_id (snd r) = Some uid /\ current_user_code (snd r) = code
     | None => app_state (snd r) = LISTENING
     end
  /\ (forall uid code blob emb,
        align_face env = Py.Ok (Some blob) -> get_embedding env = Py.Ok (Some emb) ->
        register_user env = Py.Ok (Some (uid, code)) ->
        uid <> 0%Z -> code <> ""%string ->
        store_new_user env = Py.Ok tt ->
        current_user_id (snd r) = Some uid).
Proof.
  intro r. assert (Hr : r = _execute_auto_registration env w) by reflexivity.
  clearbody r. unfold registration_succeeds.
  unfold _execute_auto_registration, registration_body in Hr.
  unfold try_except, bind, call in Hr.
  destruct (align_face env) as [[blob|]|e1];
    [|subst r; cbn; repeat split; auto; intros; discriminate
     |subst r; cbn; repeat split; auto; intros; discriminate].
  destruct (get_embedding env) as [[emb|]|e2];
    [|subst r; cbn; repeat split; auto; intros; discriminate
     |subst r; cbn; repeat split; auto; intros; discriminate].
  destruct (register_user env) as [[[uid code]|]|e3];
    [|subst r; cbn; repeat split; auto; intros; discriminate
     |subst r; cbn; repeat split; auto; intros; discriminate].
  destruct (negb (uid =? 0)%Z && negb (String.eqb code "")) eqn:Hvalid.
  - destruct (store_new_user env) as [[]|e4].
    + pose proof (login_outcome env uid code 1 w) as L. cbv zeta in L.
      destruct L as (L1 & L2 & L3 & L4 & L5 & L6).
      destruct (_login_user env uid code 1 w) as [[[]|e5] w1] eqn:Hlogin;
        cbn [fst snd] in *; subst r.
      * destruct (L5 eq_refl) as (Hlog & Hpop & Hfresh). rewrite Hlog, Hpop.
        cbn [fst snd].
        split; [reflexivity|]. split; [exact L1|]. split; [auto|].
        intros uid0 code0 blob0 emb0 _ _ Hreg _ _ _. congruence.
      * unfold modify. cbn [fst snd config current_user_id with_app_state app_state].
        split; [reflexivity|]. split; [exact L1|]. split.
        -- destruct (log_access_log env) as [[]|]; [|reflexivity].
           destruct (populate_event_tree env) as [[]|]; [|reflexivity].
           specialize (L6 eq_refl eq_refl). discriminate.
        -- intros uid0 code0 blob0 emb0 _ _ Hreg _ _ _. congruence.
    + subst r. unfold modify. cbn. repeat split; auto. intros; discriminate.
  - subst r. unfold modify. cbn. repeat split; auto.
    + destruct (store_new_user env) as [[]|]; [|reflexivity].
      destruct (log_access_log env) as [[]|]; [|reflexivity].
      destruct (populate_event_tree env) as [[]|]; reflexivity.
    + intros uid0 code0 blob0 emb0 _ _ Hreg Hu Hc _. injection Hreg as <- <-.
      exfalso. apply andb_false_iff in Hvalid. destruct Hvalid as [Hv|Hv].
      * apply negb_false_iff, Z.eqb_eq in Hv. contradiction.
      * apply negb_false_iff, String.eqb_eq in Hv. contradiction.
Qed.


(** X18: The automatic registration never lets an exception out and does not
    touch the configuration; it ends in a fresh session for the new user
    exactly when every collaborator answers and the database hands out a
    user, and in [LISTENING] otherwise.  Nothing is rolled back: once the
    user is created and stored, it is bound to the window even if the
    login then fails. *)
Theorem auto_registration_outcome (env : Env) (w : MainWindow) :
  let r := _execute_auto_registration env w in
  fst r = Py.Ok tt
  /\ config (snd r) = config w
  /\ match registration_succeeds env with
     | Some (uid, code) =>
         fresh_session (snd r)
         /\ current_user_id (snd r) = Some uid /\ current_user_code (snd r) = code
     | None => app_state (snd r) = LISTENING
     end
  /\ (forall uid code blob emb,
        align_face env = Py.Ok (Some blob) -> get_embedding env = Py.Ok (Some emb) ->
        register_user env = Py.Ok (Some (uid, code)) ->
        uid <> 0%Z -> code <> ""%string ->
        store_new_user env = Py.Ok tt ->
        current_user_id (snd r) = Some uid).
Proof. exact (registration_cases env w). Qed.

Lemma identify_cases (env : Env) (w : MainWindow) :
  last_known_face_results w <> None ->
  let r := _handle_identifying_state env w in
  fst r = Py.Ok tt
  /\ config (snd r) = config w
  /\ last_known_face_results (snd r) = last_known_face_results w
  /\ (app_state (snd r) = LISTENING \/ fresh_session (snd r)
      \/ (app_state (snd r) = AUTO_REGISTERING
          /\ auto_register_start_time (state_timers (snd r)) = Some (t_identify env)
          /\ current_user_id (snd r) = current_user_id w)).
Proof.
  intros Hk r. assert (Hr : r = _handle_identifying_state env w) by reflexivity.
  clearbody r. unfold _handle_identifying_state in Hr.
  unfold bind at 1 in Hr. unfold read at 1 in Hr.
  destruct (last_known_face_results w) as [[|]|] eqn:Hlk; [| |contradiction].
  2:{ subst r. cbn. rewrite Hlk. auto 10. }
  unfold identify_body in Hr. unfold try_except, bind, read, call in Hr.
  destruct (negb (acceptable (last_face_pose env) (config w)));
    [subst r; cbn; rewrite Hlk; auto 10|].
  destruct (align_face env) as [[blob|]|e1];
    [|subst r; cbn; rewrite Hlk; auto 10|subst r; cbn; rewrite Hlk; auto 10].
  destruct (get_embedding env) as [[emb|]|e2];
    [|subst r; cbn; rewrite Hlk; auto 10|subst r; cbn; rewrite Hlk; auto 10].
  destruct (get_all_user_embeddings env) as [known|e3];
    [|subst r; cbn; rewrite Hlk; auto 10].
  destruct (FaceProcessor.find_match _ _ _) as [[[user|] sim]|e4];
    [| |subst r; cbn; rewrite Hlk; auto 10].
  - cbn [fst snd] in Hr.
    pose proof (login_outcome env (FaceProcessor.user_id user)
                  (FaceProcessor.codigo_usuario user) sim w) as L.
    cbv zeta in L. destruct L as (L1 & L2 & L3 & L4 & L5 & L6).
    destruct (_login_user env _ _ sim w) as [[[]|e5] w1]; cbn [fst snd] in *; subst r.
    + destruct (L5 eq_refl) as (_ & _ & Hfresh). cbn [fst snd].
      rewrite L2, Hlk. auto 10.
    + unfold modify. cbn [fst snd config last_known_face_results with_app_state app_state].
      rewrite L2, Hlk. auto 10.
  - cbn [fst snd] in Hr.
    destruct (log_access_log env) as [[]|e5]; subst r; unfold modify; cbn;
      rewrite Hlk; auto 10.
Qed.

Lemma auto_registering_cases (env : Env) (w : MainWindow) :
  let r := _handle_auto_registering_state env w in
  let start := match auto_register_start_time (state_timers w) with
               | Some s => s
               | None => t_auto_start env
               end in
  fst r = Py.Ok tt
  /\ config (snd r) = config w
  /\ last_known_face_results (snd r) = last_known_face_results w
  /\ (if negb (acceptable (pose_data env) (config w)) then
        app_state (snd r) = LISTENING
        /\ auto_register_start_time (state_timers (snd r)) = None
        /\ current_user_id (snd r) = current_user_id w
      else if Py.leb (auto_register_seconds (config w) - (t_auto_now env - start)) 0 then
        match registration_succeeds env with
        | Some (uid, code) =>
            fresh_session (snd r)
            /\ current_user_id (snd r) = Some uid /\ current_user_code (snd r) = code
        | None => app_state (snd r) = LISTENING
        end
      else
        snd r = with_timers (set_auto_start (Some start) (state_timers w)) w).
Proof.
  intros r start. assert (Hr : r = _handle_auto_registering_state env w) by reflexivity.
  clearbody r. unfold _handle_auto_registering_state in Hr.
  unfold bind, read, modify, ret in Hr. fold start in Hr.
  destruct (negb (acceptable (pose_data env) (config w))).
  - subst r. cbn. auto 10.
  - destruct (Py.leb _ 0).
    + pose proof (registration_cases env
                    (with_timers (set_auto_start (Some start) (state_timers w)) w)) as A.
      cbv zeta in A. rewrite <- Hr in A. destruct A as (A1 & A2 & A3 & _).
      split; [exact A1|]. split; [exact A2|]. split; [|exact A3].
      subst r. rewrite registration_keeps_attribute. reflexivity.
    + subst r. cbn. auto 10.
Qed.


Lemma frame_ok_acceptable (cfg : Config) (env : Env) :
  frame_ok cfg env = acceptable (pose_data env) cfg.
Proof.
  unfold frame_ok, pose_data. destruct (face_results env); reflexivity.
Qed.

Lemma process_frame_cases (env : Env) (w : MainWindow) :
  let r := process_frame env w in
  config (snd r) = config w
  /\ match fst r with
     | Py.Ok _ => successor (app_state w) (app_state (snd r)) = true
     | Py.Raise _ => snd r = w
     end
  /\ (app_state w = MONITORING
      \/ (app_state w = IDENTIFYING /\ last_known_face_results w = None) ->
      r = (Py.Raise Py.AttributeError, w))
  /\ (app_state (snd r) = MONITORING -> app_state w <> MONITORING ->
      fresh_session (snd r)).
Proof.
  cbv zeta. destruct (app_state w) eqn:Hs.
  - rewrite (listening_step env w Hs). cbn [fst snd].
    destruct (frame_ok _ _); [destruct (_ >=? _)%Z|]; cbn; rewrite ?Hs;
      repeat split; auto; try discriminate; intros; intuition congruence.
  - unfold process_frame, bind, read. rewrite Hs.
    destruct (last_known_face_results w) as [b|] eqn:Hlk.
    + assert (Hk : last_known_face_results w <> None) by (rewrite Hlk; discriminate).
      destruct (identify_cases env w Hk) as (I1 & I2 & I3 & I4).
      split; [exact I2|]. rewrite I1. split.
      * destruct I4 as [->|[(-> & _)|(-> & _)]]; reflexivity.
      * split; [intros [H|[_ H]]; discriminate|].
        intros Hm _. destruct I4 as [H|[H|(H & _)]]; [congruence|exact H|congruence].
    + unfold _handle_identifying_state, bind, read, raise. rewrite Hlk. cbn.
      rewrite Hs. repeat split; auto; discriminate.
  - unfold process_frame, bind, read. rewrite Hs.
    pose proof (auto_registering_cases env w) as A. cbv zeta in A.
    destruct A as (A1 & A2 & A3 & A4). split; [exact A2|]. rewrite A1. split.
    + destruct (negb _); [destruct A4 as (-> & _); reflexivity|].
      destruct (Py.leb _ 0).
      * destruct (registration_succeeds env) as [[uid code]|];
          [destruct A4 as ((-> & _) & _)|rewrite A4]; reflexivity.
      * rewrite A4. cbn. rewrite Hs. reflexivity.
    + split; [intros [H|[H _]]; discriminate|]. intros Hm _.
      destruct (negb _); [destruct A4 as (A4 & _); congruence|].
      destruct (Py.leb _ 0).
      * destruct (registration_succeeds env) as [[uid code]|];
          [apply A4|congruence].
      * rewrite A4 in Hm. cbn in Hm. congruence.
  - rewrite (monitoring_step env w Hs). cbn. rewrite Hs.
    repeat split; auto; congruence.
  - unfold process_frame, bind, read, ret. rewrite Hs. cbn. rewrite Hs.
    repeat split; auto; try discriminate; intros; intuition discriminate.
Qed.

(** X17: The dispatch of [process_frame] on the state (its step 3).  It never
    changes the configuration.  When it returns, the state has moved along
    the diagram: [LISTENING] to itself or [IDENTIFYING]; [IDENTIFYING] to
    [LISTENING], [MONITORING] or [AUTO_REGISTERING], never to itself;
    [AUTO_REGISTERING] to itself, [LISTENING] or [MONITORING]; [REPOSO] to
    itself; it does not return in [MONITORING].  In [MONITORING], and in
    [IDENTIFYING] while [last_known_face_results] is unassigned, it raises
    [AttributeError] and leaves the window untouched.  Entering
    [MONITORING] always opens a fresh session. *)
Theorem process_frame_transitions (env : Env) (w : MainWindow) :
  let r := process_frame env w in
  config (snd r) = config w
  /\ (Py.is_ok (fst r) = true ->
      successor (app_state w) (app_state (snd r)) = true)
  /\ (app_state w = MONITORING
      \/ (app_state w = IDENTIFYING /\ last_known_face_results w = None) ->
      r = (Py.Raise Py.AttributeError, w))
  /\ (app_state (snd r) = MONITORING -> app_state w <> MONITORING ->
      fresh_session (snd r)).
Proof.
  destruct (process_frame_cases env w) as (H1 & H2 & H3 & H4).
  cbv zeta. split; [exact H1|]. split; [|split; [exact H3|exact H4]].
  intro Hok. destruct (fst (process_frame env w)); [exact H2|discriminate].
Qed.

Lemma auto_wait_step (env : Env) (w : MainWindow) (s : Q) :
  app_state w = AUTO_REGISTERING ->
  auto_register_start_time (state_timers w) = Some s ->
  frame_ok (config w) env = true ->
  t_auto_now env - s < auto_register_seconds (config w) ->
  process_frame env w = (Py.Ok tt, w).
Proof.
  intros Hs Hstart Hok Hearly.
  unfold process_frame, bind, read. rewrite Hs.
  pose proof (auto_registering_cases env w) as A. cbv zeta in A.
  destruct A as (A1 & _ & _ & A4).
  rewrite <- frame_ok_acceptable, Hok, Hstart in A4. cbn [negb] in A4.
  assert (Hl : Py.leb (auto_register_seconds (config w) - (t_auto_now env - s)) 0 = false).
  { destruct (Py.leb _ 0) eqn:E; [|reflexivity]. apply leb_le in E. lra. }
  rewrite Hl in A4.
  destruct (_handle_auto_registering_state env w) as [r w']. cbn [fst snd] in *.
  subst r. f_equal. rewrite A4.
  destruct w as [cfg st uid code tm fp cal frames lk]. destruct tm. cbn in *.
  subst. reflexivity.
Qed.

(** X19: The registration countdown: in [AUTO_REGISTERING], frames with an
    acceptable pose that arrive before [auto_register_seconds] have passed
    since the recorded start leave the window exactly as it is; a frame
    without a face or with an unacceptable pose sends it back to
    [LISTENING], clears the start time and binds nobody. *)
Theorem auto_register_waits (w : MainWindow) (s : Q) (envs : list Env)
    (Hs : app_state w = AUTO_REGISTERING)
    (Hstart : auto_register_start_time (state_timers w) = Some s)
    (Hwait : Forall (fun env => frame_ok (config w) env = true
                                /\ t_auto_now env - s < auto_register_seconds (config w))
                    envs) :
  process_frames envs w = (map (fun _ => Py.Ok tt) envs, w)
  /\ (forall env, frame_ok (config w) env = false ->
        fst (process_frame env w) = Py.Ok tt
        /\ app_state (snd (process_frame env w)) = LISTENING
        /\ auto_register_start_time (state_timers (snd (process_frame env w))) = None
        /\ current_user_id (snd (process_frame env w)) = current_user_id w).
Proof.
  split.
  - induction Hwait as [|env envs [Hok Hearly] _ IH]; [reflexivity|].
    cbn [process_frames map].
    rewrite (auto_wait_step env w s Hs Hstart Hok Hearly), IH. reflexivity.
  - intros env Hbad. unfold process_frame, bind, read. rewrite Hs.
    pose proof (auto_registering_cases env w) as A. cbv zeta in A.
    destruct A as (A1 & _ & _ & A4).
    rewrite <- frame_ok_acceptable, Hbad in A4. cbn [negb] in A4.
    split; [exact A1|exact A4].
Qed.

Lemma auto_register_waits_witness :
  process_frames [ok_env; ok_env] registering_window
  = (map (fun _ => Py.Ok tt) [ok_env; ok_env], registering_window)
  /\ (forall env, frame_ok (config registering_window) env = false ->
        fst (process_frame env registering_window) = Py.Ok tt
        /\ app_state (snd (process_frame env registering_window)) = LISTENING
        /\ auto_register_start_time (state_timers (snd (process_frame env registering_window)))
           = None
        /\ current_user_id (snd (process_frame env registering_window))
           = current_user_id registering_window).
Proof.
  apply (auto_register_waits registering_window T0 [ok_env; ok_env]).
  - reflexivity.
  - reflexivity.
  - repeat constructor; vm_compute; reflexivity.
Defined.

Lemma deliver_all_cons (sg : Signal) (rest : list Signal) (w : MainWindow) :
  deliver_all (sg :: rest) w
  = (fst (deliver sg w) :: fst (deliver_all rest (snd (deliver sg w))),
     snd (deliver_all rest (snd (deliver sg w)))).
Proof.
  cbn [deliver_all]. destruct (deliver sg w) as [r w']. cbn [fst snd].
  destruct (deliver_all rest w'). reflexivity.
Qed.

Lemma deliver_all_app (a b : list Signal) : forall w,
  deliver_all (a ++ b) w
  = (fst (deliver_all a w) ++ fst (deliver_all b (snd (deliver_all a w))),
     snd (deliver_all b (snd (deliver_all a w)))).
Proof.
  induction a as [|sg a IH]; intro w.
  - cbn. destruct (deliver_all b w). reflexivity.
  - cbn [app]. rewrite !deliver_all_cons, IH. reflexivity.
Qed.

Lemma asleep_frames (envs : list Env) (w : MainWindow) :
  app_state w = REPOSO ->
  deliver_all (map Frame envs) w = (map (fun _ => Py.Ok tt) envs, w).
Proof.
  intro Hs. induction envs as [|env envs IH]; [reflexivity|].
  assert (Hstep : process_frame env w = (Py.Ok tt, w)).
  { unfold process_frame, bind, read, ret. rewrite Hs. reflexivity. }
  cbn [map]. rewrite deliver_all_cons. cbn [deliver]. rewrite Hstep. cbn [fst snd].
  rewrite IH. reflexivity.
Qed.

(** X20: Sleep mode keeps the session: when the window is awake, a no-motion
    signal, any frames delivered while asleep and a motion signal leave
    it in [LISTENING] with everything else as it was before the sleep:
    the user bound to a monitoring session stays bound, no logout runs and
    no frame is processed. *)
Theorem sleep_keeps_session (w : MainWindow) (envs : list Env)
    (Hawake : app_state w <> REPOSO) :
  deliver_all (NoMotion :: map Frame envs ++ [Motion]) w
  = (Py.Ok tt :: map (fun _ => Py.Ok tt) envs ++ [Py.Ok tt],
     with_app_state LISTENING w).
Proof.
  rewrite deliver_all_cons. cbn [deliver].
  assert (Hsleep : _enter_sleep_mode w = (Py.Ok tt, with_app_state REPOSO w)).
  { unfold _enter_sleep_mode, bind, read, modify, ret.
    destruct (app_state w); try reflexivity. contradiction. }
  rewrite Hsleep. cbn [fst snd].
  rewrite deliver_all_app, asleep_frames by reflexivity. cbn [fst snd].
  reflexivity.
Qed.

Lemma sleep_keeps_session_witness :
  deliver_all (NoMotion :: map Frame [ok_env; absent_env] ++ [Motion]) monitoring_window
  = (Py.Ok tt :: map (fun _ => Py.Ok tt) [ok_env; absent_env] ++ [Py.Ok tt],
     with_app_state LISTENING monitoring_window).
Proof.
  apply (sleep_keeps_session monitoring_window [ok_env; absent_env]).
  vm_compute. discriminate.
Defined.

(** The invariant of a window on which [last_known_face_results] was
    never assigned and nobody is logged in. *)
Lemma unassigned_step (sg : Signal) (w : MainWindow) (cfg : Config)
    (fp : FatigueProcessor.t) :
  (last_known_face_results w = None /\ current_user_id w = None
   /\ current_user_code w = "N/A"%string /\ fatigue_processor w = fp /\ config w = cfg
   /\ (app_state w = LISTENING \/ app_state w = IDENTIFYING \/ app_state w = REPOSO)) ->
  let w' := snd (deliver sg w) in
  last_known_face_results w' = None /\ current_user_id w' = None
  /\ current_user_code w' = "N/A"%string /\ fatigue_processor w' = fp /\ config w' = cfg
  /\ (app_state w' = LISTENING \/ app_state w' = IDENTIFYING \/ app_state w' = REPOSO).
Proof.
  intros (Hk & Hu & Hc & Hf & Hcfg & Hst). cbv zeta. destruct sg as [env| |]; cbn [deliver].
  - destruct Hst as [Hs|[Hs|Hs]].
    + rewrite (listening_step env w Hs). cbn [snd].
      destruct (frame_ok _ _); [destruct (_ >=? _)%Z|]; cbn; conj_auto.
    + unfold process_frame, bind, read. rewrite Hs.
      unfold _handle_identifying_state, bind, read, raise. rewrite Hk. cbn. conj_auto.
    + unfold process_frame, bind, read, ret. rewrite Hs. cbn. conj_auto.
  - unfold _enter_sleep_mode, bind, read, modify, ret.
    destruct (app_state w) eqn:Hs; cbn; rewrite ?Hs; conj_auto.
  - unfold _wake_from_sleep, bind, read, modify, ret.
    destruct (app_state w) eqn:Hs; cbn; rewrite ?Hs; conj_auto.
Qed.

(** X21: From the window as [__init__] leaves it, no sequence of frames and
    sensor signals ever opens a session: [last_known_face_results] is
    assigned nowhere, so once [LISTENING] has handed over to
    [IDENTIFYING] every frame raises [AttributeError] before the
    identification is attempted.  The window stays in [LISTENING],
    [IDENTIFYING] or [REPOSO], nobody is bound and the fatigue processor
    is never touched. *)
Theorem no_session_from_init (cfg : Config) (fp : FatigueProcessor.t)
    (signals : list Signal) :
  let w := snd (deliver_all signals (init cfg fp)) in
  (app_state w = LISTENING \/ app_state w = IDENTIFYING \/ app_state w = REPOSO)
  /\ current_user_id w = None
  /\ current_user_code w = "N/A"%string
  /\ fatigue_processor w = fp
  /\ config w = cfg
  /\ (app_state w = IDENTIFYING ->
      forall env, process_frame env w = (Py.Raise Py.AttributeError, w)).
Proof.
  cbv zeta.
  assert (Hinv : forall w0,
    (last_known_face_results w0 = None /\ current_user_id w0 = None
     /\ current_user_code w0 = "N/A"%string /\ fatigue_processor w0 = fp /\ config w0 = cfg
     /\ (app_state w0 = LISTENING \/ app_state w0 = IDENTIFYING \/ app_state w0 = REPOSO)) ->
    let w := snd (deliver_all signals w0) in
    last_known_face_results w = None /\ current_user_id w = None
    /\ current_user_code w = "N/A"%string /\ fatigue_processor w = fp /\ config w = cfg
    /\ (app_state w = LISTENING \/ app_state w = IDENTIFYING \/ app_state w = REPOSO)).
  { induction signals as [|sg rest IH]; intros w0 H0; [exact H0|].
    cbv zeta. rewrite deliver_all_cons. cbn [snd].
    apply IH. apply unassigned_step. exact H0. }
  destruct (Hinv (init cfg fp)) as (Hk & Hu & Hc & Hf & Hcfg & Hst).
  { cbn. conj_auto. }
  repeat split; auto.
  intros Hs env. unfold process_frame, bind, read. rewrite Hs.
  unfold _handle_identifying_state, bind, read, raise. rewrite Hk. reflexivity.
Qed.

End SessionMachine.

(** ** The classifier's sample buffer *)

Section ClassifierBuffer.

Import NpFloat LSTMClassifier.

Variable net : list (list Sample) -> list bool.

Lemma pop_front_lastn {A} (X : list A) :
  (length X <= 21)%nat ->
  (if (20 <? length X)%nat then tl X else X) = lastn 20 X.
Proof.
  intro H. unfold lastn. destruct (20 <? length X)%nat eqn:E.
  - apply Nat.ltb_lt in E. replace (length X - 20)%nat with 1%nat by lia.
    destruct X; reflexivity.
  - apply Nat.ltb_ge in E. replace (length X - 20)%nat with 0%nat by lia.
    reflexivity.
Qed.

Lemma update_buffer (c : t) (seen : list Sample) (ear mar puc moe : npfloat) :
  input_data c = lastn 20 seen ->
  update net c ear mar puc moe
  = (if (19 <=? length seen)%nat
     then Some (classify net {| input_data := lastn 20 (seen ++ [(ear, mar, puc, moe)]) |})
     else None,
     {| input_data := lastn 20 (seen ++ [(ear, mar, puc, moe)]) |}).
Proof.
  intro Hc. unfold update. rewrite Hc. unfold Sample in *.
  set (s := (ear, mar, puc, moe)).
  assert (Hlen : length (lastn 20 seen) = Nat.min 20 (length seen)).
  { unfold lastn. rewrite length_skipn. lia. }
  rewrite (pop_front_lastn (lastn 20 seen ++ [s]))
    by (rewrite length_app, Hlen; cbn [length]; lia).
  rewrite (lastn_snoc 20 seen s).
  assert (Hl : length (lastn 20 (seen ++ [s])) = Nat.min 20 (length seen + 1)).
  { unfold lastn. rewrite length_skipn, length_app. cbn [length]. lia. }
  rewrite Hl.
  destruct (19 <=? length seen)%nat eqn:E.
  - apply Nat.leb_le in E. replace (Nat.min 20 (length seen + 1)) with 20%nat by lia.
    reflexivity.
  - apply Nat.leb_gt in E.
    destruct (Nat.min 20 (length seen + 1) =? 20)%nat eqn:E2; [|reflexivity].
    apply Nat.eqb_eq in E2. lia.
Qed.

Lemma feed_spec (samples : list Sample) : forall (c : t) (seen : list Sample),
  input_data c = lastn 20 seen ->
  fst (feed net c samples)
  = map (fun k => if (19 <=? length seen + k)%nat
                  then Some (classify net
                               {| input_data := lastn 20 (seen ++ firstn (S k) samples) |})
                  else None)
        (seq 0 (length samples))
  /\ input_data (snd (feed net c samples)) = lastn 20 (seen ++ samples).
Proof.
  induction samples as [|[[[ear mar] puc] moe] rest IH]; intros c seen Hc.
  - cbn. rewrite app_nil_r. auto.
  - cbn [feed]. rewrite (update_buffer c seen ear mar puc moe Hc).
    specialize (IH {| input_data := lastn 20 (seen ++ [(ear, mar, puc, moe)]) |}
                   (seen ++ [(ear, mar, puc, moe)]) eq_refl).
    destruct (feed net _ rest) as [outs c'']. cbn [fst snd] in *.
    destruct IH as [IH1 IH2]. split.
    + cbn [length seq map]. rewrite Nat.add_0_r. cbn [firstn]. f_equal.
      rewrite IH1, <- seq_shift, map_map. apply map_ext. intro k.
      rewrite length_app. cbn [length].
      replace (length seen + 1 + k)%nat with (length seen + S k)%nat by lia.
      rewrite <- app_assoc. reflexivity.
    + rewrite IH2, <- app_assoc. reflexivity.
Qed.

(** X23: The classifier looks at a sliding window of 20 samples: fed from an
    empty buffer it answers [None] to each of the first 19 samples and,
    from the 20th on, the verdict (0 or 1) of the network on the last 20
    samples; the buffer always holds the last 20 samples fed. *)
Theorem lstm_sliding_window (samples : list Sample) :
  fst (feed net init samples)
  = map (fun k => if (19 <=? k)%nat
                  then Some (classify net
                               {| input_data := lastn 20 (firstn (S k) samples) |})
                  else None)
        (seq 0 (length samples))
  /\ input_data (snd (feed net init samples)) = lastn 20 samples
  /\ (forall c, classify net c = 0%Z \/ classify net c = 1%Z).
Proof.
  destruct (feed_spec samples init [] eq_refl) as [H1 H2].
  split; [exact H1|]. split; [exact H2|].
  intro c. unfold classify. destruct (5 <=? _)%nat; auto.
Qed.

End ClassifierBuffer.

(** ** The motion sensor *)

Section SensorWords.

Import MPU6050 Samples.

Lemma read_word_cases (b : Bus) (addr : Z) :
  match _read_word_2c b addr with
  | Py.Ok r =>
      exists high low, b addr = Py.Ok high /\ b (addr + 1)%Z = Py.Ok low
        /\ ((0 <= high <= 255)%Z -> (0 <= low <= 255)%Z ->
            (-32768 <= r <= 32767)%Z
            /\ (r mod 65536 = 256 * high + low)%Z
            /\ ((r < 0)%Z <-> (128 <= high)%Z))
  | Py.Raise _ => Py.is_ok (b addr) = false \/ Py.is_ok (b (addr + 1)%Z) = false
  end.
Proof.
  unfold _read_word_2c.
  destruct (b addr) as [high|e]; [|cbn; auto].
  destruct (b (addr + 1)%Z) as [low|e]; [|cbn; auto].
  exists high, low. split; [reflexivity|]. split; [reflexivity|].
  intros Hh Hl. rewrite Z.shiftl_mul_pow2 by lia.
  change (2 ^ 8)%Z with 256%Z.
  destruct (_ >=? 32768)%Z eqn:E.
  - apply Z.geb_le in E. split; [lia|]. split; [|lia].
    replace (high * 256 + low - 65536)%Z with (256 * high + low + (-1) * 65536)%Z by lia.
    rewrite Z.mod_add by lia. apply Z.mod_small. lia.
  - assert (high * 256 + low < 32768)%Z.
    { destruct (Z.ltb_spec (high * 256 + low) 32768); [assumption|].
      assert (Hc : (high * 256 + low >=? 32768)%Z = true) by (apply Z.geb_le; lia).
      congruence. }
    split; [lia|]. split; [|lia].
    replace (high * 256 + low)%Z with (256 * high + low)%Z by lia.
    apply Z.mod_small. lia.
Qed.

(** X24: A register pair is read as a 16-bit two's complement number: with
    both bytes in 0..255 the result lies in -32768..32767, is congruent
    to [256 * high + low] modulo 65536, is negative exactly when the top
    bit of the high byte is set, and gives both bytes back. *)
Theorem read_word_twos_complement (b : Bus) (addr high low : Z)
    (Hhigh : b addr = Py.Ok high) (Hlow : b (addr + 1)%Z = Py.Ok low)
    (Hh : (0 <= high <= 255)%Z) (Hl : (0 <= low <= 255)%Z) :
  exists r,
    _read_word_2c b addr = Py.Ok r
    /\ (-32768 <= r <= 32767)%Z
    /\ (r mod 65536 = 256 * high + low)%Z
    /\ ((r < 0)%Z <-> (128 <= high)%Z)
    /\ ((r mod 65536) / 256 = high)%Z
    /\ (r mod 256 = low)%Z.
Proof.
  pose proof (read_word_cases b addr) as H.
  destruct (_read_word_2c b addr) as [r|e].
  - destruct H as (high' & low' & H1 & H2 & H3).
    rewrite Hhigh in H1. rewrite Hlow in H2. injection H1 as <-. injection H2 as <-.
    destruct (H3 Hh Hl) as (R1 & R2 & R3).
    exists r. split; [reflexivity|]. split; [exact R1|]. split; [exact R2|].
    split; [exact R3|]. split.
    + rewrite R2. replace (256 * high + low)%Z with (low + high * 256)%Z by lia.
      rewrite Z.div_add by lia. rewrite Z.div_small by lia. lia.
    + assert (Hm : ((r mod 65536) mod 256 = r mod 256)%Z).
      { apply Z.mod_mod_divide. exists 256%Z. reflexivity. }
      rewrite <- Hm, R2.
      replace (256 * high + low)%Z with (low + high * 256)%Z by lia.
      rewrite Z.mod_add by lia. apply Z.mod_small. lia.
  - rewrite Hhigh, Hlow in H. cbn in H. destruct H; discriminate.
Qed.

Lemma read_word_twos_complement_witness :
  exists r,
    _read_word_2c (constant_bus 255) 59 = Py.Ok r
    /\ (-32768 <= r <= 32767)%Z
    /\ (r mod 65536 = 256 * 255 + 255)%Z
    /\ ((r < 0)%Z <-> (128 <= 255)%Z)
    /\ ((r mod 65536) / 256 = 255)%Z
    /\ (r mod 256 = 255)%Z.
Proof.
  apply (read_word_twos_complement (constant_bus 255) 59 255 255);
    try reflexivity; lia.
Defined.

Lemma read_word_range (b : Bus) (addr r : Z) :
  (forall a v, b a = Py.Ok v -> (0 <= v <= 255)%Z) ->
  _read_word_2c b addr = Py.Ok r -> (-32768 <= r <= 32767)%Z.
Proof.
  intros Hbytes Hr. pose proof (read_word_cases b addr) as H. rewrite Hr in H.
  destruct H as (high & low & H1 & H2 & H3).
  destruct (H3 (Hbytes _ _ H1) (Hbytes _ _ H2)) as (R & _). exact R.
Qed.

Lemma accel_range (r : Z) :
  (-32768 <= r <= 32767)%Z -> -2 <= inject_Z r / 16384 /\ inject_Z r / 16384 < 2.
Proof.
  intros [Hlo Hhi]. split.
  - apply Qle_shift_div_l; [reflexivity|].
    unfold Qle. cbn. lia.
  - apply Qlt_shift_div_r; [reflexivity|].
    unfold Qlt. cbn. lia.
Qed.

Lemma gyro_range (r : Z) :
  (-32768 <= r <= 32767)%Z -> -251 < inject_Z r / 131 /\ inject_Z r / 131 < 251.
Proof.
  intros [Hlo Hhi]. split.
  - apply Qlt_shift_div_l; [reflexivity|].
    unfold Qlt. cbn. lia.
  - apply Qlt_shift_div_r; [reflexivity|].
    unfold Qlt. cbn. lia.
Qed.

Lemma read_word_fails_iff (b : Bus) (addr : Z) :
  Py.is_ok (_read_word_2c b addr) = false
  <-> Py.is_ok (b addr) = false \/ Py.is_ok (b (addr + 1)%Z) = false.
Proof.
  unfold _read_word_2c.
  destruct (b addr) as [high|e]; [|cbn; tauto].
  destruct (b (addr + 1)%Z) as [low|e]; cbn; [|tauto].
  split; [discriminate|intros [H|H]; discriminate].
Qed.

(** There is no reading exactly when the bus is missing or one of the
    twelve registers 0x3B..0x40, 0x43..0x48 fails to answer. *)
Lemma read_sensor_data_none_iff (s : t) :
  read_sensor_data s = None
  <-> (bus s = None
       \/ exists b a, bus s = Some b /\ In a sensor_registers
                      /\ Py.is_ok (b a) = false).
Proof.
  unfold read_sensor_data. destruct (bus s) as [b|]; [|split; auto].
  assert (Hw : forall addr, In addr [59; 61; 63; 67; 69; 71]%Z ->
                 (Py.is_ok (_read_word_2c b addr) = false
                  <-> Py.is_ok (b addr) = false \/ Py.is_ok (b (addr + 1)%Z) = false))
    by (intros; apply read_word_fails_iff).
  assert (Hall : (exists a, In a sensor_registers /\ Py.is_ok (b a) = false)
                 <-> exists addr, In addr [59; 61; 63; 67; 69; 71]%Z
                                  /\ Py.is_ok (_read_word_2c b addr) = false).
  { split.
    - intros (a & Hin & Ha). unfold sensor_registers in Hin. cbn [In] in Hin.
      destruct Hin as [<-|[<-|[<-|[<-|[<-|[<-|[<-|[<-|[<-|[<-|[<-|[<-|[]]]]]]]]]]]]];
        [exists 59%Z|exists 59%Z|exists 61%Z|exists 61%Z|exists 63%Z|exists 63%Z
         |exists 67%Z|exists 67%Z|exists 69%Z|exists 69%Z|exists 71%Z|exists 71%Z];
        (split; [cbn; tauto|apply read_word_fails_iff; cbn; tauto]).
    - intros (addr & Hin & Ha). apply read_word_fails_iff in Ha.
      cbn [In] in Hin.
      destruct Hin as [<-|[<-|[<-|[<-|[<-|[<-|[]]]]]]];
        (destruct Ha as [Ha|Ha];
         [eexists; split; [|exact Ha]; cbn; tauto
         |eexists; split; [|exact Ha]; cbn; tauto]). }
  split.
  - intro Hnone. right. exists b.
    assert (Hex : exists addr, In addr [59; 61; 63; 67; 69; 71]%Z
                               /\ Py.is_ok (_read_word_2c b addr) = false).
    { destruct (_read_word_2c b 59) eqn:E1;
        [|exists 59%Z; rewrite E1; cbn; tauto].
      destruct (_read_word_2c b 61) eqn:E2;
        [|exists 61%Z; rewrite E2; cbn; tauto].
      destruct (_read_word_2c b 63) eqn:E3;
        [|exists 63%Z; rewrite E3; cbn; tauto].
      destruct (_read_word_2c b 67) eqn:E4;
        [|exists 67%Z; rewrite E4; cbn; tauto].
      destruct (_read_word_2c b 69) eqn:E5;
        [|exists 69%Z; rewrite E5; cbn; tauto].
      destruct (_read_word_2c b 71) eqn:E6;
        [|exists 71%Z; rewrite E6; cbn; tauto].
      discriminate. }
    apply Hall in Hex. destruct Hex as (a & Hin & Ha). exists a. auto.
  - intros [H|(b0 & a & Hb & Hin & Ha)]; [discriminate|].
    injection Hb as <-.
    assert (Hex : exists a, In a sensor_registers /\ Py.is_ok (b a) = false) by eauto.
    apply Hall in Hex. destruct Hex as (addr & Hin' & Hf).
    cbn [In] in Hin'.
    destruct Hin' as [<-|[<-|[<-|[<-|[<-|[<-|[]]]]]]];
      destruct (_read_word_2c b 59); try discriminate; try reflexivity;
      destruct (_read_word_2c b 61); try discriminate; try reflexivity;
      destruct (_read_word_2c b 63); try discriminate; try reflexivity;
      destruct (_read_word_2c b 67); try discriminate; try reflexivity;
      destruct (_read_word_2c b 69); try discriminate; try reflexivity;
      destruct (_read_word_2c b 71); try discriminate; reflexivity.
Qed.

(** X25: Reading the sensor: there is no reading exactly when the bus is
    missing or one of the twelve byte reads fails, and [detect_motion] then
    answers [False]; a reading (bytes in 0..255) has its three
    accelerations in [-2, 2) g and its three angular rates within 251
    degrees per second. *)
Theorem read_sensor_data_bounds (M : FatigueProcessor.MathLib) (s : t)
    (accel_threshold gyro_threshold : Q)
    (Hbytes : forall b a v, bus s = Some b -> b a = Py.Ok v -> (0 <= v <= 255)%Z) :
  (read_sensor_data s = None
   <-> (bus s = None
        \/ exists b a, bus s = Some b /\ In a sensor_registers
                       /\ Py.is_ok (b a) = false))
  /\ match read_sensor_data s with
     | Some (ax, ay, az, gx, gy, gz) =>
         (-2 <= ax /\ ax < 2) /\ (-2 <= ay /\ ay < 2) /\ (-2 <= az /\ az < 2)
         /\ (-251 < gx /\ gx < 251) /\ (-251 < gy /\ gy < 251)
         /\ (-251 < gz /\ gz < 251)
     | None => detect_motion M s accel_threshold gyro_threshold = false
     end.
Proof.
  split; [apply read_sensor_data_none_iff|].
  unfold detect_motion, read_sensor_data. destruct (bus s) as [b|] eqn:Hb; [|auto].
  assert (Hrange : forall addr r, _read_word_2c b addr = Py.Ok r ->
                                  (-32768 <= r <= 32767)%Z).
  { intros addr r. apply read_word_range. intros a v. apply (Hbytes b a v eq_refl). }
  destruct (_read_word_2c b 59) as [ax|] eqn:E1; [|reflexivity].
  destruct (_read_word_2c b 61) as [ay|] eqn:E2; [|reflexivity].
  destruct (_read_word_2c b 63) as [az|] eqn:E3; [|reflexivity].
  destruct (_read_word_2c b 67) as [gx|] eqn:E4; [|reflexivity].
  destruct (_read_word_2c b 69) as [gy|] eqn:E5; [|reflexivity].
  destruct (_read_word_2c b 71) as [gz|] eqn:E6; [|reflexivity].
  repeat split;
    try (apply accel_range; eapply Hrange; eassumption);
    try (apply gyro_range; eapply Hrange; eassumption).
Qed.

Lemma read_sensor_data_bounds_witness :
  let s := {| bus := Some (constant_bus 255) |} in
  (read_sensor_data s = None
   <-> (bus s = None
        \/ exists b a, bus s = Some b /\ In a sensor_registers
                       /\ Py.is_ok (b a) = false))
  /\ match read_sensor_data s with
     | Some (ax, ay, az, gx, gy, gz) =>
         (-2 <= ax /\ ax < 2) /\ (-2 <= ay /\ ay < 2) /\ (-2 <= az /\ az < 2)
         /\ (-251 < gx /\ gx < 251) /\ (-251 < gy /\ gy < 251)
         /\ (-251 < gz /\ gz < 251)
     | None => detect_motion approx_math s 0.5 0.5 = false
     end.
Proof.
  apply (read_sensor_data_bounds approx_math {| bus := Some (constant_bus 255) |} 0.5 0.5).
  intros b a v Hb Hv. cbn in Hb. injection Hb as <-.
  unfold constant_bus in Hv. injection Hv as <-. lia.
Defined.

End SensorWords.

(** ** The sensor thread and the sleep mode *)

Section SensorThread.

Import Gui GuiSignals MPUThread Samples.

Variable M : FatigueProcessor.MathLib.

Lemma passes_cons (th : t) (p : Pass) (rest : list Pass) :
  passes M th (p :: rest)
  = (fst (pass M th p) ++ fst (passes M (snd (pass M th p)) rest),
     snd (passes M (snd (pass M th p)) rest)).
Proof.
  cbn [passes]. destruct (pass M th p) as [out th']. cbn [fst snd].
  destruct (passes M th' rest). reflexivity.
Qed.

Lemma passes_app (a b : list Pass) : forall th,
  passes M th (a ++ b)
  = (fst (passes M th a) ++ fst (passes M (snd (passes M th a)) b),
     snd (passes M (snd (passes M th a)) b)).
Proof.
  induction a as [|p a IH]; intro th.
  - cbn. destruct (passes M th b). reflexivity.
  - cbn [app]. rewrite !passes_cons, IH. cbn [fst snd]. rewrite app_assoc. reflexivity.
Qed.

Lemma still_pass (th : t) (p : Pass) :
  still M th p ->
  let start := match no_motion_timer_start th with
               | None => t_start p
               | Some s => s
               end in
  pass M th p
  = if Py.gtb (t_check p - start) (sleep_duration th)
    then ([NoMotion], {| config := config th; no_motion_timer_start := None |})
    else ([], {| config := config th; no_motion_timer_start := Some start |}).
Proof.
  intro Hs. unfold still in Hs. unfold pass, iteration, sleep_duration.
  rewrite Hs. reflexivity.
Qed.

Lemma quiet_passes (ps : list Pass) : forall (th : t) (s : Q),
  no_motion_timer_start th = Some s ->
  Forall (still M th) ps ->
  Forall (fun p => t_check p - s <= sleep_duration th) ps ->
  passes M th ps = ([], th).
Proof.
  induction ps as [|p ps IH]; intros th s Ht Hstill Hshort; [reflexivity|].
  inversion Hstill as [|? ? Hs1 Hs2]; subst.
  inversion Hshort as [|? ? Hq1 Hq2]; subst.
  rewrite passes_cons, (still_pass th p Hs1). cbv zeta. rewrite Ht.
  assert (Hg : Py.gtb (t_check p - s) (sleep_duration th) = false)
    by (apply gtb_le; exact Hq1).
  rewrite Hg. cbn [fst snd app].
  assert (Hth : {| config := config th; no_motion_timer_start := Some s |} = th).
  { destruct th as [cfg tm]. cbn in *. subst. reflexivity. }
  rewrite Hth, (IH th s Ht Hs2 Hq2). reflexivity.
Qed.

(** X26: The sleep countdown of the sensor thread: with the timer idle, passes
    without motion whose clock stays within the sleep duration of the
    first pass emit nothing and leave the timer at the start of that first
    pass; the next still pass read more than the sleep duration after that
    start emits exactly one no-motion signal and idles the timer again. *)
Theorem no_motion_countdown (th : t) (p0 : Pass) (ps : list Pass) (p_last : Pass)
    (Hidle : no_motion_timer_start th = None)
    (Hstill : Forall (still M th) (p0 :: ps ++ [p_last]))
    (Hshort : Forall (fun p => t_check p - t_start p0 <= sleep_duration th) (p0 :: ps))
    (Hlong : sleep_duration th < t_check p_last - t_start p0) :
  passes M th (p0 :: ps)
  = ([], {| config := config th; no_motion_timer_start := Some (t_start p0) |})
  /\ passes M th (p0 :: ps ++ [p_last])
     = ([NoMotion], {| config := config th; no_motion_timer_start := None |}).
Proof.
  inversion Hstill as [|? ? Hs0 Hrest]; subst.
  apply Forall_app in Hrest. destruct Hrest as [Hps Hlast].
  inversion Hlast as [|? ? Hsl _]; subst.
  inversion Hshort as [|? ? Hq0 Hqs]; subst.
  set (th1 := {| config := config th; no_motion_timer_start := Some (t_start p0) |}).
  assert (H0 : pass M th p0 = ([], th1)).
  { rewrite (still_pass th p0 Hs0). cbv zeta. rewrite Hidle.
    assert (Hg : Py.gtb (t_check p0 - t_start p0) (sleep_duration th) = false)
      by (apply gtb_le; exact Hq0).
    rewrite Hg. reflexivity. }
  assert (H1 : passes M th1 ps = ([], th1)).
  { apply (quiet_passes ps th1 (t_start p0)); [reflexivity| |exact Hqs].
    exact Hps. }
  assert (Hfirst : passes M th (p0 :: ps) = ([], th1)).
  { rewrite passes_cons, H0. cbn [fst snd]. rewrite H1. reflexivity. }
  split; [exact Hfirst|].
  change (p0 :: ps ++ [p_last]) with ((p0 :: ps) ++ [p_last]).
  rewrite passes_app, Hfirst. cbn [fst snd app].
  rewrite passes_cons. cbn [passes fst snd].
  assert (Hsl' : still M th1 p_last) by exact Hsl.
  rewrite (still_pass th1 p_last Hsl'). cbv zeta. cbn [no_motion_timer_start th1].
  assert (Hg : Py.gtb (t_check p_last - t_start p0) (sleep_duration th1) = true)
    by (apply gtb_gt; exact Hlong).
  rewrite Hg. reflexivity.
Qed.

Ltac pick_word Hw :=
  first [ solve [apply Hw; first [left; reflexivity | right; reflexivity]]
        | left; pick_word Hw
        | right; pick_word Hw ].

Lemma failing_still (th : t) (p : Pass) : read_fails p -> still M th p.
Proof.
  intros (a & Hin & Hfail). unfold still, MPU6050.detect_motion, MPU6050.read_sensor_data.
  cbn [MPU6050.bus].
  assert (Hw : forall addr, a = addr \/ a = (addr + 1)%Z ->
                 Py.is_ok (MPU6050._read_word_2c (bus_now p) addr) = false).
  { intros addr Ha. unfold MPU6050._read_word_2c.
    destruct Ha as [ <- | -> ].
    - destruct (bus_now p a); [discriminate|reflexivity].
    - destruct (bus_now p addr); [|reflexivity].
      destruct (bus_now p (addr + 1)%Z); [discriminate|reflexivity]. }
  unfold sensor_registers in Hin. cbn [In] in Hin.
  assert (Hcase : Py.is_ok (MPU6050._read_word_2c (bus_now p) 59) = false
                  \/ Py.is_ok (MPU6050._read_word_2c (bus_now p) 61) = false
                  \/ Py.is_ok (MPU6050._read_word_2c (bus_now p) 63) = false
                  \/ Py.is_ok (MPU6050._read_word_2c (bus_now p) 67) = false
                  \/ Py.is_ok (MPU6050._read_word_2c (bus_now p) 69) = false
                  \/ Py.is_ok (MPU6050._read_word_2c (bus_now p) 71) = false).
  { repeat (destruct Hin as [Hin|Hin]; [subst a; pick_word Hw|]). destruct Hin. }
  destruct (MPU6050._read_word_2c (bus_now p) 59); [|reflexivity].
  destruct (MPU6050._read_word_2c (bus_now p) 61); [|reflexivity].
  destruct (MPU6050._read_word_2c (bus_now p) 63); [|reflexivity].
  destruct (MPU6050._read_word_2c (bus_now p) 67); [|reflexivity].
  destruct (MPU6050._read_word_2c (bus_now p) 69); [|reflexivity].
  destruct (MPU6050._read_word_2c (bus_now p) 71); [|reflexivity].
  cbn in Hcase. intuition discriminate.
Qed.

(** X27: A sensor whose reads fail looks like a sensor at rest: the thread
    never emits a motion signal, only no-motion signals; and without a
    bus the thread emits nothing at all. *)
Theorem failing_sensor_is_stillness (ps : list Pass) (th : t)
    (Hfail : Forall read_fails ps) :
  Forall (fun sg => sg = NoMotion) (fst (run M true th ps))
  /\ run M false th ps = ([], th).
Proof.
  split; [|reflexivity]. unfold run. revert th.
  induction Hfail as [|p ps Hp _ IH]; intro th; [constructor|].
  rewrite passes_cons. cbn [fst]. apply Forall_app. split; [|apply IH].
  rewrite (still_pass th p (failing_still th p Hp)). cbv zeta.
  destruct (Py.gtb _ _); repeat constructor.
Qed.

End SensorThread.

Section SensorExamples.

Import Gui GuiSignals MPUThread Samples.

Lemma failing_sensor_is_stillness_witness :
  Forall (fun sg => sg = NoMotion)
         (fst (run approx_math true (init default_settings)
                   [failing_pass 0; failing_pass 200; failing_pass 400]))
  /\ run approx_math false (init default_settings)
         [failing_pass 0; failing_pass 200; failing_pass 400]
     = ([], init default_settings).
Proof.
  apply (failing_sensor_is_stillness approx_math
           [failing_pass 0; failing_pass 200; failing_pass 400] (init default_settings)).
  repeat constructor; exists 59%Z; split; try reflexivity; cbn; auto.
Defined.

Lemma no_motion_countdown_witness :
  passes approx_math (init default_settings)
         (failing_pass 0 :: [failing_pass 100; failing_pass 300])
  = ([], {| config := config (init default_settings);
            no_motion_timer_start := Some (t_start (failing_pass 0)) |})
  /\ passes approx_math (init default_settings)
            (failing_pass 0 :: [failing_pass 100; failing_pass 300] ++ [failing_pass 301])
     = ([NoMotion], {| config := config (init default_settings);
                       no_motion_timer_start := None |}).
Proof.
  apply (no_motion_countdown approx_math (init default_settings) (failing_pass 0)
           [failing_pass 100; failing_pass 300] (failing_pass 301)).
  - reflexivity.
  - repeat constructor; vm_compute; reflexivity.
  - repeat constructor; vm_compute; discriminate.
  - vm_compute. reflexivity.
Defined.

End SensorExamples.

Section SleepMode.

Import Gui GuiSignals Samples.

Lemma frame_keeps_reposo (env : Env) (w : MainWindow) :
  app_state (snd (process_frame env w)) = REPOSO <-> app_state w = REPOSO.
Proof.
  destruct (process_frame_cases env w) as (_ & Hsucc & _).
  destruct (fst (process_frame env w)).
  - destruct (app_state w), (app_state (snd (process_frame env w)));
      cbn in Hsucc; try discriminate; split; intro H; try reflexivity; discriminate.
  - rewrite Hsucc. reflexivity.
Qed.

Lemma reposo_after (signals : list Signal) : forall w,
  app_state (snd (deliver_all signals w)) = REPOSO
  <-> match last_sensor signals with
      | Some asleep => asleep = true
      | None => app_state w = REPOSO
      end.
Proof.
  induction signals as [|sg rest IH]; intro w; [reflexivity|].
  rewrite deliver_all_cons. cbn [snd last_sensor]. rewrite IH.
  destruct (last_sensor rest) as [b|]; [reflexivity|].
  destruct sg as [env| |]; cbn [deliver].
  - apply frame_keeps_reposo.
  - unfold _enter_sleep_mode, bind, read, modify, ret.
    destruct (app_state w) eqn:Hs; cbn; rewrite ?Hs; split; intro; reflexivity.
  - unfold _wake_from_sleep, bind, read, modify, ret.
    destruct (app_state w) eqn:Hs; cbn; rewrite ?Hs; split; intro; discriminate.
Qed.

(** X22: The window is asleep exactly when the last thing the sensor thread
    said was "no motion": frames neither put the window to sleep nor wake
    it, a no-motion signal always leaves it in [REPOSO] and a motion
    signal never does.  Before the sensor has said anything the window is
    asleep only if it started so. *)
Theorem reposo_tracks_sensor (signals : list Signal) (w : MainWindow) :
  app_state (snd (deliver_all signals w)) = REPOSO
  <-> match last_sensor signals with
      | Some asleep => asleep = true
      | None => app_state w = REPOSO
      end.
Proof. exact (reposo_after signals w). Qed.

End SleepMode.

(** ** The centred region of interest *)

Section CentredRoi.

Import RoiAutoexp.

Lemma centered_axis (frame roi_raw lo hi : Z) :
  let size := Z.max lo (Z.min roi_raw hi) in
  let pos := ((frame - size) / 2)%Z in
  (lo <= size)%Z
  /\ ((lo <= hi)%Z -> (size <= hi)%Z)
  /\ (0 <= (frame - size) - 2 * pos <= 1)%Z
  /\ ((size <= frame)%Z -> (0 <= pos)%Z /\ (pos + size <= frame)%Z)
  /\ ((frame < lo)%Z -> (pos < 0)%Z).
Proof.
  cbv zeta.
  pose proof (Z.div_mod (frame - Z.max lo (Z.min roi_raw hi)) 2 ltac:(lia)) as Hdm.
  pose proof (Z.mod_pos_bound (frame - Z.max lo (Z.min roi_raw hi)) 2 ltac:(lia)) as Hb.
  repeat split; try lia.
Qed.

(** X28: The centred rectangle: each side is at least the configured minimum
    and, when minimum and maximum are in order, at most the maximum; the
    rectangle is centred up to the rounding of one pixel; it lies inside
    the frame whenever its side fits, and sticks out of a frame that is
    smaller than the minimum side. *)
Theorem centered_roi_geometry (frame_width frame_height : Z)
    (config : option RoiConfig) :
  let '(x, y, w, h) := centered frame_width frame_height config in
  let c := FatigueProcessor.get config DEFAULT_ROI_CONFIG in
  let min_w := FatigueProcessor.get (MIN_ROI_WIDTH c) 200%Z in
  let max_w := FatigueProcessor.get (MAX_ROI_WIDTH c) 800%Z in
  let min_h := FatigueProcessor.get (MIN_ROI_HEIGHT c) 150%Z in
  let max_h := FatigueProcessor.get (MAX_ROI_HEIGHT c) 600%Z in
  ((min_w <= w)%Z /\ ((min_w <= max_w)%Z -> (w <= max_w)%Z)
   /\ (0 <= (frame_width - w) - 2 * x <= 1)%Z
   /\ ((w <= frame_width)%Z -> (0 <= x)%Z /\ (x + w <= frame_width)%Z)
   /\ ((frame_width < min_w)%Z -> (x < 0)%Z))
  /\ ((min_h <= h)%Z /\ ((min_h <= max_h)%Z -> (h <= max_h)%Z)
      /\ (0 <= (frame_height - h) - 2 * y <= 1)%Z
      /\ ((h <= frame_height)%Z -> (0 <= y)%Z /\ (y + h <= frame_height)%Z)
      /\ ((frame_height < min_h)%Z -> (y < 0)%Z)).
Proof.
  unfold centered. cbv zeta. split; apply centered_axis.
Qed.

Lemma roi_eqb_eq (a b : Z * Z * Z * Z) : roi_eqb a b = true <-> a = b.
Proof.
  destruct a as [[[x y] w] h], b as [[[x' y'] w'] h']. unfold roi_eqb.
  rewrite !andb_true_iff, !Z.eqb_eq. split.
  - intros [[[-> ->] ->] ->]. reflexivity.
  - intro H. injection H as -> -> -> ->. auto.
Qed.

Lemma frame_step_fix (width height : Z) (cfg : option RoiConfig) (st : t) :
  roi_selected st = true ->
  (auto_center_enabled st = true -> roi st = Some (centered width height cfg)) ->
  frame_step width height cfg st = st.
Proof.
  destruct st as [sel r auto]. cbn [roi_selected auto_center_enabled roi].
  intros -> Hr. unfold frame_step, ensure_roi_centered.
  cbn [roi_selected auto_center_enabled roi].
  destruct auto; [|reflexivity].
  rewrite (Hr eq_refl). cbn [negb].
  rewrite (proj2 (roi_eqb_eq (centered width height cfg) _) eq_refl). reflexivity.
Qed.

Lemma frame_step_cases (width height : Z) (cfg : option RoiConfig) (st : t) :
  let st' := frame_step width height cfg st in
  roi_selected st' = true
  /\ auto_center_enabled st' = auto_center_enabled st
  /\ (auto_center_enabled st = true -> roi st' = Some (centered width height cfg))
  /\ (auto_center_enabled st = false ->
      if roi_selected st then st' = st
      else roi st' = Some (centered width height cfg)).
Proof.
  cbv zeta. unfold frame_step, ensure_roi_centered, init_centered_roi.
  destruct st as [sel r auto]. cbn [auto_center_enabled roi_selected roi].
  destruct auto; cbn [negb].
  - destruct sel; [destruct r as [cur|]|];
      cbn [negb roi_selected roi auto_center_enabled].
    + destruct (roi_eqb cur (centered width height cfg)) eqn:E;
        cbn [negb roi_selected roi auto_center_enabled].
      * apply roi_eqb_eq in E. subst cur. repeat split; auto; discriminate.
      * repeat split; auto; discriminate.
    + repeat split; auto; discriminate.
    + repeat split; auto; discriminate.
  - destruct sel; cbn [negb roi_selected roi auto_center_enabled];
      repeat split; auto; discriminate.
Qed.

(** X29: What step 1 of a frame does to the region of interest: afterwards a
    region is selected; with automatic centring on it is the centred
    rectangle of that frame, whatever was selected before; with automatic
    centring off a selected region is left alone and a missing one is
    replaced by the centred rectangle.  Doing the step again on a frame of
    the same size changes nothing. *)
Theorem frame_step_roi (width height : Z) (cfg : option RoiConfig) (st : t) :
  let st' := frame_step width height cfg st in
  roi_selected st' = true
  /\ auto_center_enabled st' = auto_center_enabled st
  /\ (auto_center_enabled st = true -> roi st' = Some (centered width height cfg))
  /\ (auto_center_enabled st = false ->
      if roi_selected st then st' = st
      else roi st' = Some (centered width height cfg))
  /\ frame_step width height cfg st' = st'.
Proof.
  cbv zeta.
  destruct (frame_step_cases width height cfg st) as (H1 & H2 & H3 & H4).
  repeat (split; [assumption|]).
  apply frame_step_fix; [exact H1|]. rewrite H2. exact H3.
Qed.

End CentredRoi.

(** ** Hands near the eyes *)

Section EyeRubbing.

Import FatigueProcessor Deteccion Samples.

Variable M : MathLib.

Lemma scan_points_spec (fw fh radius : Q) (lc rc : point) (hand : list point)
    (idx : list nat) : forall flags,
  Forall (fun i => (i < length hand)%nat) idx ->
  scan_points M fw fh radius lc rc hand idx flags
  = Py.Ok (fst flags
           || existsb (fun i => match nth_error hand i with
                                | Some p =>
                                    Py.ltb (_distance M
                                              (inject_Z (Py.int (fst p * fw)),
                                               inject_Z (Py.int (snd p * fh))) lc)
                                           radius
                                | None => false
                                end) idx,
           snd flags
           || existsb (fun i => match nth_error hand i with
                                | Some p =>
                                    Py.ltb (_distance M
                                              (inject_Z (Py.int (fst p * fw)),
                                               inject_Z (Py.int (snd p * fh))) rc)
                                           radius
                                | None => false
                                end) idx).
Proof.
  induction idx as [|i idx IH]; intros [l r] Hall.
  - cbn. rewrite !orb_false_r. reflexivity.
  - inversion Hall as [|? ? Hi Hrest]; subst. cbn [scan_points existsb].
    destruct (nth_error hand i) as [p|] eqn:E; [|apply nth_error_None in E; lia].
    rewrite (IH _ Hrest). unfold touch. cbn [fst snd].
    destruct (Py.ltb _ radius), (Py.ltb _ radius), l, r; reflexivity.
Qed.

Lemma scan_points_short (fw fh radius : Q) (lc rc : point) (hand : list point)
    (idx : list nat) : forall flags,
  Exists (fun i => (length hand <= i)%nat) idx ->
  scan_points M fw fh radius lc rc hand idx flags = Py.Raise Py.IndexError.
Proof.
  induction idx as [|i idx IH]; intros flags Hex;
    inversion Hex as [? ? Hi|? ? Hrest]; subst; cbn [scan_points].
  - apply nth_error_None in Hi. rewrite Hi. reflexivity.
  - destruct (nth_error hand i); [apply IH; exact Hrest|reflexivity].
Qed.

Lemma scan_hands_spec (fw fh radius : Q) (lc rc : point) (hands : list (list point)) :
  forall flags,
  Forall (fun hand => (13 <= length hand)%nat) hands ->
  scan_hands M fw fh radius lc rc hands flags
  = Py.Ok (fst flags || existsb (near_eye M fw fh radius lc) hands,
           snd flags || existsb (near_eye M fw fh radius rc) hands).
Proof.
  induction hands as [|hand hands IH]; intros [l r] Hall.
  - cbn. rewrite !orb_false_r. reflexivity.
  - inversion Hall as [|? ? Hh Hrest]; subst. cbn [scan_hands existsb].
    rewrite scan_points_spec
      by (unfold key_hand_points; repeat (apply Forall_cons; [lia|]); apply Forall_nil).
    rewrite (IH _ Hrest). cbn [fst snd]. unfold near_eye.
    rewrite !orb_assoc. reflexivity.
Qed.

Lemma scan_hands_short (fw fh radius : Q) (lc rc : point) (hands : list (list point)) :
  forall flags,
  Exists (fun hand => (length hand < 13)%nat) hands ->
  Py.is_ok (scan_hands M fw fh radius lc rc hands flags) = false.
Proof.
  induction hands as [|hand hands IH]; intros flags Hex;
    inversion Hex as [? ? Hh|? ? Hrest]; subst; cbn [scan_hands].
  - rewrite scan_points_short; [reflexivity|].
    unfold key_hand_points. apply Exists_cons_tl, Exists_cons_tl, Exists_cons_hd. lia.
  - destruct (scan_points _ _ _ _ _ _ _ _ _); [apply IH; exact Hrest|reflexivity].
Qed.

(** X30: The eye-rubbing detector: it answers 0 without a face array, without
    hands, without camera settings, on a mesh of fewer than 388 landmarks
    and when some hand has fewer than 13 landmarks.  Otherwise its two
    loops amount to this: bit 1 of the answer says that some fingertip
    (thumb, index or middle) of some hand lies, in pixels, within 0.7 eye
    distances of the centre of the left eye, bit 2 the same for the right
    eye; the order of the hands does not matter. *)
Theorem eye_rubbing_spec (lm : list point) (hands : list (list point))
    (frame_width frame_height : Q) :
  detect_eye_rubbing M None (Some hands) (Some (frame_width, frame_height)) = 0%Z
  /\ detect_eye_rubbing M (Some lm) None (Some (frame_width, frame_height)) = 0%Z
  /\ detect_eye_rubbing M (Some lm) (Some []) (Some (frame_width, frame_height)) = 0%Z
  /\ detect_eye_rubbing M (Some lm) (Some hands) None = 0%Z
  /\ ((length lm < 388)%nat ->
      detect_eye_rubbing M (Some lm) (Some hands) (Some (frame_width, frame_height)) = 0%Z)
  /\ (Exists (fun hand => (length hand < 13)%nat) hands ->
      detect_eye_rubbing M (Some lm) (Some hands) (Some (frame_width, frame_height)) = 0%Z)
  /\ ((388 <= length lm)%nat ->
      Forall (fun hand => (13 <= length hand)%nat) hands ->
      exists left_pts right_pts,
        take lm [33; 160; 158; 133]%nat = Py.Ok left_pts
        /\ take lm [263; 387; 385; 362]%nat = Py.Ok right_pts
        /\ let lc := mean_point left_pts in
           let rc := mean_point right_pts in
           let radius := _distance M lc rc * 0.7 in
           detect_eye_rubbing M (Some lm) (Some hands) (Some (frame_width, frame_height))
           = rub_code (existsb (near_eye M frame_width frame_height radius lc) hands)
                      (existsb (near_eye M frame_width frame_height radius rc) hands)).
Proof.
  split; [reflexivity|]. split; [reflexivity|]. split; [reflexivity|].
  split; [destruct hands; reflexivity|].
  split; [|split].
  - intro Hshort. unfold detect_eye_rubbing. destruct hands as [|h hs]; [reflexivity|].
    destruct (take lm [33; 160; 158; 133]%nat) as [l|] eqn:El; [|reflexivity].
    rewrite (take_raise lm [263; 387; 385; 362]%nat); [reflexivity|].
    apply Exists_cons_tl, Exists_cons_hd. unfold point in *. lia.
  - intro Hex. unfold detect_eye_rubbing. destruct hands as [|h hs]; [reflexivity|].
    destruct (take lm [33; 160; 158; 133]%nat) as [l|]; [|reflexivity].
    destruct (take lm [263; 387; 385; 362]%nat) as [r|]; [|reflexivity].
    cbv zeta.
    pose proof (scan_hands_short frame_width frame_height
                  (_distance M (mean_point l) (mean_point r) * 0.7)
                  (mean_point l) (mean_point r) (h :: hs) (false, false) Hex) as Hs.
    destruct (scan_hands _ _ _ _ _ _ _ _); [discriminate|reflexivity].
  - intros Hlen Hall.
    destruct (take_ok lm [33; 160; 158; 133]%nat) as [l Hl];
      [repeat (apply Forall_cons; [unfold point in *; lia|]); apply Forall_nil|].
    destruct (take_ok lm [263; 387; 385; 362]%nat) as [r Hr];
      [repeat (apply Forall_cons; [unfold point in *; lia|]); apply Forall_nil|].
    exists l, r. split; [exact Hl|]. split; [exact Hr|]. cbv zeta.
    unfold detect_eye_rubbing. destruct hands as [|h hs]; [reflexivity|].
    rewrite Hl, Hr. cbv zeta. rewrite (scan_hands_spec _ _ _ _ _ _ _ Hall).
    cbn [fst snd orb]. unfold rub_code.
    destruct (existsb _ (h :: hs)), (existsb _ (h :: hs)); reflexivity.
Qed.

End EyeRubbing.

Section EyeRubbingExamples.

Import FatigueProcessor Deteccion Samples.

(** On the open-eyes mesh (eye centres 30 px apart on a 100 x 100 frame)
    a hand over the left eye gives 1, a hand between the eyes 3 and a
    hand at the chin 0. *)
Lemma eye_rubbing_examples :
  let pixels := map (fun p => (fst p * 100, snd p * 100)) open_eyes_mesh in
  detect_eye_rubbing approx_math (Some pixels) (Some [hand_at (0.35, 0.4)])
                     (Some (100, 100)) = 1%Z
  /\ detect_eye_rubbing approx_math (Some pixels) (Some [hand_at (0.5, 0.4)])
                        (Some (100, 100)) = 3%Z
  /\ detect_eye_rubbing approx_math (Some pixels) (Some [hand_at (0.5, 0.9)])
                        (Some (100, 100)) = 0%Z.
Proof. vm_compute. repeat split. Qed.

End EyeRubbingExamples.
